(** * WOL magic packet sender: a shallow embedding of [iptime_wol_gui.py]

    The development follows the Python module top to bottom:

    - [Module Py]: the fragment of the Python runtime the module relies on
      (text as sequences of code points, [str.strip], [str.upper],
      [str.replace], [int], [bytes.fromhex], [re.fullmatch]);
    - [Module Eff]: exceptions, the operating-system interface and a small
      state-and-exception monad that records every call in a trace;
    - [Module Wol]: [normalize_mac], [send_magic_packet_advanced],
      [ping_once] and the two workers of [App], [_run_task] and
      [_do_ping];
    - [Module Script]: a scripted operating system, to run the program;
    - [Module Spec]: the vocabulary of the specification;
    - [Module Gui]: [load_config], [save_config], [App.on_save] and
      [PingDialog._ok], with [Module DiskScript], a scripted disk, and
      [Module Observe], the vocabulary for reading traces;
    - the properties of the specification, one theorem per claim, and
      further properties of the code. *)

From Stdlib Require Import String Ascii ZArith NArith Bool Lia DecimalString List.
Import ListNotations.

Set Implicit Arguments.

(* ===================================================================== *)
(** ** The Python runtime fragment *)
(* ===================================================================== *)

Module Py.

(** A [str] is a sequence of Unicode code points, a [bytes] object a
    sequence of octets. *)
Definition char := N.
Definition str := list char.
Definition bytes := list N.

(** Literals: [py "AA:BB"] is the [str] with those (ASCII) characters. *)
Definition ch (a : ascii) : char := N_of_ascii a.
Definition py (s : string) : str := map ch (list_ascii_of_string s).

Definition len {A} (l : list A) : Z := Z.of_nat (length l).

(** What the interpreter decides outside ASCII, and its settings: the
    full upper-case mapping of a code point, [str.isspace], the decimal
    value of a digit character and [sys.get_int_max_str_digits()]
    ([0] switches the limit off).  On ASCII the functions below are
    written out; no property assumes anything about these tables. *)
Class Runtime := {
  nonascii_upper : char -> str;
  nonascii_isspace : char -> bool;
  nonascii_decimal : char -> option Z;
  max_str_digits : nat
}.

(** An interpreter that leaves every non-ASCII character alone. *)
Definition ascii_runtime : Runtime :=
  {| nonascii_upper := fun c => [c];
     nonascii_isspace := fun _ => false;
     nonascii_decimal := fun _ => None;
     max_str_digits := 4300 |}.

Section Text.
Context {R : Runtime}.

Definition is_ascii (c : char) : bool := (c <? 128)%N.

(** [str.isspace] on one character: TAB..CR, FS..US and SPACE in ASCII. *)
Definition ascii_isspace (c : char) : bool :=
  ((9 <=? c) && (c <=? 13) || (28 <=? c) && (c <=? 32))%N.
Definition isspace (c : char) : bool :=
  if is_ascii c then ascii_isspace c else nonascii_isspace c.

(** [str.upper]: character by character, a character may map to several. *)
Definition ascii_upper (c : char) : char :=
  if ((97 <=? c) && (c <=? 122))%N then (c - 32)%N else c.
Definition upper1 (c : char) : str :=
  if is_ascii c then [ascii_upper c] else nonascii_upper c.
Definition upper (s : str) : str := flat_map upper1 s.

(** [str.strip()] and [str.strip(chars)]. *)
Fixpoint lstrip_by (p : char -> bool) (s : str) : str :=
  match s with
  | [] => []
  | c :: t => if p c then lstrip_by p t else s
  end.
Definition rstrip_by (p : char -> bool) (s : str) : str :=
  rev (lstrip_by p (rev s)).
Definition strip_by (p : char -> bool) (s : str) : str :=
  rstrip_by p (lstrip_by p s).

Definition mem (c : char) (chars : str) : bool := existsb (N.eqb c) chars.

Definition strip (s : str) : str := strip_by isspace s.
Definition strip_chars (chars s : str) : str :=
  strip_by (fun c => mem c chars) s.

(** [s.startswith(p)]. *)
Fixpoint startswith (p s : str) : bool :=
  match p, s with
  | [], _ => true
  | _ :: _, [] => false
  | a :: p', b :: s' => (a =? b)%N && startswith p' s'
  end.

(** [str.replace(old, new)]: every non-overlapping occurrence, leftmost
    first.  [skip] counts the characters of a matched occurrence that
    are still to be dropped. *)
Fixpoint replace_from (old new : str) (skip : nat) (s : str) : str :=
  match s with
  | [] => []
  | c :: t =>
      match skip with
      | S k => replace_from old new k t
      | O => if startswith old s
             then new ++ replace_from old new (pred (length old)) t
             else c :: replace_from old new 0 t
      end
  end.
Definition replace (old new s : str) : str :=
  match old with
  | [] => new ++ flat_map (fun c => c :: new) s
  | _ :: _ => replace_from old new 0 s
  end.

(** [str(n)] for an integer. *)
Definition str_of_Z (z : Z) : str := py (NilZero.string_of_int (Z.to_int z)).

(** *** [int(s)] for a [str] argument, base 10 *)

Definition ascii_decimal (c : char) : option Z :=
  if ((48 <=? c) && (c <=? 57))%N then Some (Z.of_N (c - 48)) else None.
Definition decimal (c : char) : option Z :=
  if is_ascii c then ascii_decimal c else nonascii_decimal c.
Definition is_decimal (c : char) : bool :=
  match decimal c with Some _ => true | None => false end.

(** White space as the integer parser skips it. *)
Definition int_isspace (c : char) : bool :=
  if is_ascii c then ((9 <=? c) && (c <=? 13) || (c =? 32))%N
  else nonascii_isspace c.

Fixpoint span {A} (p : A -> bool) (l : list A) : list A * list A :=
  match l with
  | [] => ([], [])
  | x :: t => if p x then let '(a, b) := span p t in (x :: a, b)
              else ([], l)
  end.

Definition underscore : char := ch "_".

(** A digit run may hold single underscores between digits only. *)
Fixpoint underscores_ok (prev_digit : bool) (tok : str) : bool :=
  match tok with
  | [] => prev_digit
  | c :: t => if (c =? underscore)%N then prev_digit && underscores_ok false t
              else underscores_ok true t
  end.

Definition digit_value (tok : str) : Z :=
  fold_left (fun acc c => match decimal c with
                          | Some d => (10 * acc + d)%Z
                          | None => acc
                          end) tok 0%Z.

Definition digit_count (tok : str) : nat :=
  length (filter (fun c => negb (c =? underscore)%N) tok).

Definition within_digit_limit (tok : str) : bool :=
  match max_str_digits with
  | O => true
  | limit => Nat.leb (digit_count tok) limit
  end.

(** [None] stands for the [ValueError] that [int] raises. *)
Definition py_int (s : str) : option Z :=
  let s1 := lstrip_by int_isspace s in
  let '(negative, s2) :=
    match s1 with
    | c :: t => if (c =? ch "+")%N then (false, t)
                else if (c =? ch "-")%N then (true, t)
                else (false, s1)
    | [] => (false, s1)
    end in
  let '(tok, rest) := span (fun c => is_decimal c || (c =? underscore)%N) s2 in
  if underscores_ok false tok && forallb int_isspace rest
     && within_digit_limit tok
  then Some (if negative then (- digit_value tok)%Z else digit_value tok)
  else None.

(** *** [bytes.fromhex] *)

Definition hexval (c : char) : option N :=
  if ((48 <=? c) && (c <=? 57))%N then Some (c - 48)%N
  else if ((65 <=? c) && (c <=? 70))%N then Some (c - 55)%N
  else if ((97 <=? c) && (c <=? 102))%N then Some (c - 87)%N
  else None.

Definition bytes_isspace (c : char) : bool :=
  ((9 <=? c) && (c <=? 13) || (c =? 32))%N.

(** Pairs of hexadecimal digits, ASCII white space allowed between
    pairs; [None] stands for [ValueError]. *)
Fixpoint fromhex (s : str) : option bytes :=
  match s with
  | [] => Some []
  | c :: t =>
      if bytes_isspace c then fromhex t
      else match t with
           | [] => None
           | d :: t' =>
               match hexval c, hexval d, fromhex t' with
               | Some h, Some l, Some r => Some ((16 * h + l)%N :: r)
               | _, _, _ => None
               end
           end
  end.

(** [b * n] for a [bytes] object. *)
Definition times {A} (l : list A) (n : nat) : list A := concat (repeat l n).

(** *** Regular expressions

    The constructs the module's one pattern uses: a character set given
    by ranges, a literal character, concatenation and counted repetition
    [{n}].  [rmatch r k s] holds when a prefix of [s] matches [r] and [k]
    accepts what follows. *)
Inductive regex :=
| Rset (ranges : list (char * char))
| Rchr (c : char)
| Rseq (a b : regex)
| Rrep (a : regex) (n : nat).

Definition in_ranges (c : char) (ranges : list (char * char)) : bool :=
  existsb (fun r => (fst r <=? c) && (c <=? snd r))%N ranges.

Fixpoint rmatch (r : regex) (k : str -> bool) (s : str) : bool :=
  match r with
  | Rset ranges =>
      match s with
      | [] => false
      | c :: t => in_ranges c ranges && k t
      end
  | Rchr a =>
      match s with
      | [] => false
      | c :: t => (c =? a)%N && k t
      end
  | Rseq a b => rmatch a (rmatch b k) s
  | Rrep a n =>
      (fix rep (n : nat) : str -> bool :=
         match n with
         | O => k
         | S n' => rmatch a (rep n')
         end) n s
  end.

Definition at_end (s : str) : bool :=
  match s with [] => true | _ :: _ => false end.

(** [re.fullmatch(r, s)] as a truth value. *)
Definition fullmatch (r : regex) (s : str) : bool := rmatch r at_end s.

End Text.
End Py.

(* ===================================================================== *)
(** ** Exceptions, the operating system and the effect monad *)
(* ===================================================================== *)

Module Eff.
Import Py.

(** An exception is its class and its message ([str(e)]).  Every class
    here derives from [Exception]; interrupts are not modelled. *)
Inductive exn_class := ValueError | RuntimeError | OSError | OtherException.
Inductive exn := Exn (cls : exn_class) (msg : str).

Definition exn_str (e : exn) : str := let 'Exn _ msg := e in msg.

(** The outcome of a call: [inl e] when it raises [e]. *)
Definition result (A : Type) : Type := (exn + A)%type.

Inductive box := ShowInfo | ShowWarning | ShowError.

(** Every call that leaves the program, with what it answered. *)
Inductive event :=
| EvSocket (r : result unit)
| EvSetTimeout (secs : Z) (r : result unit)
| EvSetBroadcast (r : result unit)
| EvSendto (data : bytes) (host : str) (port : Z) (r : result Z)
| EvClose (r : result unit)
| EvSleep (ms : N)
| EvRun (cmd : list str) (r : result Z)
| EvLog (msg : str)
| EvProgress (val : Z)
| EvMessageBox (kind : box) (title msg : str).

(** The operating system, over an arbitrary type of worlds.  Each call
    answers and moves the world; the calls that answer nothing
    ([time.sleep], the Tk calls) only move it, through [sys_step]. *)
Class OS (World : Type) := {
  is_windows : bool;
  sys_socket : World -> result unit * World;
  sys_settimeout : Z -> World -> result unit * World;
  sys_setsockopt : World -> result unit * World;
  sys_sendto : bytes -> str -> Z -> World -> result Z * World;
  sys_close : World -> result unit * World;
  sys_run : list str -> World -> result Z * World;
  sys_step : event -> World -> World
}.

(** The state threaded through a function body: the world, the trace of
    calls made so far and the function's local variables. *)
Record state (World L : Type) := State {
  world : World;
  trace : list event;
  vars : L
}.

Definition M (World L A : Type) : Type :=
  state World L -> result A * state World L.

Section Monad.
Context {World : Type} {os : OS World} {L : Type}.

Definition ret {A} (a : A) : M World L A := fun st => (inr a, st).

Definition bind {A B} (m : M World L A) (k : A -> M World L B) : M World L B :=
  fun st => match m st with
            | (inl e, st') => (inl e, st')
            | (inr a, st') => k a st'
            end.

Definition raise {A} (e : exn) : M World L A := fun st => (inl e, st).

(** [try: m  except Exception as e: handler e]. *)
Definition try_ {A} (m : M World L A) (handler : exn -> M World L A)
  : M World L A :=
  fun st => match m st with
            | (inl e, st') => handler e st'
            | (inr a, st') => (inr a, st')
            end.

Definition get : M World L L := fun st => (inr (vars st), st).
Definition modify (f : L -> L) : M World L unit :=
  fun st => (inr tt, State (world st) (trace st) (f (vars st))).

(** A call that answers: ask the world, record the event. *)
Definition call {A} (f : World -> result A * World) (ev : result A -> event)
  : M World L A :=
  fun st => let '(r, w) := f (world st) in
            (r, State w (trace st ++ [ev r]) (vars st)).

(** A call that answers nothing. *)
Definition emit (ev : event) : M World L unit :=
  fun st => (inr tt, State (sys_step ev (world st)) (trace st ++ [ev])
                           (vars st)).

End Monad.

Notation "x <- m ;; k" := (bind m (fun x => k))
  (at level 61, m at next level, right associativity).
Notation "m ;; k" := (bind m (fun _ => k))
  (at level 61, right associativity).

Section Control.
Context {World : Type} {os : OS World} {L : Type}.

(** [for x in xs: body x]. *)
Fixpoint for_each {X} (xs : list X) (body : X -> M World L unit)
  : M World L unit :=
  match xs with
  | [] => ret tt
  | x :: t => body x ;; for_each t body
  end.

(** A loop whose body may [break]. *)
Inductive flow := Next | Break.

Fixpoint for_each_break {X} (xs : list X) (body : X -> M World L flow)
  : M World L unit :=
  match xs with
  | [] => ret tt
  | x :: t => f <- body x ;;
              match f with
              | Break => ret tt
              | Next => for_each_break t body
              end
  end.

(** [range(n)]. *)
Definition range (n : nat) : list Z := map Z.of_nat (seq 0 n).

(** [with socket.socket(AF_INET, SOCK_DGRAM) as sock: body]: if the
    socket cannot be made the block is not entered.  Otherwise the
    socket is closed on the way out, whether [body] returned or raised:
    [__exit__] calls [close()].  If closing raises, that exception
    leaves the block, also in place of one [body] raised; if not, the
    outcome of [body] is passed on. *)
Definition with_socket {A} (body : M World L A) : M World L A :=
  call sys_socket EvSocket ;;
  fun st => let '(r, st') := body st in
            match call sys_close EvClose st' with
            | (inl e, st'') => (inl e, st'')
            | (inr _, st'') => (r, st'')
            end.

Definition settimeout (secs : Z) : M World L unit :=
  call (sys_settimeout secs) (EvSetTimeout secs).
Definition setsockopt_broadcast : M World L unit :=
  call sys_setsockopt EvSetBroadcast.
Definition sendto (data : bytes) (host : str) (port : Z) : M World L Z :=
  call (sys_sendto data host port) (EvSendto data host port).
Definition subprocess_run (cmd : list str) : M World L Z :=
  call (sys_run cmd) (EvRun cmd).
Definition sleep (ms : N) : M World L unit := emit (EvSleep ms).
Definition log_line (msg : str) : M World L unit := emit (EvLog msg).
Definition set_progress (val : Z) : M World L unit := emit (EvProgress val).
Definition messagebox (kind : box) (title msg : str) : M World L unit :=
  emit (EvMessageBox kind title msg).

(** Calling a function: it runs on locals of its own, [init] at entry,
    dropped at exit. *)
Definition invoke {L' A} (init : L') (f : M World L' A) : M World L A :=
  fun st => let '(r, st') := f (State (world st) (trace st) init) in
            (r, State (world st') (trace st') (vars st)).

End Control.
End Eff.

(* ===================================================================== *)
(** ** The program *)
(* ===================================================================== *)

Module Wol.
Import Py Eff.

(** [DEFAULT_PORTS = [7, 9]]. *)
Definition DEFAULT_PORTS : list Z := [7; 9]%Z.

Definition is_empty (s : str) : bool :=
  match s with [] => true | _ :: _ => false end.

(** The pattern [([0-9A-F]{2}:){5}[0-9A-F]{2}]. *)
Definition HEX : regex := Rset [(ch "0", ch "9"); (ch "A", ch "F")].
Definition mac_pattern : regex :=
  Rseq (Rrep (Rseq (Rrep HEX 2) (Rchr (ch ":"))) 5) (Rrep HEX 2).

Section Program.
Context {R : Runtime} {World : Type} {os : OS World}.

(** [normalize_mac(mac_str)]. *)
Definition normalize_mac (mac_str : str) : result str :=
  let mac := replace (py "-") (py ":") (upper (strip mac_str)) in
  if fullmatch mac_pattern mac then inr mac
  else inl (Exn ValueError
    (py "Invalid MAC address format. Example: AA:BB:CC:DD:EE:FF")).

(** The locals of [send_magic_packet_advanced] that are assigned more
    than once. *)
Record sender_vars := SenderVars {
  success_count : Z;
  results : list str;
  sent_count : Z
}.

Definition set_success_count (v : Z) (l : sender_vars) : sender_vars :=
  SenderVars v (results l) (sent_count l).
Definition set_sent_count (v : Z) (l : sender_vars) : sender_vars :=
  SenderVars (success_count l) (results l) v.
Definition set_results (v : list str) (l : sender_vars) : sender_vars :=
  SenderVars (success_count l) v (sent_count l).
Definition results_append (r : str) (l : sender_vars) : sender_vars :=
  SenderVars (success_count l) (results l ++ [r]) (sent_count l).

(** Lines 55-62: the port specification. *)
Definition parse_ports (port_input : str) : result (list Z) :=
  if is_empty (strip port_input) then inr DEFAULT_PORTS
  else match py_int (strip port_input) with
       | Some port => inr [port]
       | None => inl (Exn ValueError (py "Invalid port number: " ++ port_input))
       end.

(** Lines 65-67: the address check; [inr] carries [mac_clean]. *)
Definition clean_mac (mac : str) : str :=
  upper (replace (py "-") (py "") (replace (py ":") (py "") mac)).

Definition check_mac (mac : str) : result str :=
  let mac_clean := clean_mac mac in
  if negb (len mac_clean =? 12)%Z
     || negb (forallb (fun c => mem c (py "0123456789ABCDEF")) mac_clean)
  then inl (Exn ValueError (py "Invalid MAC address format: " ++ mac))
  else inr mac_clean.

(** Line 71: [b"\xff" * 6 + mac_bytes * 16]. *)
Definition build_packet (mac_bytes : bytes) : bytes :=
  times [255%N] 6 ++ times mac_bytes 16.

Definition lift {L A} (r : result A) : M World L A :=
  match r with inl e => raise e | inr a => ret a end.

(** Lines 85-91: one pass of [for i in range(3)]. *)
Definition send_attempt (magic_packet : bytes) (host : str) (port : Z)
  : M World sender_vars unit :=
  try_ (bytes_sent <- sendto magic_packet host port ;;
        if (bytes_sent =? len magic_packet)%Z
        then modify (fun l => set_sent_count (sent_count l + 1) l)
        else ret tt)
       (fun _ => ret tt) ;;
  sleep 100.

(** Lines 79-97: the body of the [with] block. *)
Definition socket_session (magic_packet : bytes) (host : str) (port : Z)
  : M World sender_vars unit :=
  settimeout 3 ;;
  setsockopt_broadcast ;;
  modify (set_sent_count 0) ;;
  for_each (range 3) (fun _ => send_attempt magic_packet host port) ;;
  l <- get ;;
  if (sent_count l >? 0)%Z
  then modify (fun l => set_success_count (success_count l + 1) l) ;;
       modify (results_append
         (py "Port " ++ str_of_Z port ++ py ": "
          ++ str_of_Z (sent_count l) ++ py "/3 transmission success"))
  else modify (results_append
         (py "Port " ++ str_of_Z port ++ py ": transmission failed")).

(** Lines 77-102: the body of [for port in ports]. *)
Definition send_port (magic_packet : bytes) (host : str) (port : Z)
  : M World sender_vars unit :=
  try_ (with_socket (socket_session magic_packet host port))
       (fun e => modify (results_append
          (py "Port " ++ str_of_Z port ++ py ": Error - " ++ exn_str e))) ;;
  sleep 300.

(** [send_magic_packet_advanced(mac, host, port_input)]. *)
Definition send_magic_packet_advanced (mac host port_input : str)
  : M World sender_vars (bool * list str) :=
  ports <- lift (parse_ports port_input) ;;
  mac_clean <- lift (check_mac mac) ;;
  mac_bytes <- lift (match fromhex mac_clean with
                     | Some b => inr b
                     | None => inl (Exn ValueError
                         (py "non-hexadecimal number found in fromhex() arg"))
                     end) ;;
  let magic_packet := build_packet mac_bytes in
  modify (set_success_count 0) ;;
  modify (set_results []) ;;
  for_each ports (send_port magic_packet host) ;;
  l <- get ;;
  ret ((success_count l >? 0)%Z, results l).

(** [ping_once(host, timeout_ms)]. *)
Definition ping_once {L} (host : str) (timeout_ms : Z) : M World L bool :=
  let cmd :=
    if is_windows
    then [py "ping"; py "-n"; py "1"; py "-w"; str_of_Z timeout_ms; host]
    else [py "ping"; py "-c"; py "1"; py "-W";
          str_of_Z (Z.max 1 (timeout_ms / 1000)); host] in
  try_ (returncode <- subprocess_run cmd ;; ret (returncode =? 0)%Z)
       (fun _ => ret false).

(** Line 215 of [App._run_task]: the host handed to the sender. *)
Definition clean_host (router_ip : str) : str :=
  strip_chars (py "/")
    (replace (py "https://") (py "") (replace (py "http://") (py "") router_ip)).

(** [App._do_ping(host)]; the body of the worker thread it starts is run
    in line.  The one local, [ok], is the monad's variable. *)
Definition check_mark : str := [10003%N].
Definition cross_mark : str := [10007%N].

(** Lines 260-265: the body of [for i in range(10)]. *)
Definition ping_pass (host : str) (i : Z) : M World bool flow :=
  log_line (py "Ping attempt " ++ str_of_Z (i + 1) ++ py "/10 ...") ;;
  set_progress (10 + i * 8) ;;
  up <- ping_once host 1000 ;;
  if up then modify (fun _ => true) ;; ret Break
  else sleep 1000 ;; ret Next.

Definition ping_task (host : str) : M World bool unit :=
  modify (fun _ => false) ;;
  for_each_break (range 10) (ping_pass host) ;;
  ok <- get ;;
  if ok : bool
  then log_line (check_mark ++ py " PC is responding (wake-up confirmed).") ;;
       messagebox ShowInfo (py "Wake Confirmed") (py "Success: PC is responding.") ;;
       set_progress 100
  else log_line (cross_mark ++ py " No response yet. Please try again later.") ;;
       messagebox ShowWarning (py "Check Failed")
         (py "No response yet. Please wait a bit longer and try again.") ;;
       set_progress 0.

Definition _do_ping (host : str) : M World bool unit :=
  log_line (py "Ping check started: " ++ host) ;;
  set_progress 10 ;;
  ping_task host.

(** [App._run_task()], the worker of the Execute button; the three
    arguments are what the entry fields hold. *)
Definition heavy_check_mark : str := [9989%N].

Definition _run_task (var_router_ip var_port var_mac : str)
  : M World unit unit :=
  try_ (set_progress 0 ;;
        let router_ip := strip var_router_ip in
        let port_input := strip var_port in
        mac <- lift (normalize_mac var_mac) ;;
        let host := clean_host router_ip in
        let port_display :=
          if is_empty port_input then py "[7, 9] (default)" else port_input in
        log_line (py "Started: Magic Packet direct transmission, target="
                  ++ host ++ py ", MAC=" ++ mac ++ py ", ports="
                  ++ port_display) ;;
        set_progress 10 ;;
        log_line (py "Transmitting Magic Packet...") ;;
        answer <- invoke (SenderVars 0 [] 0)
                    (send_magic_packet_advanced mac host port_input) ;;
        set_progress 40 ;;
        for_each (snd answer) (fun result => log_line (py "  " ++ result)) ;;
        (if fst answer : bool
         then log_line (heavy_check_mark
                        ++ py " Magic Packet transmission successful!")
         else raise (Exn RuntimeError (py "Transmission failed on all ports"))) ;;
        set_progress 70 ;;
        log_line (py "Transmission successful: Please check if PC is turning on.") ;;
        set_progress 85 ;;
        messagebox ShowInfo (py "Success") (py "WOL packet transmission completed!") ;;
        set_progress 100)
       (fun e =>
          log_line (py "Failed: " ++ exn_str e) ;;
          messagebox ShowError (py "Failed")
            (py "WOL execution failed: " ++ exn_str e) ;;
          set_progress 0).

End Program.
End Wol.

(* ===================================================================== *)
(** ** A scripted operating system, for running the program *)
(* ===================================================================== *)

Module Script.
Import Py Eff.

(** The world is the list of answers the next calls will get; once it is
    used up every call succeeds ([sendto] writes the whole datagram,
    the subprocess exits with status 0). *)
Definition script := list (result Z).

Definition answer_unit (w : script) : result unit * script :=
  match w with
  | [] => (inr tt, [])
  | inl e :: t => (inl e, t)
  | inr _ :: t => (inr tt, t)
  end.

Definition answer (default : Z) (w : script) : result Z * script :=
  match w with
  | [] => (inr default, [])
  | r :: t => (r, t)
  end.

Definition scripted (windows : bool) : OS script :=
  {| is_windows := windows;
     sys_socket := answer_unit;
     sys_settimeout := fun _ => answer_unit;
     sys_setsockopt := answer_unit;
     sys_sendto := fun data _ _ => answer (len data);
     sys_close := answer_unit;
     sys_run := fun _ => answer 0%Z;
     sys_step := fun _ w => w |}.

Definition windows : OS script := scripted true.
Definition posix : OS script := scripted false.

Definition refused : exn := Exn OSError (py "[Errno 101] Network is unreachable").
Definition overflow : exn := Exn OtherException (py "sendto(): port must be 0-65535.").

(** The socket of port 7 opens, its first send raises, the second
    writes 5 bytes, the third the whole datagram; port 9 is left to the
    default, where every call succeeds. *)
Definition one_bad_send : script :=
  [inr 0; inr 0; inr 0; inl refused; inr 5; inr 102]%Z.

(** The socket opens, the three sends write the whole datagram, and
    closing the socket raises. *)
Definition close_failed : exn := Exn OSError (py "[Errno 5] Input/output error").
Definition bad_close : script :=
  [inr 0; inr 0; inr 0; inr 102; inr 102; inr 102; inl close_failed]%Z.

(** A call of the sender, of the poll and of the Execute worker, on a
    fresh trace. *)
Definition sender_entry (w : script) : state script Wol.sender_vars :=
  State w [] (Wol.SenderVars 0 [] 0).
Definition poll_entry (w : script) : state script bool := State w [] false.
Definition task_entry (w : script) : state script unit := State w [] tt.

(** The lines a trace wrote to the log pane. *)
Fixpoint logged (t : list event) : list str :=
  match t with
  | [] => []
  | EvLog msg :: t' => msg :: logged t'
  | _ :: t' => logged t'
  end.

End Script.

(* ===================================================================== *)
(** ** Vocabulary of the specification *)
(* ===================================================================== *)

Module Spec.
Import Py Eff Wol.

(** *** Hardware addresses as text *)

Definition is_hexdigit (c : char) : bool := mem c (py "0123456789abcdefABCDEF").
Definition is_separator (c : char) : bool := mem c (py ":-").

(** Six pairs of hexadecimal digits, in either case, with a colon or a
    dash between pairs. *)
Definition separated_form (s : str) : bool :=
  match s with
  | [a1; a2; s1; b1; b2; s2; c1; c2; s3; d1; d2; s4; e1; e2; s5; f1; f2] =>
      forallb is_hexdigit [a1; a2; b1; b2; c1; c2; d1; d2; e1; e2; f1; f2]
      && forallb is_separator [s1; s2; s3; s4; s5]
  | _ => false
  end.

(** Twelve hexadecimal digits and nothing else. *)
Definition bare_form (s : str) : bool :=
  Nat.eqb (length s) 12 && forallb is_hexdigit s.

(** The canonical text of a sequence of octets: two upper-case
    hexadecimal digits per octet, colons between octets. *)
Definition hexdigit_upper (v : N) : char :=
  nth (N.to_nat v) (py "0123456789ABCDEF") (ch "?").
Definition octet_text (b : N) : str :=
  [hexdigit_upper (b / 16); hexdigit_upper (b mod 16)].
Fixpoint join (sep : str) (parts : list str) : str :=
  match parts with
  | [] => []
  | [p] => p
  | p :: rest => p ++ sep ++ join sep rest
  end.
Definition canonical (octets : bytes) : str := join (py ":") (map octet_text octets).

(** One character for another, and every character but one: what
    [str.replace] does when [old] is a single character. *)
Definition swap (a b c : char) : char := if (a =? c)%N then b else c.
Definition other_than (a c : char) : bool := negb (a =? c)%N.
Definition not_separator (c : char) : bool :=
  other_than (ch ":") c && other_than (ch "-") c.

(** *** Facts on single characters, as the proofs use them *)

Section Characters.
Context {R : Runtime}.

(** What is known of a hexadecimal digit [c], of value [v]. *)
Record hexdigit_facts (c : char) (v : N) : Prop := {
  hf_below : (v < 16)%N;
  hf_ascii : is_ascii c = true;
  hf_nospace : isspace c = false;
  hf_kept : not_separator c = true;
  hf_swap : swap (ch "-") (ch ":") (ascii_upper c) = ascii_upper c;
  hf_in_class :
    in_ranges (ascii_upper c) [(ch "0", ch "9"); (ch "A", ch "F")] = true;
  hf_in_alphabet : mem (ascii_upper c) (py "0123456789ABCDEF") = true;
  hf_hexval : hexval (ascii_upper c) = Some v;
  hf_not_blank : bytes_isspace (ascii_upper c) = false;
  hf_text : hexdigit_upper v = ascii_upper c
}.

(** What is known of a separator. *)
Record separator_facts (c : char) : Prop := {
  sf_ascii : is_ascii c = true;
  sf_dropped : not_separator c = false;
  sf_swap : swap (ch "-") (ch ":") (ascii_upper c) = ch ":"
}.

(** What is known of a character of [0123456789ABCDEF], of value [v]. *)
Record upperhex_facts (c : char) (v : N) : Prop := {
  uf_below : (v < 16)%N;
  uf_hexval : hexval c = Some v;
  uf_not_blank : bytes_isspace c = false
}.

End Characters.

(** *** Host strings *)

(** [old] occurs somewhere in [s]. *)
Fixpoint occurs (old s : str) : bool :=
  startswith old s
  || match s with
     | [] => false
     | _ :: t => occurs old t
     end.

Definition is_slash (c : char) : bool := mem c (py "/").

(** The normalization as the specification words it: one leading scheme
    goes, the slashes at the end go, nothing else changes. *)
Definition drop_leading_scheme (s : str) : str :=
  if startswith (py "http://") s then skipn 7 s
  else if startswith (py "https://") s then skipn 8 s
  else s.
Definition strip_scheme_and_trailing_slashes (router_ip : str) : str :=
  rstrip_by is_slash (drop_leading_scheme router_ip).

(** *** Ports *)

Definition udp_port (p : Z) : bool := (0 <=? p)%Z && (p <=? 65535)%Z.

(** *** What a run of the sender did *)

(** A send that wrote the whole datagram. *)
Definition sent_all (data : bytes) (r : result Z) : bool :=
  match r with
  | inr n => (n =? len data)%Z
  | inl _ => false
  end.

Definition successful_send (ev : event) : bool :=
  match ev with
  | EvSendto data _ _ r => sent_all data r
  | _ => false
  end.

Definition count_sent (data : bytes) (rs : list (result Z)) : Z :=
  len (filter (sent_all data) rs).

(** The three shapes of a line of the results list. *)
Definition success_entry (port sent : Z) : str :=
  py "Port " ++ str_of_Z port ++ py ": " ++ str_of_Z sent
  ++ py "/3 transmission success".
Definition failure_entry (port : Z) : str :=
  py "Port " ++ str_of_Z port ++ py ": transmission failed".
Definition error_entry (port : Z) (e : exn) : str :=
  py "Port " ++ str_of_Z port ++ py ": Error - " ++ exn_str e.

Definition entry_for (port : Z) (line : str) : Prop :=
  exists rest, line = py "Port " ++ str_of_Z port ++ py ": " ++ rest.

(** What processing one port consists of: the calls made, in order, the
    line appended to the results, the line a failing close adds after
    it, and whether the port counts as a success. *)
Record report := Report {
  events : list event;
  entry : str;
  late : list str;
  ok : bool
}.

(** The lines of a port in the results list. *)
Definition lines (r : report) : list str := entry r :: late r.

Definition ok_unit : result unit := inr tt.

(** The exception that leaves a [with] block whose body raised [e] and
    whose close answered [c]. *)
Definition leaving (e : exn) (c : result unit) : exn :=
  match c with
  | inl e' => e'
  | inr _ => e
  end.

(** The line added for a close that raised after the block had written
    the line of its port. *)
Definition close_entry (port : Z) (c : result unit) : list str :=
  match c with
  | inl e => [error_entry port e]
  | inr _ => []
  end.

Inductive port_outcome (data : bytes) (host : str) (port : Z) : report -> Prop :=
| socket_failed e :
    port_outcome data host port
      (Report [EvSocket (inl e)] (error_entry port e) [] false)
| settimeout_failed e c :
    port_outcome data host port
      (Report [EvSocket ok_unit; EvSetTimeout 3 (inl e); EvClose c]
              (error_entry port (leaving e c)) [] false)
| setsockopt_failed e c :
    port_outcome data host port
      (Report [EvSocket ok_unit; EvSetTimeout 3 ok_unit;
               EvSetBroadcast (inl e); EvClose c]
              (error_entry port (leaving e c)) [] false)
| attempts_made r1 r2 r3 c :
    port_outcome data host port
      (Report [EvSocket ok_unit; EvSetTimeout 3 ok_unit; EvSetBroadcast ok_unit;
               EvSendto data host port r1; EvSleep 100;
               EvSendto data host port r2; EvSleep 100;
               EvSendto data host port r3; EvSleep 100;
               EvClose c]
              (if (count_sent data [r1; r2; r3] >? 0)%Z
               then success_entry port (count_sent data [r1; r2; r3])
               else failure_entry port)
              (close_entry port c)
              (count_sent data [r1; r2; r3] >? 0)%Z).

Definition one_if (b : bool) : Z := if b then 1%Z else 0%Z.

(** The number of ports that count as a success. *)
Definition successes (reps : list report) : Z :=
  fold_right (fun r n => (one_if (ok r) + n)%Z) 0%Z reps.

(** The trace of a whole run: each port's calls, then the pause between
    ports. *)
Definition run_trace (reports : list report) : list event :=
  flat_map (fun r => events r ++ [EvSleep 300]) reports.

(** The calls of a trace that send a datagram: where to, what, and
    what the call answered. *)
Fixpoint targets (t : list event) : list Z :=
  match t with
  | [] => []
  | EvSendto _ _ port _ :: t' => port :: targets t'
  | _ :: t' => targets t'
  end.

Fixpoint payloads (t : list event) : list bytes :=
  match t with
  | [] => []
  | EvSendto data _ _ _ :: t' => data :: payloads t'
  | _ :: t' => payloads t'
  end.

Fixpoint outcomes (t : list event) : list (result Z) :=
  match t with
  | [] => []
  | EvSendto _ _ _ r :: t' => r :: outcomes t'
  | _ :: t' => outcomes t'
  end.

(** A call that opens a socket or sets it up, and raised. *)
Definition setup_error (ev : event) : bool :=
  match ev with
  | EvSocket (inl _) | EvSetTimeout _ (inl _) | EvSetBroadcast (inl _) => true
  | _ => false
  end.

(** The ports of the datagrams of one port of the list: three to the
    port when its socket is up, none otherwise. *)
Definition thrice (port : Z) : list Z := [port; port; port].
Definition sends_of (pu : Z * bool) : list Z :=
  if snd pu then thrice (fst pu) else [].

(** The line a port gets for [sent] sends that wrote the whole
    datagram. *)
Definition counted_entry (port sent : Z) : str :=
  if (sent >? 0)%Z then success_entry port sent else failure_entry port.

(** *** Validation *)

Section Validation.
Context {R : Runtime}.

(** A port specification that is not blank and that [int] refuses. *)
Definition port_refused (port_input : str) : bool :=
  negb (is_empty (strip port_input))
  && match py_int (strip port_input) with
     | Some _ => false
     | None => true
     end.

(** Exactly twelve characters, all of them upper-case hexadecimal
    digits. *)
Definition twelve_hex (s : str) : bool :=
  Nat.eqb (length s) 12
  && forallb (fun c => mem c (py "0123456789ABCDEF")) s.

(** An address text that does not normalize to twelve hexadecimal
    digits. *)
Definition mac_refused (mac : str) : bool := negb (twelve_hex (clean_mac mac)).

Definition InvalidPort (port_input : str) : exn :=
  Exn ValueError (py "Invalid port number: " ++ port_input).
Definition InvalidAddress (mac : str) : exn :=
  Exn ValueError (py "Invalid MAC address format: " ++ mac).

(** The datagram built for an address text that passes the check. *)
Definition packet_of (mac : str) : bytes :=
  match fromhex (clean_mac mac) with
  | Some mac_bytes => build_packet mac_bytes
  | None => []
  end.

End Validation.

(** *** What a reachability poll did *)

(** The answers of the probes, oldest first: a probe is one [ping]
    subprocess and succeeds when it exits with status 0. *)
Definition probe_answer (r : result Z) : bool :=
  match r with
  | inr rc => (rc =? 0)%Z
  | inl _ => false
  end.

Fixpoint probes (t : list event) : list bool :=
  match t with
  | [] => []
  | EvRun _ r :: t' => probe_answer r :: probes t'
  | _ :: t' => probes t'
  end.

Definition reachable_report : list event :=
  [EvLog (check_mark ++ py " PC is responding (wake-up confirmed).");
   EvMessageBox ShowInfo (py "Wake Confirmed") (py "Success: PC is responding.");
   EvProgress 100].

Definition unreachable_report : list event :=
  [EvLog (cross_mark ++ py " No response yet. Please try again later.");
   EvMessageBox ShowWarning (py "Check Failed")
     (py "No response yet. Please wait a bit longer and try again.");
   EvProgress 0].

End Spec.

(* ===================================================================== *)
(** ** The rest of the module: configuration and the ping dialog *)
(* ===================================================================== *)

Module Gui.
Import Py Eff Wol.

(** A Python value as [json] reads and writes it; a float is kept by
    its text. *)
#[local] Unset Elimination Schemes.
Inductive value :=
| VNone
| VBool (b : bool)
| VInt (z : Z)
| VFloat (repr : str)
| VStr (s : str)
| VList (items : list value)
| VDict (items : list (str * value)).
#[local] Set Elimination Schemes.

(** [json.loads(text)] and [json.dumps(cfg, ensure_ascii=False, indent=2)]. *)
Class Json := {
  json_loads : str -> result value;
  json_dumps : value -> str
}.

(** The calls on [CONFIG_PATH] and [CONFIG_DIR]: [exists()],
    [read_text(encoding="utf-8")], [mkdir(parents=True, exist_ok=True)]
    and [write_text(text, encoding="utf-8")]. *)
Class Disk (World : Type) := {
  path_exists : World -> result bool * World;
  path_read_text : World -> result str * World;
  dir_mkdir : World -> result unit * World;
  path_write_text : str -> World -> result unit * World
}.

(** The file operations of a call, with what each answered.  The
    functions below have no local that is assigned twice; the variable
    slot of the monad keeps this journal. *)
Inductive file_op :=
| OpExists (r : result bool)
| OpReadText (r : result str)
| OpMkdir (r : result unit)
| OpWriteText (text : str) (r : result unit).

Definition journal := list file_op.

Section Configuration.
Context {R : Runtime} {J : Json} {World : Type} {os : OS World}
        {disk : Disk World}.

Definition file_call {A} (f : World -> result A * World)
           (op : result A -> file_op) : M World journal A :=
  fun st => let '(r, w) := f (world st) in
            (r, State w (trace st) (vars st ++ [op r])).

(** The dictionary [{"router_ip": a, "port": b, "mac": c}]. *)
Definition config_dict (router_ip port mac : str) : value :=
  VDict [(py "router_ip", VStr router_ip);
         (py "port", VStr port);
         (py "mac", VStr mac)].

Definition default_config : value :=
  config_dict (py "http://192.168.0.1/") (py "") (py "").

(** [load_config()]: the [return] inside [try] hands its value out as
    [Some]. *)
Definition load_config : M World journal value :=
  found <- try_ (present <- file_call path_exists OpExists ;;
                 if present : bool
                 then text <- file_call path_read_text OpReadText ;;
                      cfg <- lift (json_loads text) ;;
                      ret (Some cfg)
                 else ret None)
                (fun _ => ret None) ;;
  match found with
  | Some cfg => ret cfg
  | None => ret default_config
  end.

(** [save_config(cfg)]. *)
Definition save_config (cfg : value) : M World journal unit :=
  file_call dir_mkdir OpMkdir ;;
  file_call (path_write_text (json_dumps cfg)) (OpWriteText (json_dumps cfg)).

(** [App.on_save()]; the three arguments are what the entry fields
    hold. *)
Definition on_save (var_router_ip var_port var_mac : str)
  : M World journal unit :=
  try_ (let port_value := strip var_port in
        let router_ip := strip var_router_ip in
        mac <- lift (normalize_mac var_mac) ;;
        let cfg := config_dict router_ip port_value mac in
        save_config cfg ;;
        log_line (check_mark ++ py " Configuration saved successfully"))
       (fun e => messagebox ShowError (py "Save Failed") (exn_str e)).

(** [PingDialog._ok()]: [var_host] is what the entry field holds,
    [on_ok] the callback given to the dialog, which runs on locals of
    its own.  The one variable says whether the dialog has been
    destroyed. *)
Definition _ok (on_ok : str -> M World bool unit) (var_host : str)
  : M World bool unit :=
  let host := strip var_host in
  if is_empty host
  then messagebox ShowError (py "Error") (py "Please enter a target.")
  else try_ (invoke false (on_ok host) ;;
             modify (fun _ => true))
            (fun e => messagebox ShowError (py "Error") (exn_str e)).

(** [App.on_check()] gives the dialog [App._do_ping] as its callback. *)
Definition on_check_ok (var_host : str) : M World bool unit :=
  _ok _do_ping var_host.

End Configuration.
End Gui.

(* ===================================================================== *)
(** ** A scripted disk *)
(* ===================================================================== *)

Module DiskScript.
Import Py Eff Wol Gui Script.

(** On the scripted world a file operation takes its answer from the
    script like any other call: the path exists unless the answer is
    0, and reading yields the text [{}]. *)
Definition answer_bool (w : script) : result bool * script :=
  match w with
  | [] => (inr true, [])
  | inl e :: t => (inl e, t)
  | inr z :: t => (inr (negb (z =? 0)%Z), t)
  end.

Definition answer_text (w : script) : result str * script :=
  match w with
  | [] => (inr (py "{}"), [])
  | inl e :: t => (inl e, t)
  | inr _ :: t => (inr (py "{}"), t)
  end.

Definition scripted_disk : Disk script :=
  {| path_exists := answer_bool;
     path_read_text := answer_text;
     dir_mkdir := answer_unit;
     path_write_text := fun _ => answer_unit |}.

(** A codec that knows one text: [{}] is the empty dictionary, anything
    else does not parse; every value is written as [{}]. *)
Definition toy_json : Json :=
  {| json_loads := fun text =>
       if list_eq_dec N.eq_dec text (py "{}") then inr (VDict [])
       else inl (Exn ValueError (py "Expecting value"));
     json_dumps := fun _ => py "{}" |}.

Definition save_entry (w : script) : state script journal := State w [] [].

(** A callback that cannot start its thread, and a disk that refuses. *)
Definition no_thread : exn := Exn RuntimeError (py "can't start new thread").
Definition thread_refused (host : str) : M script bool unit :=
  raise no_thread.
Definition denied : exn := Exn OSError (py "[Errno 13] Permission denied").

End DiskScript.

(* ===================================================================== *)
(** ** Vocabulary for reading traces *)
(* ===================================================================== *)

Module Observe.
Import Py Eff Wol Spec.

(** The number of events of a kind. *)
Definition tally (p : event -> bool) (t : list event) : nat :=
  length (filter p t).

Definition socket_call (ev : event) : bool :=
  match ev with EvSocket _ => true | _ => false end.
Definition socket_opened (ev : event) : bool :=
  match ev with EvSocket (inr _) => true | _ => false end.
Definition socket_closed (ev : event) : bool :=
  match ev with EvClose _ => true | _ => false end.
Definition socket_configured (ev : event) : bool :=
  match ev with EvSetBroadcast (inr _) => true | _ => false end.

(** A call on the network or on a subprocess. *)
Definition is_network (ev : event) : bool :=
  match ev with
  | EvSocket _ | EvSetTimeout _ _ | EvSetBroadcast _
  | EvSendto _ _ _ _ | EvClose _ | EvRun _ _ => true
  | _ => false
  end.

(** The time spent in [time.sleep], in milliseconds. *)
Fixpoint pause_ms (t : list event) : N :=
  match t with
  | [] => 0
  | EvSleep ms :: t' => ms + pause_ms t'
  | _ :: t' => pause_ms t'
  end.

(** The values given to the progress bar, the hosts datagrams were
    sent to, the commands run and the message boxes shown. *)
Fixpoint progress_values (t : list event) : list Z :=
  match t with
  | [] => []
  | EvProgress v :: t' => v :: progress_values t'
  | _ :: t' => progress_values t'
  end.

Fixpoint hosts (t : list event) : list str :=
  match t with
  | [] => []
  | EvSendto _ host _ _ :: t' => host :: hosts t'
  | _ :: t' => hosts t'
  end.

Fixpoint commands (t : list event) : list (list str) :=
  match t with
  | [] => []
  | EvRun cmd _ :: t' => cmd :: commands t'
  | _ :: t' => commands t'
  end.

Fixpoint boxes (t : list event) : list (box * str * str) :=
  match t with
  | [] => []
  | EvMessageBox kind title msg :: t' => (kind, title, msg) :: boxes t'
  | _ :: t' => boxes t'
  end.

Section Commands.
Context {World : Type} {os : OS World}.

(** The command line of one probe. *)
Definition ping_command (host : str) (timeout_ms : Z) : list str :=
  if is_windows
  then [py "ping"; py "-n"; py "1"; py "-w"; str_of_Z timeout_ms; host]
  else [py "ping"; py "-c"; py "1"; py "-W";
        str_of_Z (Z.max 1 (timeout_ms / 1000)); host].

(** What one pass of the poll leaves in the trace: attempt [i + 1]
    of ten, whose probe answered [r]. *)
Definition pass_events (host : str) (i : Z) (r : result Z) : list event :=
  [EvLog (py "Ping attempt " ++ str_of_Z (i + 1) ++ py "/10 ...");
   EvProgress (10 + i * 8);
   EvRun (ping_command host 1000) r]
  ++ if probe_answer r then [] else [EvSleep 1000].

Fixpoint passes (host : str) (i : Z) (rs : list (result Z)) : list event :=
  match rs with
  | [] => []
  | r :: rs' => pass_events host i r ++ passes host (i + 1) rs'
  end.

End Commands.

(** The answers a poll of at most [n] probes can get: failures, ended
    by the first success or by the [n]-th failure. *)
Inductive polled : nat -> list (result Z) -> Prop :=
| polled_out : polled 0 []
| polled_up n r : probe_answer r = true -> polled (S n) [r]
| polled_down n r rs :
    probe_answer r = false -> polled n rs -> polled (S n) (r :: rs).

(** The probes of a list of answers that failed. *)
Definition failures (rs : list (result Z)) : nat :=
  length (filter (fun r => negb (probe_answer r)) rs).

(** The lines of one port, by kind: [k] sends out of three wrote the
    whole datagram, or none did, or the socket failed. *)
Definition success_line (port : Z) (line : str) : Prop :=
  exists k, (1 <= k <= 3)%Z /\ line = success_entry port k.
Definition failure_line (port : Z) (line : str) : Prop :=
  line = failure_entry port \/ exists e, line = error_entry port e.

(** The lines of one port in the results: its line and, after it, at
    most one error line, that of a close that raised. *)
Definition port_lines (port : Z) (group : list str) : Prop :=
  exists line after,
    group = line :: after
    /\ (success_line port line \/ failure_line port line)
    /\ Forall (failure_line port) after
    /\ (length after <= 1)%nat.

(** What the Execute worker writes once the sender is done. *)
Definition failure_report (e : exn) : list event :=
  [EvLog (py "Failed: " ++ exn_str e);
   EvMessageBox ShowError (py "Failed")
     (py "WOL execution failed: " ++ exn_str e);
   EvProgress 0].

Definition success_report : list event :=
  [EvLog (heavy_check_mark ++ py " Magic Packet transmission successful!");
   EvProgress 70;
   EvLog (py "Transmission successful: Please check if PC is turning on.");
   EvProgress 85;
   EvMessageBox ShowInfo (py "Success") (py "WOL packet transmission completed!");
   EvProgress 100].

Definition all_ports_failed : exn :=
  Exn RuntimeError (py "Transmission failed on all ports").

(** The opening of the Execute worker, up to the call of the sender. *)
Definition task_opening (host mac port_input : str) : list event :=
  [EvProgress 0;
   EvLog (py "Started: Magic Packet direct transmission, target="
          ++ host ++ py ", MAC=" ++ mac ++ py ", ports="
          ++ (if is_empty port_input then py "[7, 9] (default)"
              else port_input));
   EvProgress 10;
   EvLog (py "Transmitting Magic Packet...")].

End Observe.

(* ===================================================================== *)
(** ** Properties *)
(* ===================================================================== *)

Unset Implicit Arguments.
Import Py Eff Wol Spec.

#[local] Arguments N.eqb : simpl never.
#[local] Arguments N.leb : simpl never.
#[local] Arguments N.ltb : simpl never.
#[local] Arguments Z.eqb : simpl never.
#[local] Arguments Z.gtb : simpl never.

Ltac split_andb H :=
  repeat match type of H with
         | (_ && _) = true =>
             let H' := fresh "Hc" in
             apply andb_prop in H; destruct H as [H' H]
         end.

(** *** Text *)

Section TextFacts.
Context {R : Runtime}.

Lemma mem_In c chars : mem c chars = true -> In c chars.
Proof.
  unfold mem. intros H. apply existsb_exists in H.
  destruct H as [x [Hx Hc]]. apply N.eqb_eq in Hc. subst x. exact Hx.
Qed.

Lemma lstrip_by_head p c s : p c = false -> lstrip_by p (c :: s) = c :: s.
Proof. intros H. simpl. rewrite H. reflexivity. Qed.

Lemma strip_by_no_leading p s :
  match s with [] => true | c :: _ => negb (p c) end = true ->
  strip_by p s = rstrip_by p s.
Proof.
  unfold strip_by. destruct s as [|c s]; [reflexivity|].
  intros H. apply negb_true_iff in H.
  rewrite (lstrip_by_head _ _ _ H). reflexivity.
Qed.

Lemma strip_by_kept p c m d :
  p c = false -> p d = false -> strip_by p (c :: m ++ [d]) = c :: m ++ [d].
Proof.
  intros Hc Hd. unfold strip_by, rstrip_by.
  rewrite (lstrip_by_head _ _ _ Hc).
  change (c :: m ++ [d]) with ((c :: m) ++ [d]).
  rewrite rev_app_distr. cbn [rev app].
  rewrite (lstrip_by_head _ _ _ Hd).
  cbn [rev]. rewrite rev_app_distr, rev_involutive. reflexivity.
Qed.

(** Replacing where nothing occurs changes nothing. *)
Lemma occurs_cons old c s :
  occurs old (c :: s) = false ->
  startswith old (c :: s) = false /\ occurs old s = false.
Proof. simpl occurs. intros H. apply orb_false_elim in H. exact H. Qed.

Lemma replace_from_absent old new s :
  occurs old s = false -> replace_from old new 0 s = s.
Proof.
  induction s as [|c s IH]; intros H; [reflexivity|].
  apply occurs_cons in H. destruct H as [H1 H2].
  cbn [replace_from]. rewrite H1, (IH H2). reflexivity.
Qed.

Lemma replace_absent old new s :
  occurs old s = false -> replace old new s = s.
Proof.
  destruct old as [|a old]; intros H.
  - destruct s; discriminate H.
  - apply replace_from_absent, H.
Qed.

(** Replacing one character by another, or by nothing, works character
    by character. *)

Lemma replace_char a b s : replace [a] [b] s = map (swap a b) s.
Proof.
  unfold replace. induction s as [|c s IH]; [reflexivity|].
  cbn [replace_from startswith map length pred]. unfold swap at 1.
  destruct (a =? c)%N; cbn [andb app]; rewrite IH; reflexivity.
Qed.

Lemma remove_char a s : replace [a] [] s = filter (other_than a) s.
Proof.
  unfold replace. induction s as [|c s IH]; [reflexivity|].
  cbn [replace_from startswith filter length pred]. unfold other_than at 1.
  destruct (a =? c)%N; cbn [andb app negb]; rewrite IH; reflexivity.
Qed.

Lemma filter_twice {A} (f g : A -> bool) l :
  filter g (filter f l) = filter (fun x => f x && g x) l.
Proof.
  induction l as [|x l IH]; [reflexivity|].
  cbn [filter]. destruct (f x); cbn [andb filter]; rewrite IH; reflexivity.
Qed.

Lemma clean_mac_filter mac : clean_mac mac = upper (filter not_separator mac).
Proof.
  unfold clean_mac.
  change (py ":") with [ch ":"]. change (py "-") with [ch "-"].
  change (py "") with (@nil char).
  rewrite !remove_char, filter_twice. reflexivity.
Qed.

Lemma upper_ascii s :
  forallb is_ascii s = true -> upper s = map ascii_upper s.
Proof.
  unfold upper. induction s as [|c s IH]; [reflexivity|].
  cbn [forallb flat_map map]. intros H. apply andb_prop in H.
  destruct H as [Hc Hs]. unfold upper1 at 1. rewrite Hc, (IH Hs). reflexivity.
Qed.

Lemma filter_keep {A} (f : A -> bool) x l :
  f x = true -> filter f (x :: l) = x :: filter f l.
Proof. intros H. cbn [filter]. rewrite H. reflexivity. Qed.

Lemma filter_drop {A} (f : A -> bool) x l :
  f x = false -> filter f (x :: l) = filter f l.
Proof. intros H. cbn [filter]. rewrite H. reflexivity. Qed.

Lemma fromhex_pair c d t h l :
  bytes_isspace c = false -> hexval c = Some h -> hexval d = Some l ->
  fromhex (c :: d :: t)
  = match fromhex t with Some r => Some ((16 * h + l)%N :: r) | None => None end.
Proof. intros Hc Hh Hl. cbn [fromhex]. rewrite Hc, Hh, Hl. reflexivity. Qed.

(** The pattern matches strings of seventeen characters only. *)
Lemma mac_pattern_length m :
  fullmatch mac_pattern m = true -> length m = 17%nat.
Proof.
  intros H. unfold fullmatch, mac_pattern, HEX in H.
  do 17 (destruct m as [|? m];
         [cbn [rmatch] in H;
          repeat (apply andb_prop in H; destruct H as [_ H]); discriminate H |]).
  destruct m; [reflexivity|].
  cbn [rmatch at_end] in H.
  repeat (apply andb_prop in H; destruct H as [_ H]). discriminate H.
Qed.

Lemma hexdigit_has_facts c :
  is_hexdigit c = true -> exists v, hexdigit_facts c v.
Proof.
  intros H. apply mem_In in H. vm_compute in H.
  repeat (destruct H as [<- | H];
          [eexists; split; try (vm_compute; reflexivity); reflexivity |]).
  destruct H.
Qed.

Lemma separator_has_facts c : is_separator c = true -> separator_facts c.
Proof.
  intros H. apply mem_In in H. simpl in H.
  destruct H as [<-|[<-|[]]]; split; reflexivity.
Qed.

Lemma octet_text_pair h l :
  (l < 16)%N -> octet_text (16 * h + l) = [hexdigit_upper h; hexdigit_upper l].
Proof.
  intros Hl. unfold octet_text.
  replace ((16 * h + l) / 16)%N with h.
  - replace ((16 * h + l) mod 16)%N with l; [reflexivity|].
    rewrite N.add_comm, N.mul_comm, N.Div0.mod_add.
    symmetry. apply N.mod_small, Hl.
  - rewrite N.add_comm, N.mul_comm, N.div_add by discriminate.
    rewrite (N.div_small l 16 Hl). reflexivity.
Qed.

Lemma upperhex_has_facts c :
  mem c (py "0123456789ABCDEF") = true -> exists v, upperhex_facts c v.
Proof.
  intros H. apply mem_In in H. vm_compute in H.
  repeat (destruct H as [<- | H];
          [eexists; split; try (vm_compute; reflexivity); reflexivity |]).
  destruct H.
Qed.

Lemma check_mac_accepts mac mac_clean :
  check_mac mac = inr mac_clean ->
  mac_clean = clean_mac mac
  /\ length mac_clean = 12%nat
  /\ forallb (fun c => mem c (py "0123456789ABCDEF")) mac_clean = true.
Proof.
  unfold check_mac.
  destruct (len (clean_mac mac) =? 12)%Z eqn:El; [|discriminate].
  destruct (forallb _ (clean_mac mac)) eqn:Ea; [|discriminate].
  cbn [negb orb]. intros H. injection H as <-.
  apply Z.eqb_eq in El. unfold len in El.
  repeat split; [lia | exact Ea].
Qed.

Lemma check_mac_refuses mac e :
  check_mac mac = inl e ->
  (length (clean_mac mac) <> 12%nat
   \/ forallb (fun c => mem c (py "0123456789ABCDEF")) (clean_mac mac) = false)
  /\ e = Exn ValueError (py "Invalid MAC address format: " ++ mac).
Proof.
  unfold check_mac.
  destruct (len (clean_mac mac) =? 12)%Z eqn:El;
    destruct (forallb _ (clean_mac mac)) eqn:Ea; cbn [negb orb];
    try discriminate; intros H; injection H as <-; split; auto.
  left. apply Z.eqb_neq in El. unfold len in El. lia.
Qed.

(** Twelve characters of that alphabet are six octets. *)
Lemma accepted_mac_bytes mac_clean :
  length mac_clean = 12%nat ->
  forallb (fun c => mem c (py "0123456789ABCDEF")) mac_clean = true ->
  exists b1 b2 b3 b4 b5 b6,
    fromhex mac_clean = Some [b1; b2; b3; b4; b5; b6]
    /\ Forall (fun b => (b < 256)%N) [b1; b2; b3; b4; b5; b6].
Proof.
  intros Hl Ha.
  do 12 (destruct mac_clean as [|? mac_clean]; [discriminate Hl|]).
  destruct mac_clean; [|discriminate Hl].
  cbn [forallb] in Ha. split_andb Ha. clear Ha.
  repeat match goal with
         | H : mem ?c _ = true |- _ =>
             apply upperhex_has_facts in H; destruct H as [? []]
         end.
  do 6 eexists. split.
  - repeat (erewrite fromhex_pair by eassumption). reflexivity.
  - repeat constructor; lia.
Qed.

End TextFacts.

(** *** Runs of the sender *)

#[local] Arguments py : simpl never.
#[local] Arguments str_of_Z : simpl never.
#[local] Arguments len : simpl never.

Section SenderRuns.
Context {R : Runtime} {World : Type} {os : OS World}.

Ltac sim :=
  cbn [world trace vars success_count results sent_count for_each range seq map
       set_sent_count set_success_count set_results results_append
       events entry late ok].

Lemma count_sent_three data r1 r2 r3 :
  count_sent data [r1; r2; r3]
  = (one_if (sent_all data r1) + one_if (sent_all data r2)
     + one_if (sent_all data r3))%Z.
Proof.
  unfold count_sent. cbn [filter].
  destruct (sent_all data r1), (sent_all data r2), (sent_all data r3);
    reflexivity.
Qed.

Lemma bind_run {L A B} (m : M World L A) (k : A -> M World L B) st :
  bind m k st
  = match m st with
    | (inl e, st') => (inl e, st')
    | (inr a, st') => k a st'
    end.
Proof. reflexivity. Qed.

(** One attempt never raises: it records the send and the pause, and
    counts the send when the whole datagram was written. *)
Lemma send_attempt_run data host port (st : state World sender_vars) :
  exists r w',
    send_attempt data host port st
    = (inr tt,
       State w' (trace st ++ [EvSendto data host port r; EvSleep 100])
         (SenderVars (success_count (vars st)) (results (vars st))
            (sent_count (vars st) + one_if (sent_all data r)))).
Proof.
  destruct st as [w t [n rs sc]].
  unfold send_attempt, sendto, sleep, try_, bind, call, emit, modify, ret. sim.
  destruct (sys_sendto data host port w) as [r w1].
  exists r. eexists.
  destruct r as [e|a]; cbn [sent_all one_if]; sim.
  - rewrite Z.add_0_r, <- app_assoc. reflexivity.
  - destruct (a =? len data)%Z; sim; cbn [one_if];
      rewrite ?Z.add_0_r, <- app_assoc; reflexivity.
Qed.

Ltac next_attempt r w E :=
  rewrite bind_run;
  match goal with
  | |- context [send_attempt ?d ?h ?p ?s] =>
      destruct (send_attempt_run d h p s) as (r & w & E);
      rewrite E; sim; clear E
  end.

(** The three attempts on an open socket all take place, whatever each
    of them answers. *)
Lemma send_three_run data host port (st : state World sender_vars) :
  exists r1 r2 r3 w',
    for_each (range 3) (fun _ => send_attempt data host port) st
    = (inr tt,
       State w'
         (trace st ++ [EvSendto data host port r1; EvSleep 100;
                       EvSendto data host port r2; EvSleep 100;
                       EvSendto data host port r3; EvSleep 100])
         (SenderVars (success_count (vars st)) (results (vars st))
            (sent_count (vars st) + count_sent data [r1; r2; r3]))).
Proof.
  cbn [for_each range seq map].
  next_attempt r1 w1 E1. next_attempt r2 w2 E2. next_attempt r3 w3 E3.
  exists r1, r2, r3, w3. unfold ret.
  rewrite count_sent_three, <- !app_assoc, !Z.add_assoc. reflexivity.
Qed.

Ltac run :=
  cbv beta iota zeta delta
    [bind try_ call emit modify get ret world trace vars
     success_count results sent_count
     set_sent_count set_success_count results_append
     settimeout setsockopt_broadcast sleep with_socket socket_session
     events entry late ok lines leaving close_entry].

Ltac close_case c :=
  do 3 eexists; split; [|apply c]; run; unfold one_if;
  rewrite ?Z.add_0_r, <- ?app_assoc; reflexivity.

(** Leaving the [with] block after its body raised: the socket is
    closed, and the answer of the close is part of the outcome [c]. *)
Ltac leave_block w c :=
  let e' := fresh "e'" in
  let w' := fresh "w'" in
  destruct (sys_close w) as [[e'|[]] w']; run;
  [close_case (c (@inl exn unit e')) | close_case (c ok_unit)].

(** Processing one port: the calls made are those of one of the four
    outcomes, the lines of the port are appended to the results and the
    counter of successful ports moves accordingly; the loop body never
    raises. *)
Lemma send_port_report data host port (st : state World sender_vars) :
  exists w rep sc,
    send_port data host port st
    = (inr tt,
       State w (trace st ++ events rep ++ [EvSleep 300])
         (SenderVars (success_count (vars st) + one_if (ok rep))
                     (results (vars st) ++ lines rep) sc))
    /\ port_outcome data host port rep.
Proof.
  destruct st as [w0 t0 [n0 rs0 sc0]].
  unfold send_port. run.
  destruct (sys_socket w0) as [[e|[]] w1]; run;
    [close_case (socket_failed data host port e)|].
  destruct (sys_settimeout 3 w1) as [[e|[]] w2]; run;
    [leave_block w2 (settimeout_failed data host port e)|].
  destruct (sys_setsockopt w2) as [[e|[]] w3]; run;
    [leave_block w3 (setsockopt_failed data host port e)|].
  match goal with
  | |- context [for_each _ _ ?s] =>
      destruct (send_three_run data host port s) as (r1 & r2 & r3 & w4 & E);
      rewrite E; run; clear E
  end.
  rewrite Z.add_0_l.
  destruct (count_sent data [r1; r2; r3] >? 0)%Z eqn:Ec; run;
    (destruct (sys_close w4) as [[e'|[]] w5]; run;
     do 3 eexists;
     [split; [|apply (attempts_made data host port r1 r2 r3 (inl e'))]
     |split; [|apply (attempts_made data host port r1 r2 r3 ok_unit)]];
     run; rewrite Ec; unfold one_if;
     rewrite ?Z.add_0_r, <- ?app_assoc; reflexivity).
Qed.

Lemma successes_nonneg reps : (0 <= successes reps)%Z.
Proof.
  induction reps as [|r reps IH]; cbn [successes fold_right]; [lia|].
  fold (successes reps). destruct (ok r); cbn [one_if]; lia.
Qed.

Lemma successes_positive reps :
  (successes reps >? 0)%Z = existsb ok reps.
Proof.
  induction reps as [|r reps IH]; [reflexivity|].
  cbn [successes fold_right existsb]. fold (successes reps).
  pose proof (successes_nonneg reps) as Hn.
  destruct (ok r); cbn [one_if orb].
  - apply Z.gtb_lt. lia.
  - rewrite Z.add_0_l. exact IH.
Qed.

(** The loop over the ports: one report per port, in order; the
    results are the lines of the ports, in order. *)
Lemma send_ports_report data host ports (st : state World sender_vars) :
  exists w reps sc,
    for_each ports (send_port data host) st
    = (inr tt,
       State w (trace st ++ run_trace reps)
         (SenderVars (success_count (vars st) + successes reps)
                     (results (vars st) ++ flat_map lines reps) sc))
    /\ Forall2 (port_outcome data host) ports reps.
Proof.
  revert st. induction ports as [|port ports IH]; intros st.
  - exists (world st), [], (sent_count (vars st)). split; [|constructor].
    destruct st as [w t [n rs sc]]. cbn [for_each]. unfold ret.
    cbn [world trace vars success_count results sent_count run_trace flat_map
         successes fold_right map].
    rewrite Z.add_0_r, !app_nil_r. reflexivity.
  - cbn [for_each]. rewrite bind_run.
    destruct (send_port_report data host port st) as (w1 & rep & sc1 & E & Hrep).
    rewrite E.
    destruct (IH (State w1 (trace st ++ events rep ++ [EvSleep 300])
                    (SenderVars (success_count (vars st) + one_if (ok rep))
                       (results (vars st) ++ lines rep) sc1)))
      as (w2 & reps & sc2 & E2 & Hreps).
    rewrite E2. exists w2, (rep :: reps), sc2.
    split; [|constructor; assumption].
    cbn [world trace vars success_count results sent_count run_trace flat_map
         successes fold_right map].
    fold (successes reps). fold (run_trace reps).
    rewrite <- !app_assoc, Z.add_assoc. reflexivity.
Qed.

Lemma parse_ports_error port_input e :
  parse_ports port_input = inl e ->
  is_empty (strip port_input) = false
  /\ py_int (strip port_input) = None
  /\ e = Exn ValueError (py "Invalid port number: " ++ port_input).
Proof.
  unfold parse_ports.
  destruct (is_empty (strip port_input)); [discriminate|].
  destruct (py_int (strip port_input)); [discriminate|].
  intros H. injection H as <-. auto.
Qed.

(** A port specification that is refused stops the call at once. *)
Lemma sender_port_refused mac host port_input e (st : state World sender_vars) :
  parse_ports port_input = inl e ->
  send_magic_packet_advanced mac host port_input st = (inl e, st).
Proof.
  intros H. unfold send_magic_packet_advanced.
  rewrite bind_run, H. reflexivity.
Qed.

(** So does an address that is refused. *)
Lemma sender_mac_refused mac host port_input ports e
      (st : state World sender_vars) :
  parse_ports port_input = inr ports ->
  check_mac mac = inl e ->
  send_magic_packet_advanced mac host port_input st = (inl e, st).
Proof.
  intros Hp Hm. unfold send_magic_packet_advanced.
  rewrite bind_run, Hp. cbn [lift]. unfold ret at 1.
  rewrite bind_run, Hm. reflexivity.
Qed.

(** A call that passes both checks runs to the end and returns. *)
Lemma sender_accepted mac host port_input ports mac_clean
      (st : state World sender_vars) :
  parse_ports port_input = inr ports ->
  check_mac mac = inr mac_clean ->
  exists mac_bytes w reps sc,
    fromhex mac_clean = Some mac_bytes
    /\ send_magic_packet_advanced mac host port_input st
       = (inr (existsb ok reps, flat_map lines reps),
          State w (trace st ++ run_trace reps)
            (SenderVars (successes reps) (flat_map lines reps) sc))
    /\ Forall2 (port_outcome (build_packet mac_bytes) host) ports reps.
Proof.
  intros Hp Hm. destruct st as [w0 t0 [n0 rs0 sc0]].
  destruct (check_mac_accepts _ _ Hm) as (_ & Hl & Ha).
  destruct (accepted_mac_bytes _ Hl Ha)
    as (b1 & b2 & b3 & b4 & b5 & b6 & Hb & _).
  exists [b1; b2; b3; b4; b5; b6].
  destruct (send_ports_report (build_packet [b1; b2; b3; b4; b5; b6]) host ports
              (State w0 t0 (SenderVars 0 [] sc0)))
    as (w & reps & sc & E & Hreps).
  exists w, reps, sc. split; [exact Hb|]. split; [|exact Hreps].
  cbn [world trace vars success_count results set_results set_success_count] in E.
  unfold send_magic_packet_advanced.
  rewrite bind_run, Hp. cbn [lift]. unfold ret at 1.
  rewrite bind_run, Hm. cbn [lift]. unfold ret at 1.
  rewrite Hb.
  cbv beta iota zeta delta
    [bind modify get ret lift world trace vars success_count results
     sent_count set_success_count set_results].
  rewrite E.
  cbv beta iota zeta delta [app].
  rewrite Z.add_0_l, successes_positive. reflexivity.
Qed.

End SenderRuns.

(** *** Runs of the reachability poll *)

Section PollRuns.
Context {R : Runtime} {World : Type} {os : OS World}.

Lemma probes_app t1 t2 : probes (t1 ++ t2) = probes t1 ++ probes t2.
Proof.
  induction t1 as [|ev t1 IH]; [reflexivity|].
  destruct ev; cbn [app probes]; rewrite IH; reflexivity.
Qed.

(** One probe is one subprocess; it never raises. *)
Lemma ping_once_run {L} host timeout_ms (st : state World L) :
  exists cmd r w',
    ping_once host timeout_ms st
    = (inr (probe_answer r), State w' (trace st ++ [EvRun cmd r]) (vars st)).
Proof.
  unfold ping_once, subprocess_run, try_, bind, call, ret.
  cbv zeta.
  eexists.
  destruct (sys_run _ (world st)) as [r w'].
  exists r, w'.
  destruct r as [e|rc]; reflexivity.
Qed.

Lemma ping_pass_run host i (st : state World bool) :
  exists w' t' up,
    probes t' = [up]
    /\ ping_pass host i st
       = (inr (if up then Break else Next),
          State w' (trace st ++ t') (if up then true else vars st)).
Proof.
  destruct st as [w t b]. unfold ping_pass.
  cbv beta iota zeta delta
    [bind emit log_line set_progress sleep modify ret world trace vars].
  match goal with
  | |- context [ping_once host 1000 ?s] =>
      destruct (ping_once_run host 1000 s) as (cmd & r & w1 & E); rewrite E
  end.
  cbv beta iota zeta delta [world trace vars].
  exists (if probe_answer r then w1 else sys_step (EvSleep 1000) w1).
  exists ([EvLog (py "Ping attempt " ++ str_of_Z (i + 1) ++ py "/10 ...");
           EvProgress (10 + i * 8); EvRun cmd r]
          ++ if probe_answer r then [] else [EvSleep 1000]).
  exists (probe_answer r).
  destruct (probe_answer r) eqn:Er;
    (split; [|rewrite <- !app_assoc; reflexivity]);
    cbn [app probes]; rewrite Er; reflexivity.
Qed.

(** The loop stops at the first probe that succeeds and otherwise goes
    through every index. *)
Lemma ping_loop_run host idxs (st : state World bool) :
  exists w' t' k,
    for_each_break idxs (ping_pass host) st
    = (inr tt,
       State w' (trace st ++ t')
         (if (k <? length idxs)%nat then true else vars st))
    /\ (k <= length idxs)%nat
    /\ probes t'
       = repeat false k ++ (if (k <? length idxs)%nat then [true] else []).
Proof.
  revert st. induction idxs as [|i idxs IH]; intros st.
  - exists (world st), [], 0%nat. destruct st as [w t ok].
    cbn [for_each_break length Nat.ltb Nat.leb world trace vars]. unfold ret.
    rewrite app_nil_r. repeat split. lia.
  - cbn [for_each_break]. rewrite bind_run.
    destruct (ping_pass_run host i st) as (w1 & t1 & up & Hp & E).
    rewrite E. destruct up.
    + exists w1, t1, 0%nat. unfold ret. cbn [length repeat app].
      repeat split; [lia | exact Hp].
    + destruct (IH (State w1 (trace st ++ t1) (vars st)))
        as (w2 & t2 & k & E2 & Hk & Hp2).
      rewrite E2. exists w2, (t1 ++ t2), (S k).
      cbn [world trace vars length].
      change (S k <? S (length idxs))%nat with (k <? length idxs)%nat.
      rewrite <- app_assoc. repeat split; [lia|].
      rewrite probes_app, Hp, Hp2. reflexivity.
Qed.

End PollRuns.

(** *** Reading the reports *)

Section Reports.

Lemma outcome_sendto data host port rep d h p r :
  port_outcome data host port rep ->
  In (EvSendto d h p r) (events rep) -> d = data /\ h = host /\ p = port.
Proof.
  intros Ho Hin. destruct Ho; cbn [events In] in Hin;
    repeat (destruct Hin as [Hin | Hin];
            [try discriminate Hin; injection Hin as -> -> -> _; auto |]);
    destruct Hin.
Qed.

Lemma outcome_ok data host port rep :
  port_outcome data host port rep ->
  ok rep = existsb successful_send (events rep).
Proof.
  intros Ho. destruct Ho; cbn [ok events existsb successful_send orb];
    try reflexivity.
  rewrite !orb_false_r, count_sent_three.
  destruct (sent_all data r1), (sent_all data r2), (sent_all data r3);
    reflexivity.
Qed.

Lemma outcome_entry data host port rep :
  port_outcome data host port rep -> entry_for port (entry rep).
Proof.
  intros Ho. destruct Ho; cbn [entry]; unfold entry_for;
    try (eexists; reflexivity).
  destruct (_ >? _)%Z; eexists; reflexivity.
Qed.

(** The sends of one port: none when the socket could not be set up,
    three otherwise, and the port's line counts those that wrote the
    whole datagram. *)
Lemma outcome_attempts data host port rep :
  port_outcome data host port rep ->
  (outcomes (events rep) = []
   /\ ok rep = false
   /\ exists e, entry rep = error_entry port e)
  \/ (exists r1 r2 r3,
        outcomes (events rep) = [r1; r2; r3]
        /\ entry rep = counted_entry port (count_sent data [r1; r2; r3])
        /\ ok rep = (count_sent data [r1; r2; r3] >? 0)%Z).
Proof.
  intros Ho. destruct Ho; cbn [events entry ok outcomes].
  1-3: left; repeat split; eexists; reflexivity.
  right. exists r1, r2, r3. repeat split.
Qed.

Lemma existsb_run_trace reps :
  existsb successful_send (run_trace reps)
  = existsb (fun r => existsb successful_send (events r)) reps.
Proof.
  induction reps as [|r reps IH]; [reflexivity|].
  cbn [run_trace flat_map existsb]. fold (run_trace reps).
  rewrite !existsb_app, IH. cbn [existsb successful_send].
  rewrite !orb_false_r. reflexivity.
Qed.

Lemma run_trace_ok data host ports reps :
  Forall2 (port_outcome data host) ports reps ->
  existsb ok reps = existsb successful_send (run_trace reps).
Proof.
  intros H. rewrite existsb_run_trace.
  induction H as [|port rep ports reps Ho _ IH]; [reflexivity|].
  cbn [existsb]. rewrite IH, (outcome_ok _ _ _ _ Ho). reflexivity.
Qed.

Lemma run_trace_sendto data host ports reps d h p r :
  Forall2 (port_outcome data host) ports reps ->
  In (EvSendto d h p r) (run_trace reps) ->
  d = data /\ h = host /\ In p ports.
Proof.
  intros H. induction H as [|port rep ports reps Ho _ IH]; [intros []|].
  cbn [run_trace flat_map]. fold (run_trace reps).
  rewrite !in_app_iff. intros [[Hin | Hin] | Hin].
  - destruct (outcome_sendto _ _ _ _ _ _ _ _ Ho Hin) as (-> & -> & ->).
    cbn [In]. auto.
  - destruct Hin as [Hin | []]. discriminate Hin.
  - destruct (IH Hin) as (-> & -> & Hp). cbn [In]. auto.
Qed.

Lemma run_trace_entries data host ports reps :
  Forall2 (port_outcome data host) ports reps ->
  Forall2 entry_for ports (map entry reps).
Proof.
  intros H. induction H as [|port rep ports reps Ho _ IH]; cbn [map];
    constructor; [exact (outcome_entry _ _ _ _ Ho) | exact IH].
Qed.

Lemma targets_app t1 t2 : targets (t1 ++ t2) = targets t1 ++ targets t2.
Proof.
  induction t1 as [|ev t1 IH]; [reflexivity|].
  destruct ev; cbn [app targets]; rewrite IH; reflexivity.
Qed.

(** The datagrams of one port: three to the port when its socket was
    opened and set up, none when one of these calls raised. *)
Lemma outcome_targets data host port rep :
  port_outcome data host port rep ->
  exists up : bool,
    targets (events rep) = sends_of (port, up)
    /\ length (filter setup_error (events rep))
       = length (filter negb [up]).
Proof.
  intros Ho.
  destruct Ho; [exists false | exists false | exists false | exists true];
    split; reflexivity.
Qed.

Lemma run_trace_targets data host ports reps :
  Forall2 (port_outcome data host) ports reps ->
  exists ups,
    length ups = length ports
    /\ targets (run_trace reps) = flat_map sends_of (combine ports ups)
    /\ length (filter setup_error (run_trace reps))
       = length (filter negb ups).
Proof.
  intros H.
  induction H as [|port rep ports reps Ho _ (ups & Hl & Ht & He)].
  - exists []. repeat split.
  - destruct (outcome_targets _ _ _ _ Ho) as (up & Hup & Hue).
    exists (up :: ups).
    cbn [run_trace flat_map combine length]. fold (run_trace reps).
    rewrite !targets_app, !filter_app, !length_app, Hup, Ht, Hue, He, Hl.
    cbn [targets filter setup_error length app].
    split; [reflexivity|]. split.
    + rewrite app_nil_r. reflexivity.
    + destruct up; cbn [negb filter length]; lia.
Qed.

Lemma filter_none {A} (f : A -> bool) l :
  existsb f l = false -> length (filter f l) = 0%nat.
Proof.
  induction l as [|a l IH]; [reflexivity|].
  cbn [existsb filter]. intros H. apply orb_false_iff in H.
  destruct H as [Ha Hl]. rewrite Ha. exact (IH Hl).
Qed.

(** Where no port is left out every port gets its three datagrams. *)
Lemma sends_of_all_up ports ups :
  length ups = length ports ->
  length (filter negb ups) = 0%nat ->
  flat_map sends_of (combine ports ups) = flat_map thrice ports.
Proof.
  revert ups. induction ports as [|port ports IH]; intros [|up ups] Hl Hn;
    try discriminate Hl; [reflexivity|].
  cbn [length] in Hl. injection Hl as Hl.
  destruct up; cbn [filter negb length] in Hn; [|discriminate Hn].
  cbn [combine flat_map]. rewrite (IH ups Hl Hn). reflexivity.
Qed.

Lemma packet_of_bytes {R : Runtime} mac mac_clean mac_bytes :
  check_mac mac = inr mac_clean -> fromhex mac_clean = Some mac_bytes ->
  packet_of mac = build_packet mac_bytes.
Proof.
  intros Hm Hb. destruct (check_mac_accepts _ _ Hm) as (-> & _).
  unfold packet_of. rewrite Hb. reflexivity.
Qed.

End Reports.

(* ===================================================================== *)
(** ** The claims of the specification *)
(* ===================================================================== *)

Section Addresses.
Context {R : Runtime}.

Ltac use_text_facts :=
  repeat match goal with
         | H : hexdigit_upper _ = _ |- _ => rewrite H; clear H
         | H : swap _ _ _ = _ |- _ => rewrite H; clear H
         end.
Ltac use_class_facts :=
  repeat match goal with
         | H : in_ranges _ _ = true |- _ => rewrite H; clear H
         end.
Ltac all_ascii :=
  apply forallb_forall; intros ? Hin; cbn [In] in Hin;
  repeat (destruct Hin as [<- | Hin]; [assumption|]); contradiction.

(** An address text of six pairs of hexadecimal digits with a colon or
    a dash between the pairs normalizes to the canonical text of its
    octets. *)
Lemma separated_normalizes (s : str) :
  separated_form s = true ->
  exists octets,
    fromhex (clean_mac s) = Some octets
    /\ length octets = 6%nat
    /\ normalize_mac s = inr (canonical octets).
Proof.
  intros H.
  do 17 (destruct s as [|? s]; [discriminate H|]).
  destruct s; [|discriminate H].
  unfold separated_form in H. cbn [forallb] in H.
  apply andb_prop in H. destruct H as [Hh Hs].
  split_andb Hh. split_andb Hs. clear Hh Hs.
  repeat match goal with
         | H : is_hexdigit ?c = true |- _ =>
             apply hexdigit_has_facts in H; destruct H as [? []]
         | H : is_separator ?c = true |- _ =>
             apply separator_has_facts in H; destruct H
         end.
  eexists. split; [|split].
  - rewrite clean_mac_filter.
    repeat first [ rewrite filter_keep by assumption
                 | rewrite filter_drop by assumption ].
    cbn [filter].
    rewrite upper_ascii by all_ascii.
    cbn [map].
    repeat (erewrite fromhex_pair by eassumption).
    reflexivity.
  - reflexivity.
  - unfold normalize_mac.
    match goal with
    | |- context [strip (?a :: ?l)] =>
        change (strip (a :: l))
          with (strip_by isspace (a :: removelast l ++ [last l 0%N]))
    end.
    rewrite strip_by_kept by assumption.
    cbn [removelast last app].
    rewrite upper_ascii by all_ascii.
    change (py "-") with [ch "-"]. change (py ":") with [ch ":"].
    rewrite replace_char.
    cbn [removelast last app map canonical join].
    rewrite !octet_text_pair by assumption.
    use_text_facts. cbn [app].
    unfold fullmatch, mac_pattern, HEX. cbn [rmatch].
    use_class_facts. reflexivity.
Qed.

(** Twelve hexadecimal digits without separators are refused by
    [normalize_mac], whatever the digits. *)
Lemma normalize_mac_refuses_bare (s : str) :
  bare_form s = true ->
  normalize_mac s
  = inl (Exn ValueError
           (py "Invalid MAC address format. Example: AA:BB:CC:DD:EE:FF")).
Proof.
  intros H. unfold bare_form in H. apply andb_prop in H.
  destruct H as [Hl Hh]. apply Nat.eqb_eq in Hl.
  do 12 (destruct s as [|? s]; [discriminate Hl|]).
  destruct s; [|discriminate Hl]. clear Hl.
  cbn [forallb] in Hh. split_andb Hh. clear Hh.
  repeat match goal with
         | H : is_hexdigit ?c = true |- _ =>
             apply hexdigit_has_facts in H; destruct H as [? []]
         end.
  unfold normalize_mac.
  match goal with
  | |- context [strip (?a :: ?l)] =>
      change (strip (a :: l))
        with (strip_by isspace (a :: removelast l ++ [last l 0%N]))
  end.
  rewrite strip_by_kept by assumption.
  cbn [removelast last app].
  rewrite upper_ascii by all_ascii.
  change (py "-") with [ch "-"]. change (py ":") with [ch ":"].
  rewrite replace_char.
  match goal with
  | |- context [fullmatch mac_pattern ?m] =>
      destruct (fullmatch mac_pattern m) eqn:E; [|reflexivity];
      apply mac_pattern_length in E; discriminate E
  end.
Qed.

(** The sender's check accepts twelve hexadecimal digits without
    separators and yields them in upper case. *)
Lemma check_mac_bare (s : str) :
  bare_form s = true ->
  check_mac s = inr (map ascii_upper s)
  /\ twelve_hex (map ascii_upper s) = true.
Proof.
  intros H. unfold bare_form in H. apply andb_prop in H.
  destruct H as [Hl Hh]. apply Nat.eqb_eq in Hl.
  do 12 (destruct s as [|? s]; [discriminate Hl|]).
  destruct s; [|discriminate Hl]. clear Hl.
  cbn [forallb] in Hh. split_andb Hh. clear Hh.
  repeat match goal with
         | H : is_hexdigit ?c = true |- _ =>
             apply hexdigit_has_facts in H; destruct H as [? []]
         end.
  unfold check_mac, twelve_hex. rewrite clean_mac_filter.
  repeat rewrite filter_keep by assumption. cbn [filter].
  rewrite upper_ascii by all_ascii.
  unfold len. cbn [map length forallb Nat.eqb].
  repeat match goal with
         | H : mem (ascii_upper _) _ = true |- _ => rewrite H; clear H
         end.
  split; reflexivity.
Qed.

(** C1, as amended.  For every address text of six pairs of hexadecimal
    digits, in either letter case, with a colon or a dash between the
    pairs, [normalize_mac] returns -- it does not raise -- the canonical
    text of the six octets the text denotes: upper-case digits, colons
    between the octets.  The octets are the ones the sender puts in the
    packet for the same text, so two spellings of one address normalize
    to the same string.  For every text of twelve hexadecimal digits
    without separators [normalize_mac] raises [ValueError]; the
    sender's own check accepts such a text and yields its twelve digits
    in upper case, without colons. *)
Theorem normalize_mac_separated (s : str) :
  (separated_form s = true ->
   exists octets,
     fromhex (clean_mac s) = Some octets
     /\ length octets = 6%nat
     /\ normalize_mac s = inr (canonical octets))
  /\ (bare_form s = true ->
      normalize_mac s
      = inl (Exn ValueError
               (py "Invalid MAC address format. Example: AA:BB:CC:DD:EE:FF"))
      /\ check_mac s = inr (map ascii_upper s)
      /\ twelve_hex (map ascii_upper s) = true).
Proof.
  split.
  - apply separated_normalizes.
  - intros H. split; [apply normalize_mac_refuses_bare, H|].
    apply check_mac_bare, H.
Qed.

End Addresses.

Section Hosts.

(** C9, as amended.  The host handed to the sender is the router address
    with every occurrence of [http://] removed, then every occurrence of
    [https://], then the slashes at both ends.  For an address made of an
    optional leading scheme and a remainder that holds neither scheme
    and does not start with a slash, that is: the leading scheme and the
    trailing slashes go and nothing else changes. *)
Theorem clean_host_leading_scheme (scheme body : str) :
  In scheme [[]; py "http://"; py "https://"] ->
  occurs (py "http://") body = false ->
  occurs (py "https://") body = false ->
  startswith (py "/") body = false ->
  clean_host (scheme ++ body) = rstrip_by is_slash body
  /\ clean_host (scheme ++ body)
     = strip_scheme_and_trailing_slashes (scheme ++ body).
Proof.
  intros Hs H1 H2 H3.
  assert (Hstrip : strip_chars (py "/") body = rstrip_by is_slash body).
  { apply strip_by_no_leading. destruct body as [|c b]; [reflexivity|].
    change (py "/") with [47%N] in *. cbn [startswith] in H3.
    unfold mem. cbn [existsb]. rewrite N.eqb_sym.
    destruct (47 =? c)%N; [discriminate H3 | reflexivity]. }
  assert (Hd : drop_leading_scheme body = body).
  { unfold drop_leading_scheme.
    destruct body as [|c b]; [reflexivity|].
    apply occurs_cons in H1. apply occurs_cons in H2.
    destruct H1 as [-> _], H2 as [-> _]. reflexivity. }
  unfold strip_scheme_and_trailing_slashes, clean_host.
  cbn [In] in Hs. destruct Hs as [<-|[<-|[<-|[]]]].
  - cbn [app]. rewrite (replace_absent _ _ _ H1), (replace_absent _ _ _ H2), Hd.
    split; assumption.
  - change (replace (py "http://") (py "") (py "http://" ++ body))
      with (replace_from (py "http://") [] 0 body).
    rewrite (replace_from_absent _ _ _ H1), (replace_absent _ _ _ H2).
    split; [assumption|].
    change (drop_leading_scheme (py "http://" ++ body)) with body. assumption.
  - change (replace (py "http://") (py "") (py "https://" ++ body))
      with (py "https://" ++ replace_from (py "http://") [] 0 body).
    rewrite (replace_from_absent _ _ _ H1).
    change (replace (py "https://") (py "") (py "https://" ++ body))
      with (replace_from (py "https://") [] 0 body).
    rewrite (replace_from_absent _ _ _ H2).
    split; [assumption|].
    change (drop_leading_scheme (py "https://" ++ body)) with body. assumption.
Qed.

End Hosts.

Section Packets.
Context {R : Runtime} {World : Type} {os : OS World}.

Lemma packet_layout b1 b2 b3 b4 b5 b6 :
  let mac_bytes := [b1; b2; b3; b4; b5; b6] in
  let packet := build_packet mac_bytes in
  length packet = 102%nat
  /\ (forall i, (i < 6)%nat -> nth i packet 0%N = 255%N)
  /\ (forall k j, (k < 16)%nat -> (j < 6)%nat ->
        nth (6 + 6 * k + j) packet 0%N = nth j mac_bytes 0%N).
Proof.
  cbv zeta. cbv [build_packet times repeat concat app].
  split; [reflexivity|]. split.
  - intros i Hi. do 6 (destruct i as [|i]; [reflexivity|]). lia.
  - intros k j Hk Hj.
    do 16 (destruct k as [|k];
           [do 6 (destruct j as [|j]; [reflexivity|]); lia |]).
    lia.
Qed.

Lemma payloads_In d t :
  In d (payloads t) -> exists h p r, In (EvSendto d h p r) t.
Proof.
  induction t as [|ev t IH]; [intros []|].
  destruct ev; cbn [payloads In]; intros H;
    try (destruct (IH H) as (h' & p' & r' & Hin); exists h', p', r'; right; exact Hin).
  destruct H as [<- | H].
  - do 3 eexists. left. reflexivity.
  - destruct (IH H) as (h' & p' & r' & Hin). exists h', p', r'. right. exact Hin.
Qed.

Lemma targets_In p t :
  In p (targets t) -> exists d h r, In (EvSendto d h p r) t.
Proof.
  induction t as [|ev t IH]; [intros []|].
  destruct ev; cbn [targets In]; intros H;
    try (destruct (IH H) as (d' & h' & r' & Hin); exists d', h', r'; right; exact Hin).
  destruct H as [<- | H].
  - do 3 eexists. left. reflexivity.
  - destruct (IH H) as (d' & h' & r' & Hin). exists d', h', r'. right. exact Hin.
Qed.

(** C4.  For every address text that passes the sender's check the
    packet is fixed by the text alone: 102 bytes, the first six 0xFF,
    then the six octets of the address sixteen times over (bytes 6 to
    101); and whatever the host, the ports and the network do, every
    datagram the sender hands to [sendto] is that packet. *)
Theorem magic_packet_layout (mac mac_clean : str) :
  check_mac mac = inr mac_clean ->
  exists mac_bytes,
    fromhex mac_clean = Some mac_bytes
    /\ length mac_bytes = 6%nat
    /\ Forall (fun b => (b < 256)%N) mac_bytes
    /\ length (build_packet mac_bytes) = 102%nat
    /\ (forall i, (i < 6)%nat -> nth i (build_packet mac_bytes) 0%N = 255%N)
    /\ (forall k j, (k < 16)%nat -> (j < 6)%nat ->
          nth (6 + 6 * k + j) (build_packet mac_bytes) 0%N
          = nth j mac_bytes 0%N)
    /\ (forall host port_input (st : state World sender_vars) r st',
          send_magic_packet_advanced mac host port_input st = (r, st') ->
          exists new,
            trace st' = trace st ++ new
            /\ Forall (eq (build_packet mac_bytes)) (payloads new)).
Proof.
  intros Hm.
  destruct (check_mac_accepts _ _ Hm) as (_ & Hl & Ha).
  destruct (accepted_mac_bytes _ Hl Ha)
    as (b1 & b2 & b3 & b4 & b5 & b6 & Hb & Hlt).
  exists [b1; b2; b3; b4; b5; b6].
  destruct (packet_layout b1 b2 b3 b4 b5 b6) as (L1 & L2 & L3).
  repeat (split; [assumption || reflexivity|]).
  intros host port_input st r st' Hrun.
  destruct (parse_ports port_input) as [e|ports] eqn:Hp.
  - rewrite (sender_port_refused mac host port_input e st Hp) in Hrun.
    injection Hrun as _ <-. exists []. rewrite app_nil_r. split; constructor.
  - destruct (sender_accepted mac host port_input ports mac_clean st Hp Hm)
      as (mac_bytes & w & reps & sc & Hb' & Erun & Hreps).
    rewrite Hb in Hb'. injection Hb' as <-.
    rewrite Erun in Hrun. injection Hrun as _ <-.
    exists (run_trace reps). split; [reflexivity|].
    apply Forall_forall. intros d Hd.
    destruct (payloads_In _ _ Hd) as (h & p & a & Hin).
    destruct (run_trace_sendto _ _ _ _ _ _ _ _ Hreps Hin) as (-> & _).
    reflexivity.
Qed.

End Packets.

Section Validation.
Context {R : Runtime} {World : Type} {os : OS World}.

Lemma parse_ports_refused port_input :
  port_refused port_input = true ->
  parse_ports port_input = inl (InvalidPort port_input).
Proof.
  unfold port_refused, parse_ports. intros H.
  apply andb_prop in H. destruct H as [He Hi].
  apply negb_true_iff in He. rewrite He.
  destruct (py_int (strip port_input)); [discriminate Hi | reflexivity].
Qed.

Lemma parse_ports_accepted port_input :
  port_refused port_input = false ->
  (is_empty (strip port_input) = true
   /\ parse_ports port_input = inr [7; 9]%Z)
  \/ (exists p, is_empty (strip port_input) = false
                /\ py_int (strip port_input) = Some p
                /\ parse_ports port_input = inr [p]).
Proof.
  unfold port_refused, parse_ports.
  destruct (is_empty (strip port_input)); [left; auto|].
  destruct (py_int (strip port_input)) as [p|]; [|discriminate].
  right. exists p. auto.
Qed.

Lemma check_mac_refused mac :
  mac_refused mac = true -> check_mac mac = inl (InvalidAddress mac).
Proof.
  unfold mac_refused, twelve_hex, check_mac. intros H.
  apply negb_true_iff in H.
  replace (len (clean_mac mac) =? 12)%Z
    with (Nat.eqb (length (clean_mac mac)) 12).
  - rewrite <- negb_andb, H. reflexivity.
  - unfold len. destruct (Nat.eqb_spec (length (clean_mac mac)) 12) as [E|E].
    + rewrite E. reflexivity.
    + symmetry. apply Z.eqb_neq. lia.
Qed.

(** C7, as amended.  A port specification that is not blank and that
    [int] refuses makes the sender raise [InvalidPort]; an address text
    that does not normalize to twelve hexadecimal digits makes it raise
    [InvalidAddress] when the port specification is acceptable.  The
    port is checked first, so when both are refused the error is
    [InvalidPort].  In every case the call ends where it started: the
    world is untouched and the trace has no new event -- no socket was
    opened, nothing was sent. *)
Theorem validation_before_network (mac host port_input : str)
        (st : state World sender_vars) :
  port_refused port_input = true \/ mac_refused mac = true ->
  send_magic_packet_advanced mac host port_input st
  = (inl (if port_refused port_input then InvalidPort port_input
          else InvalidAddress mac), st).
Proof.
  intros H. destruct (port_refused port_input) eqn:Hp.
  - apply sender_port_refused, parse_ports_refused, Hp.
  - destruct H as [H|H]; [discriminate H|].
    destruct (parse_ports_accepted _ Hp) as [(_ & E) | (p & _ & _ & E)];
      eapply sender_mac_refused; eauto using check_mac_refused.
Qed.

(** C6.  With a blank port specification the sender works on the
    default ports 7 and 9, with a specification that [int] reads as [p]
    on port [p] alone.  Whatever the network does the call returns, and
    the ports of the datagrams it sent are, in order, those of the
    list, three times each, less the ports left out; a port is left out
    only for a call that opens or sets up its socket and raised, one
    such call for each port left out.  So where none of these calls
    raises the datagrams go to 7, 7, 7, 9, 9, 9, or to [p], [p], [p],
    and in no case does one go anywhere else. *)
Theorem default_and_single_port (mac host port_input mac_clean : str)
        (p : Z) (ports : list Z) (st : state World sender_vars) :
  check_mac mac = inr mac_clean ->
  (is_empty (strip port_input) = true /\ ports = [7; 9]%Z)
  \/ (is_empty (strip port_input) = false
      /\ py_int (strip port_input) = Some p /\ ports = [p]) ->
  exists flag results st' new,
    send_magic_packet_advanced mac host port_input st
    = (inr (flag, results), st')
    /\ trace st' = trace st ++ new
    /\ (exists ups,
          length ups = length ports
          /\ targets new = flat_map sends_of (combine ports ups)
          /\ length (filter setup_error new) = length (filter negb ups))
    /\ (existsb setup_error new = false ->
        targets new = flat_map thrice ports).
Proof.
  intros Hm Hports.
  assert (Hp : parse_ports port_input = inr ports).
  { unfold parse_ports. destruct Hports as [(-> & ->) | (-> & -> & ->)];
      reflexivity. }
  destruct (sender_accepted mac host port_input ports mac_clean st Hp Hm)
    as (mac_bytes & w & reps & sc & _ & Erun & Hreps).
  destruct (run_trace_targets _ _ _ _ Hreps) as (ups & Hl & Ht & He).
  do 4 eexists. split; [exact Erun|]. split; [reflexivity|]. split.
  - exists ups. auto.
  - intros Hnone. rewrite Ht. apply (sends_of_all_up _ _ Hl).
    rewrite <- He. apply filter_none, Hnone.
Qed.

(** C5, as amended.  The ports of a call that passes validation are the
    defaults 7 and 9, which are UDP ports, or the one integer the port
    specification reads as, whatever its value: the sender checks no
    range.  The call returns and every datagram it sends goes to one of
    these ports, so a port outside 0..65535 is targeted exactly when the
    specification denotes one. *)
Theorem targeted_ports (mac host port_input mac_clean : str)
        (ports : list Z) (st : state World sender_vars) :
  parse_ports port_input = inr ports ->
  check_mac mac = inr mac_clean ->
  exists flag results st' new,
    send_magic_packet_advanced mac host port_input st
    = (inr (flag, results), st')
    /\ trace st' = trace st ++ new
    /\ (forall q, In q (targets new) -> In q ports)
    /\ ((is_empty (strip port_input) = true
         /\ ports = [7; 9]%Z /\ forallb udp_port ports = true)
        \/ (exists p, is_empty (strip port_input) = false
                      /\ py_int (strip port_input) = Some p
                      /\ ports = [p]
                      /\ forallb udp_port ports = udp_port p)).
Proof.
  intros Hp Hm.
  destruct (sender_accepted mac host port_input ports mac_clean st Hp Hm)
    as (mac_bytes & w & reps & sc & _ & Erun & Hreps).
  do 4 eexists. split; [exact Erun|]. split; [reflexivity|]. split.
  - intros q Hq. destruct (targets_In _ _ Hq) as (d & h & r & Hin).
    apply (run_trace_sendto _ _ _ _ _ _ _ _ Hreps Hin).
  - unfold parse_ports in Hp.
    destruct (is_empty (strip port_input)).
    + left. injection Hp as <-. auto.
    + right. destruct (py_int (strip port_input)) as [p|]; [|discriminate Hp].
      injection Hp as <-. exists p. repeat split.
      cbn [forallb]. apply andb_true_r.
Qed.

End Validation.

Section Transmission.
Context {R : Runtime} {World : Type} {os : OS World}.

(** C2.  A call that passes validation returns, and the flag it returns
    is true exactly when one of the sends made during the call wrote the
    whole datagram: that is, when for one of the ports at least one of
    its attempts succeeded.  If no send of any port succeeded the flag
    is false. *)
Theorem aggregate_success_flag (mac host port_input mac_clean : str)
        (ports : list Z) (st : state World sender_vars) :
  parse_ports port_input = inr ports ->
  check_mac mac = inr mac_clean ->
  exists flag results st' new,
    send_magic_packet_advanced mac host port_input st
    = (inr (flag, results), st')
    /\ trace st' = trace st ++ new
    /\ flag = existsb successful_send new
    /\ (flag = true <->
        exists port r,
          In port ports
          /\ In (EvSendto (packet_of mac) host port r) new
          /\ sent_all (packet_of mac) r = true).
Proof.
  intros Hp Hm.
  destruct (sender_accepted mac host port_input ports mac_clean st Hp Hm)
    as (mac_bytes & w & reps & sc & Hb & Erun & Hreps).
  rewrite <- (packet_of_bytes _ _ _ Hm Hb) in Hreps.
  do 4 eexists. split; [exact Erun|]. split; [reflexivity|].
  split; [apply (run_trace_ok _ _ _ _ Hreps)|].
  rewrite (run_trace_ok _ _ _ _ Hreps). split.
  - intros H. apply existsb_exists in H. destruct H as (ev & Hin & Hs).
    destruct ev; try discriminate Hs. cbn [successful_send] in Hs.
    destruct (run_trace_sendto _ _ _ _ _ _ _ _ Hreps Hin) as (-> & -> & Hport).
    eauto.
  - intros (port & r & _ & Hin & Hs). apply existsb_exists.
    exists (EvSendto (packet_of mac) host port r). split; assumption.
Qed.

(** C8.  In a call that passes validation no exception of a send
    reaches the caller: the call returns.  Every port is processed, in
    order, in one of four ways: the socket cannot be created, one of the
    two settings fails, or all three sends are made; a socket that was
    created is closed at the end, and the results are the lines of the
    ports in order.  A port where a send raised therefore still has its
    three sends, and its line counts the sends that wrote the whole
    datagram, a send that raised counting for none. *)
Theorem send_errors_absorbed (mac host port_input mac_clean : str)
        (ports : list Z) (st : state World sender_vars) :
  parse_ports port_input = inr ports ->
  check_mac mac = inr mac_clean ->
  exists flag reps st',
    send_magic_packet_advanced mac host port_input st
    = (inr (flag, flat_map lines reps), st')
    /\ trace st' = trace st ++ run_trace reps
    /\ Forall2 (port_outcome (packet_of mac) host) ports reps
    /\ Forall2 (fun port rep =>
         forall e, In (inl e) (outcomes (events rep)) ->
           sent_all (packet_of mac) (inl e) = false
           /\ exists r1 r2 r3,
                outcomes (events rep) = [r1; r2; r3]
                /\ entry rep
                   = counted_entry port
                       (count_sent (packet_of mac) [r1; r2; r3]))
         ports reps.
Proof.
  intros Hp Hm.
  destruct (sender_accepted mac host port_input ports mac_clean st Hp Hm)
    as (mac_bytes & w & reps & sc & Hb & Erun & Hreps).
  rewrite <- (packet_of_bytes _ _ _ Hm Hb) in Hreps.
  do 3 eexists. split; [exact Erun|]. split; [reflexivity|].
  split; [exact Hreps|].
  clear Erun Hp.
  induction Hreps as [|port rep ports' reps' Ho _ IH]; [constructor|].
  constructor; [|exact IH].
  intros e He. split; [reflexivity|].
  destruct (outcome_attempts _ _ _ _ Ho)
    as [(Hn & _) | (r1 & r2 & r3 & Hs & He' & _)].
  - rewrite Hn in He. destruct He.
  - exists r1, r2, r3. split; assumption.
Qed.

(** The lines of the results: every port has its line, and after it a
    second one exactly when closing the socket raised once the three
    sends had been made and the line written; all of them start with
    [Port <port>: ]. *)
Lemma entries_per_port (mac host port_input mac_clean : str)
      (ports : list Z) (st : state World sender_vars) :
  parse_ports port_input = inr ports ->
  check_mac mac = inr mac_clean ->
  exists flag reps st',
    send_magic_packet_advanced mac host port_input st
    = (inr (flag, flat_map lines reps), st')
    /\ trace st' = trace st ++ run_trace reps
    /\ Forall2 (fun port rep =>
         Forall (entry_for port) (lines rep)
         /\ (late rep = []
             \/ exists e, late rep = [error_entry port e]
                          /\ length (outcomes (events rep)) = 3%nat
                          /\ last (events rep) (EvClose ok_unit)
                             = EvClose (inl e)))
         ports reps.
Proof.
  intros Hp Hm.
  destruct (sender_accepted mac host port_input ports mac_clean st Hp Hm)
    as (mac_bytes & w & reps & sc & _ & Erun & Hreps).
  do 3 eexists. split; [exact Erun|]. split; [reflexivity|].
  clear Erun Hp.
  induction Hreps as [|port rep ports' reps' Ho _ IH]; [constructor|].
  constructor; [|exact IH]. split.
  - unfold lines. constructor; [exact (outcome_entry _ _ _ _ Ho)|].
    destruct Ho; cbn [late]; try constructor.
    destruct c as [e|u]; cbn [close_entry]; repeat constructor.
    eexists. reflexivity.
  - destruct Ho; cbn [late]; try (left; reflexivity).
    destruct c as [e|u]; cbn [close_entry]; [right | left; reflexivity].
    exists e. repeat split.
Qed.

End Transmission.

Section Polling.
Context {R : Runtime} {World : Type} {os : OS World}.

(** C3.  The poll makes between one and ten probes.  Either the first
    [k - 1] probes fail and probe [k] succeeds, for some [k] from 1 to
    10: the poll then stops, having made exactly [k] probes, and reports
    that the host answers; or ten probes fail: the poll has then made
    exactly ten probes and reports that there is no answer.  It never
    raises. *)
Theorem reachability_poll (host : str) (st : state World bool) :
  exists w' polling k,
    (1 <= k <= 10)%nat
    /\ length (probes polling) = k
    /\ ((probes polling = repeat false (k - 1) ++ [true]
         /\ _do_ping host st
            = (inr tt,
               State w' (trace st ++ polling ++ reachable_report) true))
        \/ (k = 10%nat
            /\ probes polling = repeat false 10
            /\ _do_ping host st
               = (inr tt,
                  State w' (trace st ++ polling ++ unreachable_report)
                    false))).
Proof.
  destruct st as [w t b]. unfold _do_ping, ping_task.
  cbv beta iota zeta delta
    [bind emit log_line set_progress messagebox modify get ret
     world trace vars].
  match goal with
  | |- context [for_each_break (range 10) (ping_pass host) ?s] =>
      destruct (ping_loop_run host (range 10) s) as (w1 & t1 & k & E & Hk & Hp)
  end.
  change (length (range 10)) with 10%nat in *.
  cbv beta iota zeta delta [world trace vars] in E.
  destruct (k <? 10)%nat eqn:Hlt.
  - apply Nat.ltb_lt in Hlt.
    eexists.
    exists ([EvLog (py "Ping check started: " ++ host); EvProgress 10] ++ t1).
    exists (S k). split; [lia|].
    rewrite probes_app, Hp. cbn [probes app].
    rewrite length_app, repeat_length. cbn [length]. split; [lia|].
    left. replace (S k - 1)%nat with k by lia. split; [reflexivity|].
    rewrite E. rewrite <- !app_assoc. reflexivity.
  - apply Nat.ltb_ge in Hlt. assert (k = 10%nat) as -> by lia.
    eexists.
    exists ([EvLog (py "Ping check started: " ++ host); EvProgress 10] ++ t1).
    exists 10%nat. split; [lia|].
    rewrite probes_app, Hp. cbn [probes app]. rewrite app_nil_r.
    split; [reflexivity|]. right. split; [reflexivity|]. split; [reflexivity|].
    rewrite E. rewrite <- !app_assoc. reflexivity.
Qed.

End Polling.

(* ===================================================================== *)
(** ** The program at work on the scripted system *)
(* ===================================================================== *)

Import Script.
#[local] Existing Instance ascii_runtime.
#[local] Existing Instance windows.

(** *** Addresses *)

Lemma normalize_mac_separated_witness :
  separated_form (py "aa-bb:Cc-dD-ee-0f") = true
  /\ bare_form (py "aabbCcdDee0f") = true
  /\ (exists octets,
        fromhex (clean_mac (py "aa-bb:Cc-dD-ee-0f")) = Some octets
        /\ length octets = 6%nat
        /\ normalize_mac (py "aa-bb:Cc-dD-ee-0f") = inr (canonical octets))
  /\ normalize_mac (py "aabbCcdDee0f")
     = inl (Exn ValueError
              (py "Invalid MAC address format. Example: AA:BB:CC:DD:EE:FF"))
  /\ check_mac (py "aabbCcdDee0f") = inr (map ascii_upper (py "aabbCcdDee0f"))
  /\ twelve_hex (map ascii_upper (py "aabbCcdDee0f")) = true.
Proof.
  split; [reflexivity|]. split; [reflexivity|]. split.
  - apply (proj1 (normalize_mac_separated (py "aa-bb:Cc-dD-ee-0f"))).
    reflexivity.
  - apply (proj2 (normalize_mac_separated (py "aabbCcdDee0f"))).
    reflexivity.
Defined.

Example normalize_mac_dashes :
  normalize_mac (py " aa-bb:Cc-dD-ee-0f ") = inr (py "AA:BB:CC:DD:EE:0F").
Proof. vm_compute. reflexivity. Qed.

(** C1 fails for the form without separators: the twelve digits
    [AABBCCDDEEFF] pass the sender's own check but [normalize_mac]
    raises [ValueError] for them. *)
Lemma normalize_mac_bare_refused :
  bare_form (py "AABBCCDDEEFF") = true
  /\ check_mac (py "AABBCCDDEEFF") = inr (py "AABBCCDDEEFF")
  /\ normalize_mac (py "AABBCCDDEEFF")
     = inl (Exn ValueError
              (py "Invalid MAC address format. Example: AA:BB:CC:DD:EE:FF")).
Proof. repeat split; vm_compute; reflexivity. Qed.

(** *** Hosts *)

Lemma clean_host_leading_scheme_witness :
  In (py "https://") [[]; py "http://"; py "https://"]
  /\ occurs (py "http://") (py "192.168.0.1/") = false
  /\ occurs (py "https://") (py "192.168.0.1/") = false
  /\ startswith (py "/") (py "192.168.0.1/") = false
  /\ clean_host (py "https://" ++ py "192.168.0.1/")
     = rstrip_by is_slash (py "192.168.0.1/")
  /\ clean_host (py "https://" ++ py "192.168.0.1/")
     = strip_scheme_and_trailing_slashes (py "https://" ++ py "192.168.0.1/").
Proof.
  split; [cbn [In]; auto|]. do 3 (split; [reflexivity|]).
  apply (clean_host_leading_scheme (py "https://") (py "192.168.0.1/"));
    [cbn [In]; auto | reflexivity | reflexivity | reflexivity].
Defined.

(** C9 fails where a scheme occurs inside the address: every occurrence
    is removed, not only the leading one. *)
Lemma clean_host_inner_scheme :
  clean_host (py "http://192.168.0.1/redirect?to=http://10.0.0.1/")
  = py "192.168.0.1/redirect?to=10.0.0.1"
  /\ strip_scheme_and_trailing_slashes
       (py "http://192.168.0.1/redirect?to=http://10.0.0.1/")
     = py "192.168.0.1/redirect?to=http://10.0.0.1"
  /\ clean_host (py "http://192.168.0.1/redirect?to=http://10.0.0.1/")
     <> strip_scheme_and_trailing_slashes
          (py "http://192.168.0.1/redirect?to=http://10.0.0.1/").
Proof.
  split; [vm_compute; reflexivity|]. split; [vm_compute; reflexivity|].
  intros H. vm_compute in H. discriminate H.
Qed.

(** Slashes go at the front as well. *)
Example clean_host_leading_slash :
  clean_host (py "//192.168.0.1/") = py "192.168.0.1".
Proof. vm_compute. reflexivity. Qed.

(** *** Packets *)

Lemma magic_packet_layout_witness :
  check_mac (py "AA:BB:CC:DD:EE:FF") = inr (py "AABBCCDDEEFF")
  /\ exists mac_bytes,
       fromhex (py "AABBCCDDEEFF") = Some mac_bytes
       /\ length mac_bytes = 6%nat
       /\ Forall (fun b => (b < 256)%N) mac_bytes
       /\ length (build_packet mac_bytes) = 102%nat
       /\ (forall i, (i < 6)%nat -> nth i (build_packet mac_bytes) 0%N = 255%N)
       /\ (forall k j, (k < 16)%nat -> (j < 6)%nat ->
             nth (6 + 6 * k + j) (build_packet mac_bytes) 0%N
             = nth j mac_bytes 0%N)
       /\ (forall host port_input (st : state script sender_vars) r st',
             send_magic_packet_advanced (py "AA:BB:CC:DD:EE:FF") host
               port_input st = (r, st') ->
             exists new,
               trace st' = trace st ++ new
               /\ Forall (eq (build_packet mac_bytes)) (payloads new)).
Proof.
  split; [reflexivity|].
  apply (magic_packet_layout (py "AA:BB:CC:DD:EE:FF") (py "AABBCCDDEEFF")).
  reflexivity.
Defined.

Example magic_packet_bytes :
  fromhex (py "AABBCCDDEEFF") = Some [170; 187; 204; 221; 238; 255]%N
  /\ firstn 12 (build_packet [170; 187; 204; 221; 238; 255]%N)
     = [255; 255; 255; 255; 255; 255; 170; 187; 204; 221; 238; 255]%N
  /\ skipn 96 (build_packet [170; 187; 204; 221; 238; 255]%N)
     = [170; 187; 204; 221; 238; 255]%N.
Proof. repeat split. Qed.

(** *** Validation *)

Lemma validation_before_network_witness :
  (port_refused (py "wol") = true \/ mac_refused (py "AA:BB:CC") = true)
  /\ send_magic_packet_advanced (py "AA:BB:CC") (py "192.168.0.1") (py "wol")
       (sender_entry [])
     = (inl (if port_refused (py "wol") then InvalidPort (py "wol")
             else InvalidAddress (py "AA:BB:CC")), sender_entry []).
Proof.
  split; [left; reflexivity|].
  apply (validation_before_network (py "AA:BB:CC") (py "192.168.0.1")
           (py "wol") (sender_entry [])).
  left. reflexivity.
Defined.

(** C7 fails when both inputs are refused: the address [ZZ] does not
    normalize to twelve hexadecimal digits, yet with the port
    specification [abc] the error raised is the one of the port. *)
Lemma both_refused_port_error :
  mac_refused (py "ZZ") = true
  /\ send_magic_packet_advanced (py "ZZ") (py "192.168.0.1") (py "abc")
       (sender_entry [])
     = (inl (InvalidPort (py "abc")), sender_entry [])
  /\ InvalidPort (py "abc") <> InvalidAddress (py "ZZ").
Proof.
  split; [reflexivity|]. split; [vm_compute; reflexivity|].
  intros H. vm_compute in H. discriminate H.
Qed.

Example address_refused_alone :
  send_magic_packet_advanced (py "ZZ") (py "192.168.0.1") (py "9")
    (sender_entry [])
  = (inl (InvalidAddress (py "ZZ")), sender_entry []).
Proof. vm_compute. reflexivity. Qed.

(** *** Ports *)

Lemma default_and_single_port_witness :
  check_mac (py "AA:BB:CC:DD:EE:FF") = inr (py "AABBCCDDEEFF")
  /\ ((is_empty (strip (py " 4000 ")) = true /\ [4000%Z] = [7; 9]%Z)
      \/ (is_empty (strip (py " 4000 ")) = false
          /\ py_int (strip (py " 4000 ")) = Some 4000%Z
          /\ [4000%Z] = [4000%Z]))
  /\ exists flag results st' new,
       send_magic_packet_advanced (py "AA:BB:CC:DD:EE:FF") (py "192.168.0.255")
         (py " 4000 ") (sender_entry [])
       = (inr (flag, results), st')
       /\ trace st' = trace (sender_entry []) ++ new
       /\ (exists ups,
             length ups = length [4000%Z]
             /\ targets new = flat_map sends_of (combine [4000%Z] ups)
             /\ length (filter setup_error new) = length (filter negb ups))
       /\ (existsb setup_error new = false ->
           targets new = flat_map thrice [4000%Z]).
Proof.
  split; [reflexivity|].
  split; [right; repeat split; reflexivity|].
  apply (default_and_single_port (py "AA:BB:CC:DD:EE:FF") (py "192.168.0.255")
           (py " 4000 ") (py "AABBCCDDEEFF") 4000%Z [4000%Z] (sender_entry []));
    [reflexivity | right; repeat split; reflexivity].
Defined.

(** With no port given every datagram of an undisturbed run goes to 7
    or 9, three to each; where the socket of port 7 cannot be opened
    the three of port 9 are still sent. *)
Example default_ports_targets :
  targets (trace (snd (send_magic_packet_advanced (py "AA:BB:CC:DD:EE:FF")
             (py "192.168.0.255") (py "") (sender_entry []))))
  = [7; 7; 7; 9; 9; 9]%Z
  /\ targets (trace (snd (send_magic_packet_advanced (py "AA:BB:CC:DD:EE:FF")
               (py "192.168.0.255") (py "") (sender_entry [inl refused]))))
     = [9; 9; 9]%Z.
Proof. split; vm_compute; reflexivity. Qed.

Example default_ports_run :
  fst (send_magic_packet_advanced (py "AA:BB:CC:DD:EE:FF") (py "192.168.0.255")
         (py "  ") (sender_entry []))
  = inr (true, [py "Port 7: 3/3 transmission success";
                py "Port 9: 3/3 transmission success"]).
Proof. vm_compute. reflexivity. Qed.

Lemma targeted_ports_witness :
  parse_ports (py "9") = inr [9%Z]
  /\ check_mac (py "AA:BB:CC:DD:EE:FF") = inr (py "AABBCCDDEEFF")
  /\ exists flag results st' new,
       send_magic_packet_advanced (py "AA:BB:CC:DD:EE:FF") (py "192.168.0.255")
         (py "9") (sender_entry [])
       = (inr (flag, results), st')
       /\ trace st' = trace (sender_entry []) ++ new
       /\ (forall q, In q (targets new) -> In q [9%Z])
       /\ ((is_empty (strip (py "9")) = true
            /\ [9%Z] = [7; 9]%Z /\ forallb udp_port [9%Z] = true)
           \/ (exists p, is_empty (strip (py "9")) = false
                         /\ py_int (strip (py "9")) = Some p
                         /\ [9%Z] = [p]
                         /\ forallb udp_port [9%Z] = udp_port p)).
Proof.
  split; [reflexivity|]. split; [reflexivity|].
  apply (targeted_ports (py "AA:BB:CC:DD:EE:FF") (py "192.168.0.255") (py "9")
           (py "AABBCCDDEEFF") [9%Z] (sender_entry [])); reflexivity.
Defined.

(** C5 fails for a port specification that denotes an integer outside
    0..65535: [70000] is accepted, the call returns, and its three
    sends -- each refused by [sendto] -- all name port 70000. *)
Lemma port_out_of_range_targeted :
  parse_ports (py "70000") = inr [70000%Z]
  /\ udp_port 70000 = false
  /\ fst (send_magic_packet_advanced (py "AA:BB:CC:DD:EE:FF")
            (py "192.168.0.255") (py "70000")
            (sender_entry [inr 0; inr 0; inr 0;
                           inl overflow; inl overflow; inl overflow]%Z))
     = inr (false, [py "Port 70000: transmission failed"])
  /\ targets (trace (snd (send_magic_packet_advanced (py "AA:BB:CC:DD:EE:FF")
            (py "192.168.0.255") (py "70000")
            (sender_entry [inr 0; inr 0; inr 0;
                           inl overflow; inl overflow; inl overflow]%Z))))
     = [70000; 70000; 70000]%Z.
Proof. repeat split; vm_compute; reflexivity. Qed.

(** *** Transmission *)

Lemma aggregate_success_flag_witness :
  parse_ports (py "") = inr [7; 9]%Z
  /\ check_mac (py "AA:BB:CC:DD:EE:FF") = inr (py "AABBCCDDEEFF")
  /\ exists flag results st' new,
       send_magic_packet_advanced (py "AA:BB:CC:DD:EE:FF") (py "192.168.0.255")
         (py "") (sender_entry one_bad_send)
       = (inr (flag, results), st')
       /\ trace st' = trace (sender_entry one_bad_send) ++ new
       /\ flag = existsb successful_send new
       /\ (flag = true <->
           exists port r,
             In port [7; 9]%Z
             /\ In (EvSendto (packet_of (py "AA:BB:CC:DD:EE:FF"))
                      (py "192.168.0.255") port r) new
             /\ sent_all (packet_of (py "AA:BB:CC:DD:EE:FF")) r = true).
Proof.
  split; [reflexivity|]. split; [reflexivity|].
  apply (aggregate_success_flag (py "AA:BB:CC:DD:EE:FF") (py "192.168.0.255")
           (py "") (py "AABBCCDDEEFF") [7; 9]%Z (sender_entry one_bad_send));
    reflexivity.
Defined.

Example all_sends_fail :
  fst (send_magic_packet_advanced (py "AA:BB:CC:DD:EE:FF") (py "192.168.0.255")
         (py "9")
         (sender_entry [inr 0; inr 0; inr 0; inl refused; inr 0; inl refused]%Z))
  = inr (false, [py "Port 9: transmission failed"]).
Proof. vm_compute. reflexivity. Qed.

Lemma send_errors_absorbed_witness :
  parse_ports (py "") = inr [7; 9]%Z
  /\ check_mac (py "AA:BB:CC:DD:EE:FF") = inr (py "AABBCCDDEEFF")
  /\ exists flag reps st',
       send_magic_packet_advanced (py "AA:BB:CC:DD:EE:FF") (py "192.168.0.255")
         (py "") (sender_entry one_bad_send)
       = (inr (flag, flat_map lines reps), st')
       /\ trace st' = trace (sender_entry one_bad_send) ++ run_trace reps
       /\ Forall2 (port_outcome (packet_of (py "AA:BB:CC:DD:EE:FF"))
                     (py "192.168.0.255")) [7; 9]%Z reps
       /\ Forall2 (fun port rep =>
            forall e, In (inl e) (outcomes (events rep)) ->
              sent_all (packet_of (py "AA:BB:CC:DD:EE:FF")) (inl e) = false
              /\ exists r1 r2 r3,
                   outcomes (events rep) = [r1; r2; r3]
                   /\ entry rep
                      = counted_entry port
                          (count_sent (packet_of (py "AA:BB:CC:DD:EE:FF"))
                             [r1; r2; r3]))
            [7; 9]%Z reps.
Proof.
  split; [reflexivity|]. split; [reflexivity|].
  apply (send_errors_absorbed (py "AA:BB:CC:DD:EE:FF") (py "192.168.0.255")
           (py "") (py "AABBCCDDEEFF") [7; 9]%Z (sender_entry one_bad_send));
    reflexivity.
Defined.

Example one_bad_send_run :
  fst (send_magic_packet_advanced (py "AA:BB:CC:DD:EE:FF") (py "192.168.0.255")
         (py "") (sender_entry one_bad_send))
  = inr (true, [py "Port 7: 1/3 transmission success";
                py "Port 9: 3/3 transmission success"])
  /\ outcomes (trace (snd (send_magic_packet_advanced (py "AA:BB:CC:DD:EE:FF")
         (py "192.168.0.255") (py "") (sender_entry one_bad_send))))
     = [inl refused; inr 5; inr 102; inr 102; inr 102; inr 102]%Z.
Proof. split; vm_compute; reflexivity. Qed.

(** C10 fails where closing a socket raises.  For port 9 the socket
    opens, the three sends write the whole datagram and the line of the
    port is appended inside the [with] block; the close on leaving the
    block raises, the [except] of the port catches it and appends a
    second line: the call returns two lines for its one port. *)
Lemma close_error_second_entry :
  parse_ports (py "9") = inr [9%Z]
  /\ check_mac (py "AA:BB:CC:DD:EE:FF") = inr (py "AABBCCDDEEFF")
  /\ exists results,
       fst (send_magic_packet_advanced (py "AA:BB:CC:DD:EE:FF")
              (py "192.168.0.255") (py "9") (sender_entry bad_close))
       = inr (true, results)
       /\ results = [py "Port 9: 3/3 transmission success";
                     py "Port 9: Error - [Errno 5] Input/output error"]
       /\ length results <> length [9%Z]
       /\ outcomes (trace (snd (send_magic_packet_advanced
                                  (py "AA:BB:CC:DD:EE:FF")
                                  (py "192.168.0.255") (py "9")
                                  (sender_entry bad_close))))
          = [inr 102; inr 102; inr 102]%Z.
Proof.
  split; [reflexivity|]. split; [reflexivity|].
  eexists. split; [vm_compute; reflexivity|].
  split; [reflexivity|]. split; [discriminate|].
  vm_compute. reflexivity.
Qed.

Lemma entries_per_port_witness :
  parse_ports (py "") = inr [7; 9]%Z
  /\ check_mac (py "AA:BB:CC:DD:EE:FF") = inr (py "AABBCCDDEEFF")
  /\ exists flag reps st',
       send_magic_packet_advanced (py "AA:BB:CC:DD:EE:FF") (py "192.168.0.255")
         (py "") (sender_entry [inl refused; inr 0%Z; inl refused])
       = (inr (flag, flat_map lines reps), st')
       /\ trace st'
          = trace (sender_entry [inl refused; inr 0%Z; inl refused])
            ++ run_trace reps
       /\ Forall2 (fun port rep =>
            Forall (entry_for port) (lines rep)
            /\ (late rep = []
                \/ exists e, late rep = [error_entry port e]
                             /\ length (outcomes (events rep)) = 3%nat
                             /\ last (events rep) (EvClose ok_unit)
                                = EvClose (inl e)))
            [7; 9]%Z reps.
Proof.
  split; [reflexivity|]. split; [reflexivity|].
  apply (entries_per_port (py "AA:BB:CC:DD:EE:FF") (py "192.168.0.255")
           (py "") (py "AABBCCDDEEFF") [7; 9]%Z
           (sender_entry [inl refused; inr 0%Z; inl refused])); reflexivity.
Defined.

Example sockets_fail_run :
  fst (send_magic_packet_advanced (py "AA:BB:CC:DD:EE:FF") (py "192.168.0.255")
         (py "") (sender_entry [inl refused; inr 0%Z; inl refused]))
  = inr (false,
         [py "Port 7: Error - [Errno 101] Network is unreachable";
          py "Port 9: Error - [Errno 101] Network is unreachable"]).
Proof. vm_compute. reflexivity. Qed.

(** *** Polling *)

(** The third probe answers: three probes are made, the second of which
    could not even be started. *)
Example poll_third_probe :
  let st := snd (_do_ping (py "192.168.0.100")
                   (poll_entry [inr 1; inl refused; inr 0; inr 0]%Z)) in
  probes (trace st) = [false; false; true]
  /\ vars st = true
  /\ world st = [inr 0%Z].
Proof. repeat split; vm_compute; reflexivity. Qed.

Example poll_no_answer :
  let st := snd (_do_ping (os := posix) (py "192.168.0.100")
                   (poll_entry (repeat (inr 2%Z) 12))) in
  probes (trace st) = repeat false 10
  /\ vars st = false
  /\ world st = [inr 2%Z; inr 2%Z].
Proof. repeat split; vm_compute; reflexivity. Qed.

(** *** The Execute worker *)

(** A run in which every send of both default ports is refused: the
    flag is false and the worker reports the failure. *)
Example run_task_all_ports_fail :
  logged (trace (snd (_run_task (py "http://192.168.0.1/") (py "")
                        (py "aa-bb-cc-dd-ee-ff")
                        (task_entry
                           [inr 0; inr 0; inr 0;
                            inl refused; inl refused; inl refused; inr 0;
                            inr 0; inr 0; inr 0;
                            inl refused; inl refused; inl refused]%Z))))
  = [py "Started: Magic Packet direct transmission, target=192.168.0.1, MAC=AA:BB:CC:DD:EE:FF, ports=[7, 9] (default)";
     py "Transmitting Magic Packet...";
     py "  Port 7: transmission failed";
     py "  Port 9: transmission failed";
     py "Failed: Transmission failed on all ports"].
Proof. vm_compute. reflexivity. Qed.

(** The worker normalizes the address first, so the form without
    separators never reaches the sender from the entry field. *)
Example run_task_bare_address :
  logged (trace (snd (_run_task (py "http://192.168.0.1/") (py "")
                        (py "AABBCCDDEEFF") (task_entry []))))
  = [py "Failed: Invalid MAC address format. Example: AA:BB:CC:DD:EE:FF"].
Proof. vm_compute. reflexivity. Qed.

Example canonical_text :
  canonical [170; 187; 204; 221; 238; 15]%N = py "AA:BB:CC:DD:EE:0F".
Proof. vm_compute. reflexivity. Qed.

(* ===================================================================== *)
(** ** Further properties *)
(* ===================================================================== *)

Import Gui Observe.

(** *** More on text *)

Section StripFacts.

Lemma lstrip_by_suffix p s : exists d, s = d ++ lstrip_by p s.
Proof.
  induction s as [|c s [d IH]]; [exists []; reflexivity|].
  cbn [lstrip_by]. destruct (p c).
  - exists (c :: d). cbn [app]. rewrite <- IH. reflexivity.
  - exists []. reflexivity.
Qed.

Lemma lstrip_by_first p s c :
  hd_error (lstrip_by p s) = Some c -> p c = false.
Proof.
  induction s as [|a s IH]; [discriminate|].
  cbn [lstrip_by]. destruct (p a) eqn:E; [exact IH|].
  cbn [hd_error]. intros H. injection H as <-. exact E.
Qed.

Lemma lstrip_by_all p a s :
  forallb p a = true -> lstrip_by p (a ++ s) = lstrip_by p s.
Proof.
  induction a as [|c a IH]; [reflexivity|].
  cbn [forallb app lstrip_by]. intros H. apply andb_prop in H.
  destruct H as [-> H]. exact (IH H).
Qed.

Lemma lstrip_by_app p s b :
  lstrip_by p s <> [] -> lstrip_by p (s ++ b) = lstrip_by p s ++ b.
Proof.
  induction s as [|c s IH]; [intros H; destruct H; reflexivity|].
  cbn [lstrip_by app]. destruct (p c); [exact IH | reflexivity].
Qed.

Lemma lstrip_by_nil p s : lstrip_by p s = [] -> forallb p s = true.
Proof.
  induction s as [|c s IH]; [reflexivity|].
  cbn [lstrip_by forallb]. destruct (p c); [exact IH | discriminate].
Qed.

Lemma lstrip_by_none p s : forallb p s = true -> lstrip_by p s = [].
Proof.
  intros H. rewrite <- (app_nil_r s), (lstrip_by_all _ _ _ H). reflexivity.
Qed.

Lemma rstrip_by_all p s b :
  forallb p b = true -> rstrip_by p (s ++ b) = rstrip_by p s.
Proof.
  intros H. unfold rstrip_by. rewrite rev_app_distr.
  rewrite lstrip_by_all; [reflexivity|].
  rewrite forallb_forall in *. intros x Hx. apply H, in_rev, Hx.
Qed.

Lemma rstrip_by_prefix p s : exists d, s = rstrip_by p s ++ d.
Proof.
  unfold rstrip_by. destruct (lstrip_by_suffix p (rev s)) as [d E].
  exists (rev d). rewrite <- rev_app_distr, <- E, rev_involutive. reflexivity.
Qed.

Lemma rstrip_by_last p s c :
  hd_error (rev (rstrip_by p s)) = Some c -> p c = false.
Proof.
  unfold rstrip_by. rewrite rev_involutive. apply lstrip_by_first.
Qed.

(** Stripping does not look at white space around the text. *)
Lemma strip_by_around p a s b :
  forallb p a = true -> forallb p b = true ->
  strip_by p (a ++ s ++ b) = strip_by p s.
Proof.
  intros Ha Hb. unfold strip_by. rewrite (lstrip_by_all _ _ _ Ha).
  destruct (lstrip_by p s) as [|c t] eqn:E.
  - pose proof (lstrip_by_nil _ _ E) as Hs.
    rewrite lstrip_by_none; [reflexivity|].
    rewrite forallb_app, Hs, Hb. reflexivity.
  - rewrite lstrip_by_app, E by (rewrite E; discriminate).
    apply rstrip_by_all, Hb.
Qed.

(** What is left after stripping neither starts nor ends with a
    stripped character. *)
Lemma strip_by_ends p s :
  (forall c, hd_error (strip_by p s) = Some c -> p c = false)
  /\ (forall c, hd_error (rev (strip_by p s)) = Some c -> p c = false).
Proof.
  unfold strip_by. split; [|apply rstrip_by_last].
  intros c Hc.
  destruct (rstrip_by_prefix p (lstrip_by p s)) as [d E].
  apply (lstrip_by_first p s). rewrite E.
  destruct (rstrip_by p (lstrip_by p s)); [discriminate Hc | exact Hc].
Qed.

Lemma strip_by_sound (q p : char -> bool) s :
  forallb q s = true -> forallb q (strip_by p s) = true.
Proof.
  intros H. unfold strip_by.
  destruct (lstrip_by_suffix p s) as [d1 E1].
  destruct (rstrip_by_prefix p (lstrip_by p s)) as [d2 E2].
  rewrite E1, E2, !forallb_app in H.
  apply andb_prop in H. destruct H as [_ H].
  apply andb_prop in H. destruct H as [H _]. exact H.
Qed.

End StripFacts.

(** *** More on addresses *)

Section AddressFacts.
Context {R : Runtime}.

(** A property of ASCII characters holds once it holds of the 128 of
    them. *)
Lemma ascii_cases (P : char -> Prop) :
  (forall n, (n < 128)%nat -> P (N.of_nat n)) ->
  forall c, is_ascii c = true -> P c.
Proof.
  intros H c Hc. unfold is_ascii in Hc. apply N.ltb_lt in Hc.
  rewrite <- (N2Nat.id c). apply H. lia.
Qed.

Ltac each_ascii :=
  let c := fresh "c" in
  let Hc := fresh "Hc" in
  intros c Hc; pattern c; apply ascii_cases; [|exact Hc]; clear c Hc;
  intros n Hn;
  do 128 (destruct n as [|n];
          [vm_compute; intros; first [discriminate | repeat split] |]);
  lia.

Lemma in_class_ascii c :
  in_ranges c [(ch "0", ch "9"); (ch "A", ch "F")] = true -> is_ascii c = true.
Proof.
  unfold in_ranges, is_ascii. cbn [existsb fst snd]. intros H.
  apply N.ltb_lt. change (ch "0") with 48%N in H. change (ch "9") with 57%N in H.
  change (ch "A") with 65%N in H. change (ch "F") with 70%N in H.
  rewrite orb_false_r in H. apply orb_prop in H.
  destruct H as [H|H]; apply andb_prop in H; destruct H as [_ H];
    apply N.leb_le in H; lia.
Qed.

(** An upper-case hexadecimal digit is a hexadecimal digit that
    [str.upper] leaves alone. *)
Lemma in_class_hexdigit c :
  in_ranges c [(ch "0", ch "9"); (ch "A", ch "F")] = true ->
  is_hexdigit c = true /\ ascii_upper c = c.
Proof.
  intros H. generalize H. generalize (in_class_ascii c H). clear H.
  revert c. each_ascii.
Qed.

(** On ASCII, what [normalize_mac] makes of a character is an
    upper-case hexadecimal digit only for a hexadecimal digit, and a
    colon only for a colon or a dash. *)
Lemma normalized_digit c :
  is_ascii c = true ->
  in_ranges (swap (ch "-") (ch ":") (ascii_upper c))
    [(ch "0", ch "9"); (ch "A", ch "F")] = true ->
  is_hexdigit c = true.
Proof. revert c. each_ascii. Qed.

Lemma normalized_colon c :
  is_ascii c = true ->
  (swap (ch "-") (ch ":") (ascii_upper c) =? ch ":")%N = true ->
  is_separator c = true.
Proof. revert c. each_ascii. Qed.

Ltac all_ascii :=
  apply forallb_forall; intros ? Hin; cbn [In] in Hin;
  repeat (destruct Hin as [<- | Hin]; [assumption|]); contradiction.

Ltac use_facts_of head :=
  repeat match goal with
         | H : ?l = _ |- _ =>
             match l with
             | context [head] => rewrite H; clear H
             end
         end.

(** Six pairs of hexadecimal digits with separators: the six octets
    they denote, as the sender and as [normalize_mac] see them. *)
Lemma separated_form_octets (s : str) :
  separated_form s = true ->
  exists octets,
    length octets = 6%nat
    /\ Forall (fun b => (b < 256)%N) octets
    /\ fromhex (clean_mac s) = Some octets
    /\ check_mac s = inr (clean_mac s)
    /\ strip s = s
    /\ normalize_mac s = inr (canonical octets)
    /\ canonical octets
       = map (fun c => swap (ch "-") (ch ":") (ascii_upper c)) s.
Proof.
  intros H.
  do 17 (destruct s as [|? s]; [discriminate H|]).
  destruct s; [|discriminate H].
  unfold separated_form in H. cbn [forallb] in H.
  apply andb_prop in H. destruct H as [Hh Hs].
  split_andb Hh. split_andb Hs. clear Hh Hs.
  repeat match goal with
         | H : is_hexdigit ?c = true |- _ =>
             apply hexdigit_has_facts in H; destruct H as [? []]
         | H : is_separator ?c = true |- _ =>
             apply separator_has_facts in H; destruct H
         end.
  match goal with
  | |- context [clean_mac ?s] =>
      assert (Hclean : exists a1 a2 b1 b2 c1 c2 d1 d2 e1 e2 f1 f2,
                 clean_mac s = [a1; a2; b1; b2; c1; c2; d1; d2; e1; e2; f1; f2]
                 /\ forallb (fun c => mem c (py "0123456789ABCDEF"))
                      [a1; a2; b1; b2; c1; c2; d1; d2; e1; e2; f1; f2] = true
                 /\ exists o1 o2 o3 o4 o5 o6,
                      fromhex [a1; a2; b1; b2; c1; c2; d1; d2; e1; e2; f1; f2]
                      = Some [o1; o2; o3; o4; o5; o6]
                      /\ Forall (fun b => (b < 256)%N) [o1; o2; o3; o4; o5; o6]
                      /\ canonical [o1; o2; o3; o4; o5; o6]
                         = map (fun c => swap (ch "-") (ch ":") (ascii_upper c)) s)
  end.
  { rewrite clean_mac_filter.
    repeat first [ rewrite filter_keep by assumption
                 | rewrite filter_drop by assumption ].
    cbn [filter].
    rewrite upper_ascii by all_ascii.
    cbn [map]. do 12 eexists. split; [reflexivity|]. split.
    - cbn [forallb]. use_facts_of mem. reflexivity.
    - do 6 eexists. split; [|split].
      + repeat (erewrite fromhex_pair by eassumption). reflexivity.
      + repeat constructor; lia.
      + cbn [canonical join map].
        rewrite !octet_text_pair by assumption.
        use_facts_of hexdigit_upper. use_facts_of swap. reflexivity. }
  destruct Hclean as (ka1 & ka2 & kb1 & kb2 & kc1 & kc2 & kd1 & kd2 & ke1 & ke2
                      & kf1 & kf2 & Hclean & Halpha
                      & o1 & o2 & o3 & o4 & o5 & o6 & Hbytes & Hlt & Hcanon).
  match goal with
  | |- context [strip (?a :: ?l)] =>
      assert (Hstrip : strip (a :: l) = a :: l)
  end.
  { match goal with
    | |- strip (?a :: ?l) = _ =>
        change (strip_by isspace (a :: removelast l ++ [last l 0%N])
                = a :: removelast l ++ [last l 0%N])
    end.
    apply strip_by_kept; assumption. }
  exists [o1; o2; o3; o4; o5; o6].
  split; [reflexivity|]. split; [exact Hlt|].
  split; [rewrite Hclean; exact Hbytes|]. split.
  { unfold check_mac. rewrite Hclean, Halpha. reflexivity. }
  split; [exact Hstrip|]. split; [|exact Hcanon].
  unfold normalize_mac. rewrite Hstrip.
  rewrite upper_ascii by all_ascii.
  change (py "-") with [ch "-"]. change (py ":") with [ch ":"].
  rewrite replace_char, map_map, <- Hcanon.
  rewrite Hcanon. cbn [map].
  unfold fullmatch, mac_pattern, HEX. cbn [rmatch].
  use_facts_of swap. use_facts_of in_ranges. reflexivity.
Qed.

End AddressFacts.

Section AddressProperties.
Context {R : Runtime}.

Ltac use_facts_of head :=
  repeat match goal with
         | H : ?l = _ |- _ =>
             match l with
             | context [head] => rewrite H; clear H
             end
         end.

(** A text the pattern matches is in separated form already, in upper
    case and with colons. *)
Lemma mac_pattern_shape m :
  fullmatch mac_pattern m = true ->
  separated_form m = true
  /\ map (fun c => swap (ch "-") (ch ":") (ascii_upper c)) m = m.
Proof.
  intros H. pose proof (mac_pattern_length m H) as Hl.
  do 17 (destruct m as [|? m]; [discriminate Hl|]).
  destruct m; [|discriminate Hl]. clear Hl.
  unfold fullmatch, mac_pattern, HEX in H. cbn [rmatch at_end] in H.
  split_andb H. clear H.
  repeat match goal with
         | H : in_ranges ?c _ = true |- _ =>
             apply in_class_hexdigit in H; destruct H as [? ?]
         | H : (?c =? ch ":")%N = true |- _ =>
             apply N.eqb_eq in H; subst c
         end.
  split.
  - unfold separated_form. cbn [forallb]. use_facts_of is_hexdigit.
    reflexivity.
  - repeat match goal with
           | H : is_hexdigit ?c = true |- _ =>
               apply hexdigit_has_facts in H; destruct H as [? []]
           end.
    cbn [map]. use_facts_of swap.
    repeat match goal with
           | H : ascii_upper ?c = ?c |- _ => rewrite H; clear H
           end.
    reflexivity.
Qed.

Lemma normalize_mac_matches s m :
  normalize_mac s = inr m -> fullmatch mac_pattern m = true.
Proof.
  unfold normalize_mac.
  destruct (fullmatch mac_pattern _) eqn:E; [|discriminate].
  intros H. injection H as <-. exact E.
Qed.

(** X1.  Whatever [normalize_mac] returns is the canonical text of six
    octets; the sender's own check accepts that text and reads the same
    six octets from it for the packet. *)
Theorem normalize_mac_output (s m : str) :
  normalize_mac s = inr m ->
  exists octets,
    length octets = 6%nat
    /\ Forall (fun b => (b < 256)%N) octets
    /\ m = canonical octets
    /\ check_mac m = inr (clean_mac m)
    /\ fromhex (clean_mac m) = Some octets.
Proof.
  intros H. apply normalize_mac_matches, mac_pattern_shape in H.
  destruct H as [Hf Hm].
  destruct (separated_form_octets m Hf)
    as (octets & Hl & Hlt & Hb & Hc & _ & _ & Hcan).
  exists octets. rewrite Hm in Hcan. auto.
Qed.

(** X2.  [normalize_mac] is idempotent: an address it has returned is
    returned unchanged. *)
Theorem normalize_mac_idempotent (s m : str) :
  normalize_mac s = inr m -> normalize_mac m = inr m.
Proof.
  intros H. apply normalize_mac_matches, mac_pattern_shape in H.
  destruct H as [Hf Hm].
  destruct (separated_form_octets m Hf)
    as (octets & _ & _ & _ & _ & _ & Hn & Hcan).
  rewrite Hn, Hcan, Hm. reflexivity.
Qed.

(** X3.  White space around the address does not matter to
    [normalize_mac]. *)
Theorem normalize_mac_ignores_blanks (before s after : str) :
  forallb isspace before = true ->
  forallb isspace after = true ->
  normalize_mac (before ++ s ++ after) = normalize_mac s.
Proof.
  intros Ha Hb. unfold normalize_mac, strip.
  rewrite (strip_by_around _ _ _ _ Ha Hb). reflexivity.
Qed.

(** X4.  On ASCII text [normalize_mac] accepts exactly the separated
    forms, white space around them apart. *)
Theorem normalize_mac_accepts_iff (s : str) :
  forallb is_ascii s = true ->
  (exists m, normalize_mac s = inr m) <-> separated_form (strip s) = true.
Proof.
  intros Hs. split.
  - intros [m H].
    assert (Ht : forallb is_ascii (strip s) = true)
      by (apply strip_by_sound, Hs).
    unfold normalize_mac in H.
    change (py "-") with [ch "-"] in H. change (py ":") with [ch ":"] in H.
    rewrite upper_ascii in H by exact Ht.
    rewrite replace_char, map_map in H.
    remember (strip s) as t eqn:Et. clear Et Hs.
    assert (Hfull : fullmatch mac_pattern
              (map (fun c => swap (ch "-") (ch ":") (ascii_upper c)) t) = true).
    { destruct (fullmatch mac_pattern _); [reflexivity | discriminate H]. }
    clear H. pose proof (mac_pattern_length _ Hfull) as Hl.
    rewrite length_map in Hl.
    do 17 (destruct t as [|? t]; [discriminate Hl|]).
    destruct t; [|discriminate Hl]. clear Hl.
    cbn [forallb] in Ht. split_andb Ht. clear Ht.
    unfold fullmatch, mac_pattern, HEX in Hfull.
    cbn [map rmatch at_end] in Hfull. split_andb Hfull. clear Hfull.
    repeat match goal with
           | H : in_ranges (swap _ _ (ascii_upper ?c)) _ = true |- _ =>
               apply normalized_digit in H; [|assumption]
           | H : (swap _ _ (ascii_upper ?c) =? ch ":")%N = true |- _ =>
               apply normalized_colon in H; [|assumption]
           end.
    unfold separated_form. cbn [forallb].
    use_facts_of is_hexdigit. use_facts_of is_separator. reflexivity.
  - intros Hf.
    destruct (separated_form_octets (strip s) Hf)
      as (octets & _ & _ & _ & _ & Hst & Hn & _).
    exists (canonical octets). rewrite <- Hn.
    unfold normalize_mac. rewrite Hst. reflexivity.
Qed.

(** X5.  The sender does not look at colons and dashes, wherever they
    stand: two address texts that differ in them only are accepted or
    refused together and give the same packet. *)
Theorem sender_ignores_separators (mac mac' : str) :
  filter not_separator mac = filter not_separator mac' ->
  clean_mac mac = clean_mac mac'
  /\ packet_of mac = packet_of mac'
  /\ (forall mac_clean,
        check_mac mac = inr mac_clean <-> check_mac mac' = inr mac_clean).
Proof.
  intros H.
  assert (Hc : clean_mac mac = clean_mac mac')
    by (rewrite !clean_mac_filter, H; reflexivity).
  split; [exact Hc|]. split.
  - unfold packet_of. rewrite Hc. reflexivity.
  - intros mac_clean. unfold check_mac. rewrite Hc.
    destruct (negb _ || negb _); split; intros E; try discriminate E;
      exact E.
Qed.

End AddressProperties.

(** *** More on hosts *)

Section HostProperties.

(** X6.  The host handed to the sender neither starts nor ends with a
    slash, whatever the router address is. *)
Theorem clean_host_no_outer_slash (router_ip : str) :
  startswith (py "/") (clean_host router_ip) = false
  /\ startswith (py "/") (rev (clean_host router_ip)) = false.
Proof.
  unfold clean_host, strip_chars.
  match goal with
  | |- context [strip_by ?p ?s] =>
      destruct (strip_by_ends p s) as [Hfirst Hlast];
      generalize dependent (strip_by p s)
  end.
  intros t Hfirst Hlast.
  assert (Hslash : forall c, mem c (py "/") = false ->
                             startswith (py "/") [c] = false
                             /\ forall l, startswith (py "/") (c :: l) = false).
  { intros c Hc. change (py "/") with [47%N] in *. unfold mem in Hc.
    cbn [existsb] in Hc. rewrite orb_false_r, N.eqb_sym in Hc.
    cbn [startswith]. rewrite Hc. auto. }
  split.
  - destruct t as [|c l]; [reflexivity|].
    apply (Hslash c), Hfirst. reflexivity.
  - destruct (rev t) as [|c l]; [reflexivity|].
    apply (Hslash c), Hlast. reflexivity.
Qed.

End HostProperties.

(** *** More on the sender *)

Section Counting.

Lemma tally_app p t1 t2 : tally p (t1 ++ t2) = (tally p t1 + tally p t2)%nat.
Proof. unfold tally. rewrite filter_app, length_app. reflexivity. Qed.

Lemma outcomes_app t1 t2 : outcomes (t1 ++ t2) = outcomes t1 ++ outcomes t2.
Proof.
  induction t1 as [|ev t1 IH]; [reflexivity|].
  destruct ev; cbn [app outcomes]; rewrite IH; reflexivity.
Qed.

Lemma pause_ms_app t1 t2 : pause_ms (t1 ++ t2) = (pause_ms t1 + pause_ms t2)%N.
Proof.
  induction t1 as [|ev t1 IH]; [reflexivity|].
  destruct ev; cbn [app pause_ms]; rewrite IH; try reflexivity.
  apply N.add_assoc.
Qed.

Lemma progress_values_app t1 t2 :
  progress_values (t1 ++ t2) = progress_values t1 ++ progress_values t2.
Proof.
  induction t1 as [|ev t1 IH]; [reflexivity|].
  destruct ev; cbn [app progress_values]; rewrite IH; reflexivity.
Qed.

Lemma hosts_app t1 t2 : hosts (t1 ++ t2) = hosts t1 ++ hosts t2.
Proof.
  induction t1 as [|ev t1 IH]; [reflexivity|].
  destruct ev; cbn [app hosts]; rewrite IH; reflexivity.
Qed.

Lemma payloads_app t1 t2 : payloads (t1 ++ t2) = payloads t1 ++ payloads t2.
Proof.
  induction t1 as [|ev t1 IH]; [reflexivity|].
  destruct ev; cbn [app payloads]; rewrite IH; reflexivity.
Qed.

Lemma boxes_app t1 t2 : boxes (t1 ++ t2) = boxes t1 ++ boxes t2.
Proof.
  induction t1 as [|ev t1 IH]; [reflexivity|].
  destruct ev; cbn [app boxes]; rewrite IH; reflexivity.
Qed.

(** The counts of one port. *)
Lemma outcome_counts data host port rep :
  port_outcome data host port rep ->
  tally socket_call (events rep) = 1%nat
  /\ tally socket_opened (events rep) = tally socket_closed (events rep)
  /\ (tally socket_configured (events rep) <= 1)%nat
  /\ length (outcomes (events rep))
     = (3 * tally socket_configured (events rep))%nat
  /\ pause_ms (events rep)
     = (100 * N.of_nat (length (outcomes (events rep))))%N.
Proof.
  intros Ho. destruct Ho; cbn; repeat split; lia.
Qed.

(** The counts of a whole run. *)
Lemma run_trace_counts data host ports reps :
  Forall2 (port_outcome data host) ports reps ->
  tally socket_call (run_trace reps) = length ports
  /\ tally socket_opened (run_trace reps) = tally socket_closed (run_trace reps)
  /\ (tally socket_configured (run_trace reps) <= length ports)%nat
  /\ length (outcomes (run_trace reps))
     = (3 * tally socket_configured (run_trace reps))%nat
  /\ pause_ms (run_trace reps)
     = (300 * N.of_nat (length ports)
        + 100 * N.of_nat (length (outcomes (run_trace reps))))%N.
Proof.
  intros H. induction H as [|port rep ports reps Ho _ IH].
  - cbn. repeat split; lia.
  - destruct IH as (I1 & I2 & I3 & I4 & I5).
    destruct (outcome_counts _ _ _ _ Ho) as (O1 & O2 & O3 & O4 & O5).
    cbn [run_trace flat_map]. fold (run_trace reps).
    rewrite !tally_app, !outcomes_app, !pause_ms_app, !length_app.
    rewrite I1, I5, O1, O5.
    change (tally socket_call [EvSleep 300]) with 0%nat.
    change (tally socket_opened [EvSleep 300]) with 0%nat.
    change (tally socket_closed [EvSleep 300]) with 0%nat.
    change (tally socket_configured [EvSleep 300]) with 0%nat.
    change (outcomes [EvSleep 300]) with (@nil (result Z)).
    change (pause_ms [EvSleep 300]) with 300%N.
    cbn [length]. repeat split; lia.
Qed.

(** At most three sends of a port can have written the whole
    datagram. *)
Lemma count_sent_bounds data r1 r2 r3 :
  (0 <= count_sent data [r1; r2; r3] <= 3)%Z.
Proof.
  rewrite count_sent_three.
  destruct (sent_all data r1), (sent_all data r2), (sent_all data r3);
    cbn [one_if]; lia.
Qed.

End Counting.

Section SenderProperties.
Context {R : Runtime} {World : Type} {os : OS World}.

Lemma check_mac_passes mac :
  mac_refused mac = false -> check_mac mac = inr (clean_mac mac).
Proof.
  unfold mac_refused, twelve_hex, check_mac. intros H.
  apply negb_false_iff in H. apply andb_prop in H. destruct H as [Hl Ha].
  apply Nat.eqb_eq in Hl. unfold len. rewrite Hl, Ha. reflexivity.
Qed.

(** X7.  The sender raises for a refused port specification or a refused
    address and for nothing else: what the network does never makes it
    raise. *)
Theorem sender_raises_iff (mac host port_input : str)
        (st : state World sender_vars) :
  (exists e, fst (send_magic_packet_advanced mac host port_input st) = inl e)
  <-> port_refused port_input || mac_refused mac = true.
Proof.
  destruct (port_refused port_input) eqn:Hp.
  - rewrite (sender_port_refused mac host port_input _ st
               (parse_ports_refused _ Hp)).
    cbn [fst orb]. split; eauto.
  - cbn [orb].
    destruct (parse_ports_accepted _ Hp) as [(_ & E) | (p & _ & _ & E)];
      (destruct (mac_refused mac) eqn:Hm;
       [ rewrite (sender_mac_refused mac host port_input _ _ st E
                    (check_mac_refused _ Hm));
         cbn [fst]; split; eauto
       | destruct (sender_accepted mac host port_input _ _ st E
                     (check_mac_passes _ Hm))
           as (b & w & reps & sc & _ & Erun & _);
         rewrite Erun; cbn [fst]; split;
           [intros [e He]; discriminate He | discriminate] ]).
Qed.

(** X8.  Every socket the sender opens it closes again before it
    returns, also when a setting or a send fails; and it asks for one
    socket per port. *)
Theorem sockets_released (mac host port_input mac_clean : str)
        (ports : list Z) (st : state World sender_vars) :
  parse_ports port_input = inr ports ->
  check_mac mac = inr mac_clean ->
  exists answer st' new,
    send_magic_packet_advanced mac host port_input st = (inr answer, st')
    /\ trace st' = trace st ++ new
    /\ tally socket_call new = length ports
    /\ tally socket_opened new = tally socket_closed new.
Proof.
  intros Hp Hm.
  destruct (sender_accepted mac host port_input ports mac_clean st Hp Hm)
    as (b & w & reps & sc & _ & Erun & Hreps).
  destruct (run_trace_counts _ _ _ _ Hreps) as (C1 & C2 & _).
  do 3 eexists. split; [exact Erun|]. split; [reflexivity|]. auto.
Qed.

(** X9.  The sender sends exactly three datagrams on every socket it
    could configure and none otherwise: never more than three per port. *)
Theorem three_sends_per_socket (mac host port_input mac_clean : str)
        (ports : list Z) (st : state World sender_vars) :
  parse_ports port_input = inr ports ->
  check_mac mac = inr mac_clean ->
  exists answer st' new,
    send_magic_packet_advanced mac host port_input st = (inr answer, st')
    /\ trace st' = trace st ++ new
    /\ length (outcomes new) = (3 * tally socket_configured new)%nat
    /\ (tally socket_configured new <= length ports)%nat.
Proof.
  intros Hp Hm.
  destruct (sender_accepted mac host port_input ports mac_clean st Hp Hm)
    as (b & w & reps & sc & _ & Erun & Hreps).
  destruct (run_trace_counts _ _ _ _ Hreps) as (_ & _ & C3 & C4 & _).
  do 3 eexists. split; [exact Erun|]. split; [reflexivity|]. auto.
Qed.

(** X10.  The time the sender sleeps: 300 ms for every port, also one
    whose socket failed, and 100 ms for every datagram sent. *)
Theorem sender_pause_time (mac host port_input mac_clean : str)
        (ports : list Z) (st : state World sender_vars) :
  parse_ports port_input = inr ports ->
  check_mac mac = inr mac_clean ->
  exists answer st' new,
    send_magic_packet_advanced mac host port_input st = (inr answer, st')
    /\ trace st' = trace st ++ new
    /\ pause_ms new
       = (300 * N.of_nat (length ports)
          + 100 * N.of_nat (length (outcomes new)))%N.
Proof.
  intros Hp Hm.
  destruct (sender_accepted mac host port_input ports mac_clean st Hp Hm)
    as (b & w & reps & sc & _ & Erun & Hreps).
  destruct (run_trace_counts _ _ _ _ Hreps) as (_ & _ & _ & _ & C5).
  do 3 eexists. split; [exact Erun|]. split; [reflexivity|]. exact C5.
Qed.

Lemma outcome_line data host port rep :
  port_outcome data host port rep ->
  (ok rep = true /\ success_line port (entry rep))
  \/ (ok rep = false /\ failure_line port (entry rep)).
Proof.
  intros Ho. destruct Ho; cbn [ok entry].
  1-3: right; split; [reflexivity | right; eexists; reflexivity].
  pose proof (count_sent_bounds data r1 r2 r3) as Hb.
  destruct (count_sent data [r1; r2; r3] >? 0)%Z eqn:E.
  - left. split; [reflexivity|]. eexists. split; [|reflexivity].
    apply Z.gtb_lt in E. lia.
  - right. split; [reflexivity | left; reflexivity].
Qed.

(** A line cannot be both a success line and a failure or error line
    of the same port. *)
Lemma line_kinds_disjoint port line :
  success_line port line -> failure_line port line -> False.
Proof.
  intros (k & Hk & ->) Hf. unfold success_entry in Hf.
  assert (Hcase : k = 1%Z \/ k = 2%Z \/ k = 3%Z) by lia.
  destruct Hf as [Hf | [e Hf]];
    unfold failure_entry, error_entry in Hf;
    do 2 apply app_inv_head in Hf;
    destruct Hcase as [-> | [-> | ->]]; vm_compute in Hf; discriminate Hf.
Qed.

Lemma Forall2_combine {A B} (P : A -> B -> Prop) l1 l2 a b :
  Forall2 P l1 l2 -> In (a, b) (combine l1 l2) -> P a b.
Proof.
  intros H. induction H as [|x y l1 l2 Hxy _ IH]; [intros []|].
  cbn [combine In]. intros [E | Hin]; [injection E as <- <-; exact Hxy|].
  exact (IH Hin).
Qed.

(** What a failing close adds is an error line of the port. *)
Lemma outcome_late data host port rep :
  port_outcome data host port rep ->
  Forall (failure_line port) (late rep) /\ (length (late rep) <= 1)%nat.
Proof.
  intros Ho. destruct Ho; cbn [late length]; try (split; [constructor | lia]).
  destruct c as [e|u]; cbn [close_entry length]; (split; [|lia]);
    [|constructor].
  constructor; [|constructor]. right. exists e. reflexivity.
Qed.

(** X11.  The flag and the lines agree.  The results are the lines of
    the ports, port after port: for each port a success line [k/3]
    with [k] from 1 to 3 or a failure or error line, followed by at
    most one more error line of that port.  The flag is true exactly
    when one of the lines is a success line of its port, and with a
    false flag every line is a failure or error line of its port. *)
Theorem lines_agree_with_flag (mac host port_input mac_clean : str)
        (ports : list Z) (st : state World sender_vars) :
  parse_ports port_input = inr ports ->
  check_mac mac = inr mac_clean ->
  exists flag groups st',
    send_magic_packet_advanced mac host port_input st
    = (inr (flag, concat groups), st')
    /\ Forall2 port_lines ports groups
    /\ (flag = true <->
        exists port group line,
          In (port, group) (combine ports groups)
          /\ In line group /\ success_line port line)
    /\ (flag = false ->
        Forall2 (fun port group => Forall (failure_line port) group)
          ports groups).
Proof.
  intros Hp Hm.
  destruct (sender_accepted mac host port_input ports mac_clean st Hp Hm)
    as (b & w & reps & sc & _ & Erun & Hreps).
  exists (existsb ok reps), (map lines reps). eexists.
  split; [rewrite <- flat_map_concat_map; exact Erun|].
  clear Erun Hp.
  assert (H : Forall2 port_lines ports (map lines reps)
              /\ (existsb ok reps = true ->
                  exists port group line,
                    In (port, group) (combine ports (map lines reps))
                    /\ In line group /\ success_line port line)
              /\ (existsb ok reps = false ->
                  Forall2 (fun port group => Forall (failure_line port) group)
                    ports (map lines reps))).
  { induction Hreps as [|port rep ports reps Ho _ IH].
    - cbn [existsb map]. repeat split; try constructor. discriminate.
    - destruct IH as (I1 & I2 & I3). cbn [existsb map combine].
      destruct (outcome_late _ _ _ _ Ho) as [Hlate Hlen].
      destruct (outcome_line _ _ _ _ Ho) as [(Hok & Hl) | (Hok & Hl)];
        rewrite Hok; cbn [orb].
      + split; [constructor; [exists (entry rep), (late rep)|]; auto|].
        split; [|discriminate].
        intros _. exists port, (lines rep), (entry rep).
        unfold lines. cbn [In]. auto.
      + split; [constructor; [exists (entry rep), (late rep)|]; auto|].
        split.
        * intros Hf. destruct (I2 Hf) as (p & g & l & Hin & Hg & Hs).
          exists p, g, l. cbn [In]. auto.
        * intros Hf. constructor; [|auto].
          unfold lines. constructor; assumption. }
  destruct H as (H1 & H2 & H3).
  split; [exact H1|]. split; [|exact H3].
  split; [exact H2|].
  intros (port & group & line & Hin & Hg & Hs).
  destruct (existsb ok reps) eqn:E; [reflexivity|]. exfalso.
  apply (line_kinds_disjoint port line Hs).
  pose proof (Forall2_combine _ _ _ _ _ (H3 eq_refl) Hin) as Hall.
  cbv beta in Hall. rewrite Forall_forall in Hall. exact (Hall line Hg).
Qed.

End SenderProperties.

(** *** More on the reachability poll *)

Section PollProperties.
Context {R : Runtime} {World : Type} {os : OS World}.

Lemma ping_once_exact {L} host timeout_ms (st : state World L) :
  ping_once host timeout_ms st
  = (inr (probe_answer (fst (sys_run (ping_command host timeout_ms) (world st)))),
     State (snd (sys_run (ping_command host timeout_ms) (world st)))
       (trace st
        ++ [EvRun (ping_command host timeout_ms)
              (fst (sys_run (ping_command host timeout_ms) (world st)))])
       (vars st)).
Proof.
  unfold ping_once, subprocess_run, try_, bind, call, ret. cbv zeta.
  fold (ping_command host timeout_ms).
  destruct (sys_run (ping_command host timeout_ms) (world st)) as [[e|rc] w'];
    reflexivity.
Qed.

(** X12.  [ping_once] never raises. It runs one [ping] for one echo to
    the host and answers true exactly when the subprocess exits with
    status 0, an error in running it counting as false. Outside Windows
    the wait is given in whole seconds, at least one. *)
Theorem ping_once_probe {L} (host : str) (timeout_ms : Z)
        (st : state World L) :
  exists r w',
    sys_run (ping_command host timeout_ms) (world st) = (r, w')
    /\ ping_once host timeout_ms st
       = (inr (probe_answer r),
          State w' (trace st ++ [EvRun (ping_command host timeout_ms) r])
            (vars st))
    /\ last (ping_command host timeout_ms) [] = host
    /\ exists wait,
         nth 4 (ping_command host timeout_ms) [] = str_of_Z wait
         /\ (if is_windows then wait = timeout_ms
             else (1 <= wait)%Z
                  /\ ((1000 <= timeout_ms)%Z -> wait = (timeout_ms / 1000)%Z)).
Proof.
  rewrite ping_once_exact.
  destruct (sys_run (ping_command host timeout_ms) (world st)) as [r w'].
  exists r, w'. split; [reflexivity|]. split; [reflexivity|].
  unfold ping_command. destruct is_windows; cbn [last nth].
  - split; [reflexivity|]. eexists. split; reflexivity.
  - split; [reflexivity|]. eexists. split; [reflexivity|]. split; [lia|].
    intros H. apply Z.max_r.
    apply (Z.div_le_lower_bound timeout_ms 1000 1); lia.
Qed.

Lemma ping_pass_exact host i (st : state World bool) :
  exists r w',
    ping_pass host i st
    = (inr (if probe_answer r then Break else Next),
       State w' (trace st ++ pass_events host i r)
         (if probe_answer r then true else vars st)).
Proof.
  destruct st as [w t b]. unfold ping_pass.
  cbv beta iota zeta delta
    [bind emit log_line set_progress sleep modify ret world trace vars].
  rewrite ping_once_exact.
  cbv beta iota zeta delta [world trace vars].
  match goal with
  | |- context [sys_run ?c ?w0] => destruct (sys_run c w0) as [r w1]
  end.
  exists r. cbn [fst snd]. unfold pass_events.
  destruct (probe_answer r); eexists;
    rewrite <- !app_assoc; reflexivity.
Qed.

Lemma ping_loop_exact host n a (st : state World bool) :
  exists rs w',
    polled n rs
    /\ for_each_break (map Z.of_nat (seq a n)) (ping_pass host) st
       = (inr tt,
          State w' (trace st ++ passes host (Z.of_nat a) rs)
            (if existsb probe_answer rs then true else vars st)).
Proof.
  revert a st. induction n as [|n IH]; intros a st.
  - exists [], (world st). split; [constructor|].
    destruct st as [w t b]. cbn [seq map for_each_break passes existsb].
    unfold ret. rewrite app_nil_r. reflexivity.
  - cbn [seq map for_each_break]. rewrite bind_run.
    destruct (ping_pass_exact host (Z.of_nat a) st) as (r & w1 & E).
    rewrite E. destruct (probe_answer r) eqn:Er.
    + exists [r], w1. split; [constructor; exact Er|].
      unfold ret. cbn [passes existsb]. rewrite Er, app_nil_r. reflexivity.
    + destruct (IH (S a) (State w1 (trace st ++ pass_events host (Z.of_nat a) r)
                            (vars st))) as (rs & w2 & Hrs & E2).
      rewrite E2. exists (r :: rs), w2. split; [constructor; assumption|].
      cbn [world trace vars passes existsb]. rewrite Er. cbn [orb].
      rewrite <- app_assoc, Nat2Z.inj_succ. reflexivity.
Qed.

(** The whole of [_do_ping], call by call. *)
Lemma do_ping_shape host (st : state World bool) :
  exists rs w',
    polled 10 rs
    /\ _do_ping host st
       = (inr tt,
          State w'
            (trace st
             ++ [EvLog (py "Ping check started: " ++ host); EvProgress 10]
             ++ passes host 0 rs
             ++ (if existsb probe_answer rs then reachable_report
                 else unreachable_report))
            (existsb probe_answer rs)).
Proof.
  destruct st as [w t b]. unfold _do_ping, ping_task.
  cbv beta iota zeta delta
    [bind emit log_line set_progress messagebox modify get ret
     world trace vars].
  match goal with
  | |- context [for_each_break (range 10) (ping_pass host) ?s] =>
      destruct (ping_loop_exact host 10 0 s) as (rs & w1 & Hrs & E)
  end.
  change (map Z.of_nat (seq 0 10)) with (range 10) in E.
  rewrite E. cbv beta iota zeta delta [world trace vars].
  exists rs. change (Z.of_nat 0) with 0%Z.
  destruct (existsb probe_answer rs); eexists; (split; [exact Hrs|]);
    rewrite <- !app_assoc; reflexivity.
Qed.

Lemma polled_length n rs :
  polled n rs -> (length rs <= n)%nat /\ (0 < n -> 0 < length rs)%nat.
Proof.
  intros H. induction H; cbn [length]; lia.
Qed.

Lemma probes_passes host i rs :
  probes (passes host i rs) = map probe_answer rs.
Proof.
  revert i. induction rs as [|r rs IH]; intros i; [reflexivity|].
  cbn [passes map]. rewrite probes_app, IH. unfold pass_events.
  destruct (probe_answer r) eqn:E; cbn [app probes]; rewrite E; reflexivity.
Qed.

Lemma progress_passes host a rs :
  progress_values (passes host (Z.of_nat a) rs)
  = map (fun i => (10 + i * 8)%Z) (map Z.of_nat (seq a (length rs))).
Proof.
  revert a. induction rs as [|r rs IH]; intros a; [reflexivity|].
  cbn [passes length seq map]. rewrite progress_values_app.
  replace (Z.of_nat a + 1)%Z with (Z.of_nat (S a)) by lia.
  rewrite IH. unfold pass_events.
  destruct (probe_answer r); reflexivity.
Qed.

Lemma pause_passes host i rs :
  pause_ms (passes host i rs) = (1000 * N.of_nat (failures rs))%N.
Proof.
  revert i. induction rs as [|r rs IH]; intros i; [reflexivity|].
  cbn [passes]. rewrite pause_ms_app, IH. unfold pass_events, failures.
  cbn [filter]. destruct (probe_answer r); cbn [negb app pause_ms length]; lia.
Qed.

Lemma failures_probes rs :
  failures rs = length (filter negb (map probe_answer rs)).
Proof.
  unfold failures. induction rs as [|r rs IH]; [reflexivity|].
  cbn [filter map]. destruct (probe_answer r); cbn [negb length]; lia.
Qed.

(** X13.  The poll call by call: the opening line and progress 10; then
    for each probe its line [Ping attempt i/10 ...], its progress value,
    the [ping] command and, if the probe failed, a sleep of one second;
    then the report. The answers are failures up to the first success or
    to the tenth failure. *)
Theorem poll_trace (host : str) (st : state World bool) :
  exists rs w',
    polled 10 rs
    /\ (1 <= length rs <= 10)%nat
    /\ _do_ping host st
       = (inr tt,
          State w'
            (trace st
             ++ [EvLog (py "Ping check started: " ++ host); EvProgress 10]
             ++ passes host 0 rs
             ++ (if existsb probe_answer rs then reachable_report
                 else unreachable_report))
            (existsb probe_answer rs)).
Proof.
  destruct (do_ping_shape host st) as (rs & w' & Hrs & E).
  exists rs, w'. split; [exact Hrs|]. split; [|exact E].
  destruct (polled_length _ _ Hrs). lia.
Qed.

(** X14.  The progress bar during a poll: 10 at the start, 10, 18, 26,
    ... for the probes, then 100 if the host answered and 0 if not;
    never a value outside 0..100. *)
Theorem poll_progress (host : str) (st : state World bool) :
  exists w' new up,
    _do_ping host st = (inr tt, State w' (trace st ++ new) up)
    /\ progress_values new
       = 10%Z :: map (fun i => (10 + i * 8)%Z) (range (length (probes new)))
         ++ [if up then 100%Z else 0%Z]
    /\ Forall (fun v => (0 <= v <= 100)%Z) (progress_values new).
Proof.
  destruct (do_ping_shape host st) as (rs & w' & Hrs & E).
  destruct (polled_length _ _ Hrs) as [Hl _].
  do 3 eexists. split; [exact E|].
  assert (Hp : forall tail, probes tail = [] ->
            probes ([EvLog (py "Ping check started: " ++ host); EvProgress 10]
                    ++ passes host 0 rs ++ tail) = map probe_answer rs).
  { intros tail Ht. cbn [app probes].
    rewrite probes_app, probes_passes, Ht, app_nil_r. reflexivity. }
  assert (Hv : forall tail v, progress_values tail = [v] ->
            progress_values
              ([EvLog (py "Ping check started: " ++ host); EvProgress 10]
               ++ passes host 0 rs ++ tail)
            = 10%Z :: map (fun i => (10 + i * 8)%Z) (range (length rs)) ++ [v]).
  { intros tail v Ht. cbn [app progress_values].
    rewrite progress_values_app, Ht.
    change 0%Z with (Z.of_nat 0). rewrite progress_passes. reflexivity. }
  assert (Hb : forall v, (0 <= v <= 100)%Z ->
            Forall (fun v => (0 <= v <= 100)%Z)
              (10%Z :: map (fun i => (10 + i * 8)%Z) (range (length rs)) ++ [v])).
  { intros v Hv'. constructor; [lia|]. apply Forall_app. split.
    - apply Forall_forall. intros x Hx. apply in_map_iff in Hx.
      destruct Hx as (i & <- & Hi). unfold range in Hi. apply in_map_iff in Hi.
      destruct Hi as (k & <- & Hk). apply in_seq in Hk. lia.
    - constructor; [exact Hv' | constructor]. }
  destruct (existsb probe_answer rs).
  - rewrite (Hp reachable_report eq_refl), length_map.
    rewrite (Hv reachable_report 100%Z eq_refl). split; [reflexivity|].
    apply Hb. lia.
  - rewrite (Hp unreachable_report eq_refl), length_map.
    rewrite (Hv unreachable_report 0%Z eq_refl). split; [reflexivity|].
    apply Hb. lia.
Qed.

(** X15.  The poll sleeps one second after every probe that failed, the
    tenth included, and at no other time. *)
Theorem poll_pause_time (host : str) (st : state World bool) :
  exists w' new up,
    _do_ping host st = (inr tt, State w' (trace st ++ new) up)
    /\ pause_ms new
       = (1000 * N.of_nat (length (filter negb (probes new))))%N.
Proof.
  destruct (do_ping_shape host st) as (rs & w' & Hrs & E).
  do 3 eexists. split; [exact E|].
  cbn [app pause_ms probes].
  rewrite pause_ms_app, probes_app, pause_passes, probes_passes.
  rewrite failures_probes.
  destruct (existsb probe_answer rs); cbn [reachable_report unreachable_report
    pause_ms probes]; rewrite app_nil_r; lia.
Qed.

End PollProperties.

(** *** The Execute worker *)

Section TaskProperties.
Context {R : Runtime} {World : Type} {os : OS World}.

(** Writing a list of lines to the log. *)
Lemma log_lines_run {L} (f : str -> str) lines (st : state World L) :
  exists w',
    for_each lines (fun line => log_line (f line)) st
    = (inr tt,
       State w' (trace st ++ map (fun line => EvLog (f line)) lines) (vars st)).
Proof.
  revert st. induction lines as [|line lines IH]; intros st.
  - exists (world st). destruct st. cbn [for_each map]. unfold ret.
    rewrite app_nil_r. reflexivity.
  - cbn [for_each map]. rewrite bind_run. unfold log_line at 1, emit.
    destruct (IH (State (sys_step (EvLog (f line)) (world st))
                    (trace st ++ [EvLog (f line)]) (vars st))) as (w' & E).
    rewrite E. exists w'. cbn [world trace vars].
    rewrite <- app_assoc. reflexivity.
Qed.

(** What the normalized address gives the sender passes its check. *)
Lemma normalized_passes_check s mac :
  normalize_mac s = inr mac -> check_mac mac = inr (clean_mac mac).
Proof.
  intros H. apply normalize_mac_matches, mac_pattern_shape in H.
  destruct H as [Hf _].
  destruct (separated_form_octets mac Hf) as (o & _ & _ & _ & Hc & _).
  exact Hc.
Qed.

(** The three ways a run of the worker can go. *)
Lemma run_task_shape (var_router_ip var_port var_mac : str)
      (st : state World unit) :
  let host := clean_host (strip var_router_ip) in
  let port_input := strip var_port in
  exists w' new,
    _run_task var_router_ip var_port var_mac st
    = (inr tt, State w' (trace st ++ new) (vars st))
    /\ ((exists e,
           normalize_mac var_mac = inl e
           /\ new = [EvProgress 0] ++ failure_report e)
        \/ (exists mac e,
              normalize_mac var_mac = inr mac
              /\ parse_ports port_input = inl e
              /\ new = task_opening host mac port_input ++ failure_report e)
        \/ (exists mac ports reps,
              normalize_mac var_mac = inr mac
              /\ parse_ports port_input = inr ports
              /\ Forall2 (port_outcome (packet_of mac) host) ports reps
              /\ new = task_opening host mac port_input
                       ++ run_trace reps
                       ++ [EvProgress 40]
                       ++ map (fun line : str => EvLog (py "  " ++ line))
                            (flat_map lines reps)
                       ++ (if existsb ok reps then success_report
                           else failure_report all_ports_failed))).
Proof.
  intros host port_input. destruct st as [w t u].
  unfold _run_task. fold port_input. fold host.
  cbv beta iota zeta delta
    [bind try_ emit log_line set_progress messagebox modify get ret lift raise
     invoke world trace vars].
  destruct (normalize_mac var_mac) as [e|mac] eqn:Hn.
  { do 2 eexists. split; [|left; exists e; split; [reflexivity|reflexivity]].
    unfold failure_report. rewrite <- ?app_assoc. reflexivity. }
  cbv beta iota zeta delta [world trace vars].
  destruct (parse_ports port_input) as [e|ports] eqn:Hp.
  { match goal with
    | |- context [send_magic_packet_advanced mac host port_input ?s] =>
        rewrite (sender_port_refused mac host port_input e s Hp)
    end.
    cbv beta iota zeta delta [world trace vars].
    do 2 eexists.
    split; [|right; left; exists mac, e;
             split; [reflexivity|split; reflexivity]].
    unfold task_opening, failure_report. rewrite <- ?app_assoc. reflexivity. }
  match goal with
  | |- context [send_magic_packet_advanced mac host port_input ?s] =>
      destruct (sender_accepted mac host port_input ports (clean_mac mac) s Hp
                  (normalized_passes_check _ _ Hn))
        as (mac_bytes & w1 & reps & sc & Hb & Erun & Hreps)
  end.
  rewrite Erun. cbv beta iota zeta delta [world trace vars fst snd].
  rewrite <- (packet_of_bytes _ _ _ (normalized_passes_check _ _ Hn) Hb)
    in Hreps.
  match goal with
  | |- context [for_each (flat_map lines reps) ?body ?s] =>
      destruct (log_lines_run (fun line => py "  " ++ line) (flat_map lines reps) s)
        as (w2 & Elog)
  end.
  cbv beta iota zeta delta [log_line emit world trace vars] in Elog.
  rewrite Elog.
  cbv beta iota zeta delta [world trace vars].
  destruct (existsb ok reps) eqn:Eok.
  - do 2 eexists.
    split;
      [|right; right; exists mac, ports, reps;
        split; [reflexivity|split; [reflexivity|split; [exact Hreps|]]];
        rewrite Eok; reflexivity].
    unfold task_opening, success_report. rewrite <- ?app_assoc. reflexivity.
  - do 2 eexists.
    split;
      [|right; right; exists mac, ports, reps;
        split; [reflexivity|split; [reflexivity|split; [exact Hreps|]]];
        rewrite Eok; reflexivity].
    unfold task_opening, failure_report, all_ports_failed.
    rewrite <- ?app_assoc. reflexivity.
Qed.

(** The calls of the sender show no box and move no progress bar. *)
Lemma run_trace_quiet data host ports reps :
  Forall2 (port_outcome data host) ports reps ->
  boxes (run_trace reps) = [] /\ progress_values (run_trace reps) = [].
Proof.
  intros H.
  induction H as [|port rep ports reps Ho _ [IHb IHp]]; [split; reflexivity|].
  cbn [run_trace flat_map]. fold (run_trace reps).
  rewrite !boxes_app, !progress_values_app, IHb, IHp.
  destruct Ho; split; reflexivity.
Qed.

(** Lines of the log are neither boxes, nor progress, nor calls. *)
Lemma log_events_quiet (f : str -> str) lines :
  boxes (map (fun line => EvLog (f line)) lines) = []
  /\ progress_values (map (fun line => EvLog (f line)) lines) = []
  /\ existsb successful_send (map (fun line => EvLog (f line)) lines) = false
  /\ tally is_network (map (fun line => EvLog (f line)) lines) = 0%nat
  /\ hosts (map (fun line => EvLog (f line)) lines) = []
  /\ payloads (map (fun line => EvLog (f line)) lines) = []
  /\ targets (map (fun line => EvLog (f line)) lines) = [].
Proof.
  unfold tally.
  induction lines as [|line lines (Hb & Hp & Hs & Hn & Hh & Hd & Ht)];
    [repeat split|].
  cbn [map boxes progress_values existsb successful_send orb filter is_network
       hosts payloads targets].
  repeat split; assumption.
Qed.



Lemma hosts_In h t :
  In h (hosts t) -> exists d p r, In (EvSendto d h p r) t.
Proof.
  induction t as [|ev t IH]; [intros []|].
  destruct ev; cbn [hosts In]; intros H;
    try (destruct (IH H) as (d' & p' & r' & Hin); exists d', p', r'; right;
         exact Hin).
  destruct H as [<- | H].
  - do 3 eexists. left. reflexivity.
  - destruct (IH H) as (d' & p' & r' & Hin). exists d', p', r'. right.
    exact Hin.
Qed.

(** Where the datagrams of a run of the sender go and what they
    carry. *)
Lemma run_trace_datagrams data host ports reps :
  Forall2 (port_outcome data host) ports reps ->
  Forall (eq host) (hosts (run_trace reps))
  /\ Forall (eq data) (payloads (run_trace reps))
  /\ Forall (fun p => In p ports) (targets (run_trace reps)).
Proof.
  intros H. repeat split; apply Forall_forall; intros x Hx.
  - apply hosts_In in Hx. destruct Hx as (d & p & r & Hin).
    destruct (run_trace_sendto _ _ _ _ _ _ _ _ H Hin) as (_ & -> & _).
    reflexivity.
  - apply payloads_In in Hx. destruct Hx as (h & p & r & Hin).
    destruct (run_trace_sendto _ _ _ _ _ _ _ _ H Hin) as (-> & _ & _).
    reflexivity.
  - apply targets_In in Hx. destruct Hx as (d & h & r & Hin).
    destruct (run_trace_sendto _ _ _ _ _ _ _ _ H Hin) as (_ & _ & Hp).
    exact Hp.
Qed.

Ltac task_cases var_router_ip var_port var_mac st :=
  destruct (run_task_shape var_router_ip var_port var_mac st)
    as (w' & new & E
        & [(e & Hn & ->)
          |[(mac & e & Hn & Hp & ->)
           |(mac & ports & reps & Hn & Hp & Hr & ->)]]);
  exists w'; eexists; (split; [exact E|]).

(** X16.  The Execute worker never raises and ends with exactly one
    message box. The box says Success exactly when some send of the run
    wrote the whole datagram; otherwise it is the error box, and the
    error is the one of the address, the one of the port specification,
    or that the transmission failed on all ports. *)
Theorem run_task_reports_once (var_router_ip var_port var_mac : str)
        (st : state World unit) :
  exists w' new,
    _run_task var_router_ip var_port var_mac st
    = (inr tt, State w' (trace st ++ new) (vars st))
    /\ ((existsb successful_send new = true
         /\ boxes new = [(ShowInfo, py "Success",
                          py "WOL packet transmission completed!")])
        \/ (existsb successful_send new = false
            /\ exists e,
                 boxes new = [(ShowError, py "Failed",
                               py "WOL execution failed: " ++ exn_str e)]
                 /\ (normalize_mac var_mac = inl e
                     \/ parse_ports (strip var_port) = inl e
                     \/ e = all_ports_failed))).
Proof.
  task_cases var_router_ip var_port var_mac st.
  - right. split; [reflexivity|]. exists e. split; [reflexivity|]. left.
    exact Hn.
  - right. split; [reflexivity|]. exists e. split; [reflexivity|]. right.
    left. exact Hp.
  - destruct (run_trace_quiet _ _ _ _ Hr) as [Hb _].
    destruct (log_events_quiet (fun line => py "  " ++ line) (flat_map lines reps))
      as (Hlb & _ & Hls & _).
    rewrite !existsb_app, !boxes_app, Hb, Hlb, Hls.
    rewrite <- (run_trace_ok _ _ _ _ Hr).
    destruct (existsb ok reps).
    + left. split; reflexivity.
    + right. split; [reflexivity|]. exists all_ports_failed.
      split; [reflexivity|]. right. right. reflexivity.
Qed.

(** X17.  The progress bar of the Execute worker goes 0, 10, 40, 70, 85,
    100 when some send wrote the whole datagram, and otherwise falls
    back to 0 from where the run stopped: at once for a refused address,
    from 10 for a refused port, from 40 when every port failed. *)
Theorem run_task_progress (var_router_ip var_port var_mac : str)
        (st : state World unit) :
  exists w' new,
    _run_task var_router_ip var_port var_mac st
    = (inr tt, State w' (trace st ++ new) (vars st))
    /\ progress_values new
       = match normalize_mac var_mac, parse_ports (strip var_port) with
         | inl _, _ => [0; 0]
         | inr _, inl _ => [0; 10; 0]
         | inr _, inr _ =>
             if existsb successful_send new then [0; 10; 40; 70; 85; 100]
             else [0; 10; 40; 0]
         end%Z.
Proof.
  task_cases var_router_ip var_port var_mac st; rewrite Hn; try rewrite Hp.
  - reflexivity.
  - reflexivity.
  - destruct (run_trace_quiet _ _ _ _ Hr) as [Hb Hq].
    destruct (log_events_quiet (fun line => py "  " ++ line) (flat_map lines reps))
      as (_ & Hlp & Hls & _).
    rewrite !existsb_app, !progress_values_app, Hq, Hlp, Hls.
    rewrite <- (run_trace_ok _ _ _ _ Hr).
    destruct (existsb ok reps); reflexivity.
Qed.


(** X19.  Every datagram the Execute worker sends goes to the router
    field with blanks, schemes and outer slashes removed, carries the
    packet of the normalized address and targets a port of the port
    field. *)
Theorem run_task_datagrams (var_router_ip var_port var_mac : str)
        (st : state World unit) :
  exists w' new,
    _run_task var_router_ip var_port var_mac st
    = (inr tt, State w' (trace st ++ new) (vars st))
    /\ Forall (eq (clean_host (strip var_router_ip))) (hosts new)
    /\ Forall (fun data => exists mac, normalize_mac var_mac = inr mac
                                       /\ data = packet_of mac)
              (payloads new)
    /\ Forall (fun port => exists ports,
                 parse_ports (strip var_port) = inr ports /\ In port ports)
              (targets new).
Proof.
  task_cases var_router_ip var_port var_mac st.
  - repeat split; constructor.
  - repeat split; constructor.
  - destruct (run_trace_datagrams _ _ _ _ Hr) as (Hh & Hd & Ht).
    destruct (log_events_quiet (fun line => py "  " ++ line) (flat_map lines reps))
      as (_ & _ & _ & _ & Hlh & Hld & Hlt).
    rewrite !hosts_app, !payloads_app, !targets_app, Hlh, Hld, Hlt.
    assert (Hz : hosts (if existsb ok reps then success_report
                        else failure_report all_ports_failed) = []
                 /\ payloads (if existsb ok reps then success_report
                              else failure_report all_ports_failed) = []
                 /\ targets (if existsb ok reps then success_report
                             else failure_report all_ports_failed) = [])
      by (destruct (existsb ok reps); repeat split; reflexivity).
    destruct Hz as (-> & -> & ->).
    cbn [task_opening hosts payloads targets app]. rewrite !app_nil_r.
    split; [exact Hh|]. split.
    + eapply Forall_impl; [|exact Hd]. intros d <-. exists mac. auto.
    + eapply Forall_impl; [|exact Ht]. intros p Hin. exists ports. auto.
Qed.

End TaskProperties.

(** *** Configuration and the ping dialog *)

Section ConfigProperties.
Context {R : Runtime} {J : Json} {World : Type} {os : OS World}
        {disk : Disk World}.

(** X20.  [load_config] never raises and is silent: it shows nothing,
    logs nothing, and its only file operations are the test for
    existence and, if the file is there, one read. It returns what the
    parser made of the text read; if the test or the read raises, the
    file is missing or the text does not parse, it returns the default
    configuration. *)
Theorem load_config_falls_back (st : state World journal) :
  exists w' ops cfg,
    load_config st = (inr cfg, State w' (trace st) (vars st ++ ops))
    /\ ((exists text,
           ops = [OpExists (inr true); OpReadText (inr text)]
           /\ json_loads text = inr cfg)
        \/ (cfg = default_config
            /\ (ops = [OpExists (inr false)]
                \/ (exists e, ops = [OpExists (inl e)])
                \/ (exists e, ops = [OpExists (inr true); OpReadText (inl e)])
                \/ (exists text e,
                      ops = [OpExists (inr true); OpReadText (inr text)]
                      /\ json_loads text = inl e)))).
Proof.
  destruct st as [w t u]. unfold load_config, file_call.
  cbv beta iota zeta delta [bind try_ ret lift raise world trace vars].
  destruct (path_exists w) as [[e|[|]] w1].
  - exists w1, [OpExists (inl e)], default_config. split; [reflexivity|].
    right. split; [reflexivity|]. right. left. exists e. reflexivity.
  - destruct (path_read_text w1) as [[e|text] w2].
    + exists w2, [OpExists (inr true); OpReadText (inl e)], default_config.
      split; [rewrite <- app_assoc; reflexivity|].
      right. split; [reflexivity|]. right. right. left. exists e.
      reflexivity.
    + destruct (json_loads text) as [e|cfg] eqn:Ej.
      * exists w2, [OpExists (inr true); OpReadText (inr text)],
          default_config.
        split; [rewrite <- app_assoc; reflexivity|].
        right. split; [reflexivity|]. right. right. right.
        exists text, e. split; [reflexivity | exact Ej].
      * exists w2, [OpExists (inr true); OpReadText (inr text)], cfg.
        split; [rewrite <- app_assoc; reflexivity|].
        left. exists text. split; [reflexivity | exact Ej].
  - exists w1, [OpExists (inr false)], default_config. split; [reflexivity|].
    right. split; [reflexivity|]. left. reflexivity.
Qed.

(** X21.  [on_save] never raises. It logs the success line only after
    the directory was made and the file written, and what it writes is
    the dictionary of the stripped router and port fields and the
    normalized address. In every other case it shows one error box with
    the text of the exception: for a refused address nothing is touched
    on disk, and when making the directory fails nothing is written. *)
Theorem on_save_outcome (var_router_ip var_port var_mac : str)
        (st : state World journal) :
  exists w' ops new,
    on_save var_router_ip var_port var_mac st
    = (inr tt, State w' (trace st ++ new) (vars st ++ ops))
    /\ ((exists mac,
           normalize_mac var_mac = inr mac
           /\ ops = [OpMkdir (inr tt);
                     OpWriteText
                       (json_dumps
                          (config_dict (strip var_router_ip) (strip var_port)
                             mac))
                       (inr tt)]
           /\ new = [EvLog (check_mark
                            ++ py " Configuration saved successfully")])
        \/ (exists e,
              new = [EvMessageBox ShowError (py "Save Failed") (exn_str e)]
              /\ ((normalize_mac var_mac = inl e /\ ops = [])
                  \/ (exists mac,
                        normalize_mac var_mac = inr mac
                        /\ (ops = [OpMkdir (inl e)]
                            \/ ops = [OpMkdir (inr tt);
                                      OpWriteText
                                        (json_dumps
                                           (config_dict (strip var_router_ip)
                                              (strip var_port) mac))
                                        (inl e)]))))).
Proof.
  destruct st as [w t u]. unfold on_save, save_config, file_call.
  cbv beta iota zeta delta
    [bind try_ ret lift raise emit log_line messagebox world trace vars].
  destruct (normalize_mac var_mac) as [e|mac].
  - eexists. exists [], [EvMessageBox ShowError (py "Save Failed") (exn_str e)].
    split; [rewrite app_nil_r; reflexivity|].
    right. exists e. split; [reflexivity|]. left. split; reflexivity.
  - destruct (dir_mkdir w) as [[e|[]] w1].
    + eexists. exists [OpMkdir (inl e)],
        [EvMessageBox ShowError (py "Save Failed") (exn_str e)].
      split; [reflexivity|].
      right. exists e. split; [reflexivity|]. right. exists mac.
      split; [reflexivity|]. left. reflexivity.
    + destruct (path_write_text
                  (json_dumps
                     (config_dict (strip var_router_ip) (strip var_port) mac))
                  w1) as [[e|[]] w2].
      * eexists. eexists.
        exists [EvMessageBox ShowError (py "Save Failed") (exn_str e)].
        split; [rewrite <- app_assoc; reflexivity|].
        right. exists e. split; [reflexivity|]. right. exists mac.
        split; [reflexivity|]. right. reflexivity.
      * eexists. eexists.
        exists [EvLog (check_mark ++ py " Configuration saved successfully")].
        split; [rewrite <- app_assoc; reflexivity|].
        left. exists mac. repeat split.
Qed.

(** X22.  With a blank host field the dialog shows the error box and
    does nothing else, whatever its callback is: the callback is not
    called and the dialog stays open. *)
Theorem dialog_blank_host (on_ok : str -> M World bool unit) (var_host : str)
        (st : state World bool) :
  is_empty (strip var_host) = true ->
  _ok on_ok var_host st
  = (inr tt,
     State (sys_step (EvMessageBox ShowError (py "Error")
                        (py "Please enter a target."))
              (world st))
       (trace st ++ [EvMessageBox ShowError (py "Error")
                       (py "Please enter a target.")])
       (vars st)).
Proof.
  intros H. unfold _ok. rewrite H. reflexivity.
Qed.

(** X23.  With a host the dialog calls its callback once, on the
    stripped host. If the callback returns the dialog is destroyed; if
    it raises, the dialog stays open and shows the text of the exception
    in an error box. The dialog itself never raises. *)
Theorem dialog_callback (on_ok : str -> M World bool unit) (var_host : str)
        (st : state World bool) (r : result unit) (st' : state World bool) :
  is_empty (strip var_host) = false ->
  on_ok (strip var_host) (State (world st) (trace st) false) = (r, st') ->
  _ok on_ok var_host st
  = (inr tt,
     match r with
     | inr _ => State (world st') (trace st') true
     | inl e =>
         State (sys_step (EvMessageBox ShowError (py "Error") (exn_str e))
                  (world st'))
           (trace st' ++ [EvMessageBox ShowError (py "Error") (exn_str e)])
           (vars st)
     end).
Proof.
  intros H E. unfold _ok. rewrite H.
  cbv beta iota zeta delta
    [bind try_ ret invoke modify emit messagebox world trace vars].
  change (let (world0, _, _) := st in world0) with (world st).
  change (let (_, trace0, _) := st in trace0) with (trace st).
  rewrite E. destruct r as [e|[]]; destruct st'; reflexivity.
Qed.

Lemma commands_app t1 t2 : commands (t1 ++ t2) = commands t1 ++ commands t2.
Proof.
  induction t1 as [|ev t1 IH]; [reflexivity|].
  destruct ev; cbn [app commands]; rewrite IH; reflexivity.
Qed.

(** The probes of a poll all run the same command and show no box. *)
Lemma passes_commands host i rs :
  commands (passes host i rs) = map (fun _ => ping_command host 1000) rs
  /\ boxes (passes host i rs) = [].
Proof.
  revert i. induction rs as [|r rs IH]; intros i; [split; reflexivity|].
  destruct (IH (i + 1)%Z) as [IHc IHb].
  cbn [passes map]. rewrite commands_app, boxes_app, IHc, IHb.
  unfold pass_events. destruct (probe_answer r); split; reflexivity.
Qed.

(** X24.  The dialog of the Check button. With a blank field it shows
    its error box, runs no probe and stays open. With a host in the
    field the poll runs, every probe is a [ping] of the stripped host,
    the one box shown is the verdict of the poll, and the dialog is
    destroyed. *)
Theorem dialog_check_polls (var_host : str) (st : state World bool) :
  exists w' new,
    on_check_ok var_host st
    = (inr tt,
       State w' (trace st ++ new)
         (if is_empty (strip var_host) then vars st else true))
    /\ if is_empty (strip var_host)
       then new = [EvMessageBox ShowError (py "Error")
                     (py "Please enter a target.")]
       else commands new <> []
            /\ Forall (eq (ping_command (strip var_host) 1000)) (commands new)
            /\ exists b, boxes new = [b] /\ fst (fst b) <> ShowError.
Proof.
  unfold on_check_ok, _ok. destruct (is_empty (strip var_host)).
  { do 2 eexists. split; reflexivity. }
  cbv beta iota zeta delta
    [bind try_ ret invoke modify emit messagebox world trace vars].
  change (let (world0, _, _) := st in world0) with (world st).
  change (let (_, trace0, _) := st in trace0) with (trace st).
  destruct (do_ping_shape (strip var_host) (State (world st) (trace st) false))
    as (rs & w' & Hrs & E).
  rewrite E. cbn [trace].
  do 2 eexists. split; [reflexivity|].
  destruct (passes_commands (strip var_host) 0 rs) as [Hc Hb].
  destruct (polled_length _ _ Hrs) as [_ Hl].
  cbn [app commands boxes]. rewrite commands_app, boxes_app, Hc, Hb.
  assert (Hv : commands (if existsb probe_answer rs then reachable_report
                         else unreachable_report) = []
               /\ exists b,
                    boxes (if existsb probe_answer rs then reachable_report
                           else unreachable_report) = [b]
                    /\ fst (fst b) <> ShowError).
  { destruct (existsb probe_answer rs);
      (split; [reflexivity|]; eexists; split; [reflexivity|]; discriminate). }
  destruct Hv as (-> & b & -> & Hk). rewrite app_nil_r.
  split; [|split].
  - destruct rs; [cbn [length] in Hl; lia | discriminate].
  - apply Forall_forall. intros c Hin. apply in_map_iff in Hin.
    destruct Hin as (r & <- & _). reflexivity.
  - exists b. split; [reflexivity | exact Hk].
Qed.

End ConfigProperties.

(** *** The further properties on the scripted system *)

Import DiskScript.
#[local] Existing Instance scripted_disk.
#[local] Existing Instance toy_json.

Lemma normalize_mac_output_witness :
  normalize_mac (py " aa-bb:Cc-dD-ee-0f ") = inr (py "AA:BB:CC:DD:EE:0F")
  /\ exists octets,
       length octets = 6%nat
       /\ Forall (fun b => (b < 256)%N) octets
       /\ py "AA:BB:CC:DD:EE:0F" = canonical octets
       /\ check_mac (py "AA:BB:CC:DD:EE:0F")
          = inr (clean_mac (py "AA:BB:CC:DD:EE:0F"))
       /\ fromhex (clean_mac (py "AA:BB:CC:DD:EE:0F")) = Some octets.
Proof.
  split; [vm_compute; reflexivity|].
  apply (normalize_mac_output (py " aa-bb:Cc-dD-ee-0f ")
           (py "AA:BB:CC:DD:EE:0F")).
  vm_compute. reflexivity.
Defined.

Lemma normalize_mac_idempotent_witness :
  normalize_mac (py "aa-bb-cc-dd-ee-ff") = inr (py "AA:BB:CC:DD:EE:FF")
  /\ normalize_mac (py "AA:BB:CC:DD:EE:FF") = inr (py "AA:BB:CC:DD:EE:FF").
Proof.
  split; [vm_compute; reflexivity|].
  apply (normalize_mac_idempotent (py "aa-bb-cc-dd-ee-ff")
           (py "AA:BB:CC:DD:EE:FF")).
  vm_compute. reflexivity.
Defined.

Lemma normalize_mac_ignores_blanks_witness :
  forallb isspace [9; 32]%N = true
  /\ forallb isspace [13; 10]%N = true
  /\ normalize_mac ([9; 32]%N ++ py "aa-bb-cc-dd-ee-ff" ++ [13; 10]%N)
     = normalize_mac (py "aa-bb-cc-dd-ee-ff").
Proof.
  split; [reflexivity|]. split; [reflexivity|].
  apply (normalize_mac_ignores_blanks [9; 32]%N (py "aa-bb-cc-dd-ee-ff")
           [13; 10]%N); reflexivity.
Defined.

Lemma normalize_mac_accepts_iff_witness :
  forallb is_ascii (py " aa-bb:Cc-dD-ee-0f ") = true
  /\ ((exists m, normalize_mac (py " aa-bb:Cc-dD-ee-0f ") = inr m)
      <-> separated_form (strip (py " aa-bb:Cc-dD-ee-0f ")) = true).
Proof.
  split; [reflexivity|].
  apply (normalize_mac_accepts_iff (py " aa-bb:Cc-dD-ee-0f ")). reflexivity.
Defined.

Lemma sender_ignores_separators_witness :
  filter not_separator (py "AA:BB:CC:DD:EE:FF")
  = filter not_separator (py "-AABB-CCDD-EEFF:")
  /\ clean_mac (py "AA:BB:CC:DD:EE:FF") = clean_mac (py "-AABB-CCDD-EEFF:")
  /\ packet_of (py "AA:BB:CC:DD:EE:FF") = packet_of (py "-AABB-CCDD-EEFF:")
  /\ (forall mac_clean,
        check_mac (py "AA:BB:CC:DD:EE:FF") = inr mac_clean
        <-> check_mac (py "-AABB-CCDD-EEFF:") = inr mac_clean).
Proof.
  split; [reflexivity|].
  apply (sender_ignores_separators (py "AA:BB:CC:DD:EE:FF")
           (py "-AABB-CCDD-EEFF:")).
  reflexivity.
Defined.

Lemma sockets_released_witness :
  parse_ports (py "") = inr [7; 9]%Z
  /\ check_mac (py "AA:BB:CC:DD:EE:FF") = inr (py "AABBCCDDEEFF")
  /\ exists answer st' new,
       send_magic_packet_advanced (py "AA:BB:CC:DD:EE:FF") (py "192.168.0.1")
         (py "") (sender_entry [inr 0%Z; inl refused; inl refused])
       = (inr answer, st')
       /\ trace st' = trace (sender_entry [inr 0%Z; inl refused; inl refused])
                      ++ new
       /\ tally socket_call new = length [7; 9]%Z
       /\ tally socket_opened new = tally socket_closed new.
Proof.
  split; [reflexivity|]. split; [reflexivity|].
  apply (sockets_released (py "AA:BB:CC:DD:EE:FF") (py "192.168.0.1") (py "")
           (py "AABBCCDDEEFF") [7; 9]%Z
           (sender_entry [inr 0%Z; inl refused; inl refused]));
    reflexivity.
Defined.

Lemma three_sends_per_socket_witness :
  parse_ports (py "") = inr [7; 9]%Z
  /\ check_mac (py "AA:BB:CC:DD:EE:FF") = inr (py "AABBCCDDEEFF")
  /\ exists answer st' new,
       send_magic_packet_advanced (py "AA:BB:CC:DD:EE:FF") (py "192.168.0.1")
         (py "") (sender_entry [inl refused])
       = (inr answer, st')
       /\ trace st' = trace (sender_entry [inl refused]) ++ new
       /\ length (outcomes new) = (3 * tally socket_configured new)%nat
       /\ (tally socket_configured new <= length [7; 9]%Z)%nat.
Proof.
  split; [reflexivity|]. split; [reflexivity|].
  apply (three_sends_per_socket (py "AA:BB:CC:DD:EE:FF") (py "192.168.0.1")
           (py "") (py "AABBCCDDEEFF") [7; 9]%Z (sender_entry [inl refused]));
    reflexivity.
Defined.

Lemma sender_pause_time_witness :
  parse_ports (py "9") = inr [9]%Z
  /\ check_mac (py "AA:BB:CC:DD:EE:FF") = inr (py "AABBCCDDEEFF")
  /\ exists answer st' new,
       send_magic_packet_advanced (py "AA:BB:CC:DD:EE:FF") (py "192.168.0.1")
         (py "9") (sender_entry one_bad_send)
       = (inr answer, st')
       /\ trace st' = trace (sender_entry one_bad_send) ++ new
       /\ pause_ms new
          = (300 * N.of_nat (length [9]%Z)
             + 100 * N.of_nat (length (outcomes new)))%N.
Proof.
  split; [reflexivity|]. split; [reflexivity|].
  apply (sender_pause_time (py "AA:BB:CC:DD:EE:FF") (py "192.168.0.1")
           (py "9") (py "AABBCCDDEEFF") [9]%Z (sender_entry one_bad_send));
    reflexivity.
Defined.

Lemma lines_agree_with_flag_witness :
  parse_ports (py "") = inr [7; 9]%Z
  /\ check_mac (py "AA:BB:CC:DD:EE:FF") = inr (py "AABBCCDDEEFF")
  /\ exists flag groups st',
       send_magic_packet_advanced (py "AA:BB:CC:DD:EE:FF") (py "192.168.0.1")
         (py "") (sender_entry bad_close)
       = (inr (flag, concat groups), st')
       /\ Forall2 port_lines [7; 9]%Z groups
       /\ (flag = true <->
           exists port group line,
             In (port, group) (combine [7; 9]%Z groups)
             /\ In line group /\ success_line port line)
       /\ (flag = false ->
           Forall2 (fun port group => Forall (failure_line port) group)
             [7; 9]%Z groups).
Proof.
  split; [reflexivity|]. split; [reflexivity|].
  apply (lines_agree_with_flag (py "AA:BB:CC:DD:EE:FF") (py "192.168.0.1")
           (py "") (py "AABBCCDDEEFF") [7; 9]%Z (sender_entry bad_close));
    reflexivity.
Defined.

(** Where the close of port 7 raises, port 7 has two lines and port 9
    one; the flag is true. *)
Example bad_close_run :
  fst (send_magic_packet_advanced (py "AA:BB:CC:DD:EE:FF") (py "192.168.0.1")
         (py "") (sender_entry bad_close))
  = inr (true, [py "Port 7: 3/3 transmission success";
                py "Port 7: Error - [Errno 5] Input/output error";
                py "Port 9: 3/3 transmission success"]).
Proof. vm_compute. reflexivity. Qed.

Lemma dialog_blank_host_witness :
  is_empty (strip [32; 9; 32]%N) = true
  /\ _ok _do_ping [32; 9; 32]%N (poll_entry [inl refused])
     = (inr tt,
        State (sys_step (EvMessageBox ShowError (py "Error")
                           (py "Please enter a target."))
                 (world (poll_entry [inl refused])))
          (trace (poll_entry [inl refused])
           ++ [EvMessageBox ShowError (py "Error")
                 (py "Please enter a target.")])
          (vars (poll_entry [inl refused]))).
Proof.
  split; [reflexivity|].
  apply (dialog_blank_host _do_ping [32; 9; 32]%N (poll_entry [inl refused])).
  reflexivity.
Defined.

Lemma dialog_callback_witness :
  is_empty (strip (py " 192.168.0.100 ")) = false
  /\ thread_refused (strip (py " 192.168.0.100 "))
       (State (world (poll_entry [])) (trace (poll_entry [])) false)
     = (inl no_thread, poll_entry [])
  /\ _ok thread_refused (py " 192.168.0.100 ") (poll_entry [])
     = (inr tt,
        State (sys_step (EvMessageBox ShowError (py "Error")
                           (exn_str no_thread))
                 (world (poll_entry [])))
          (trace (poll_entry [])
           ++ [EvMessageBox ShowError (py "Error") (exn_str no_thread)])
          (vars (poll_entry []))).
Proof.
  split; [reflexivity|]. split; [reflexivity|].
  apply (dialog_callback thread_refused (py " 192.168.0.100 ") (poll_entry [])
           (inl no_thread) (poll_entry [])); reflexivity.
Defined.

(** Saving on a disk where the directory cannot be made writes
    nothing and shows the error. *)
Example on_save_no_directory :
  on_save (py " http://192.168.0.1/ ") (py " 9 ") (py "aa-bb-cc-dd-ee-ff")
    (save_entry [inl denied])
  = (inr tt,
     State [] [EvMessageBox ShowError (py "Save Failed") (exn_str denied)]
       [OpMkdir (inl denied)]).
Proof. vm_compute. reflexivity. Qed.

(** An address without separators is not saved. *)
Example on_save_bare_address :
  on_save (py "http://192.168.0.1/") (py "") (py "AABBCCDDEEFF")
    (save_entry [])
  = (inr tt,
     State []
       [EvMessageBox ShowError (py "Save Failed")
          (py "Invalid MAC address format. Example: AA:BB:CC:DD:EE:FF")]
       []).
Proof. vm_compute. reflexivity. Qed.

(** A file that holds the empty dictionary is loaded as it is: the
    defaults are not filled in. *)
Example load_config_empty_dictionary :
  fst (@load_config toy_json script scripted_disk
         (State [inr 1%Z; inr 0%Z] [] []))
  = inr (VDict []).
Proof. vm_compute. reflexivity. Qed.
